(** * Prometheus: the OBJ-to-USDZ packager and the generators

    A shallow embedding of [convert_to_usdz] (src/shap_e_generator.py,
    lines 109-217) and of the Python string primitives it is built from,
    of the generators and [main] of [shap_e_generator.py], and of
    [nerf_generator.py] and [material_generator.py], followed by their
    properties.

    - Text is [string], its characters being code points below 256.
    - [int], [str.strip], [str.split], [str.startswith], [str.join] and
      [readlines] are written out.  The builtin [float] and the
      formatting of a float are a parameter ([PyFloat]).
    - The filesystem is a finite map from paths to files; the external
      tool, the name of the temporary file, the I/O operations that fail
      and the size of the deflated archive are given by an environment
      ([Env]).  A call is a computation over the filesystem that may
      raise ([M]); [try]/[except] is [try_except].
    - The code is modelled twice.  First without what it prints: these
      definitions are the calls in which no write to [stderr] or
      [stdout] raises.  Then, from the part named "What is printed" on,
      with every [print], [flush] and [traceback.print_exc()] as a step
      that may raise, named by its line in the source ([Printing],
      [NerfPrinting], [MaterialPrinting]).  The lemmas
      [printing_convert_silent], [printing_generate_text_silent],
      [printing_generate_image_silent], [nerf_printing_silent] and
      [material_printing_silent] show that the second model, when no
      write raises, is the first.
    - Interrupts that are not subclasses of [Exception] are left out. *)

From Stdlib Require Import ZArith Ascii String List Bool Lia DecimalString.
From stdpp Require Import base gmap strings list.

Local Open Scope Z_scope.

(** ** Python string primitives *)

Module Py.

Definition nl : ascii := "010"%char.
Definition cr : ascii := "013"%char.
Definition dq : ascii := "034"%char.

(** [str.isspace] on one character, for code points below 256: the ASCII
    controls 9-13 and 28-31, the space, NEL (133) and NBSP (160). *)
Definition isspace (c : ascii) : bool :=
  let n := nat_of_ascii c in
  ((9 <=? n) && (n <=? 13) || (28 <=? n) && (n <=? 32)
   || (n =? 133) || (n =? 160))%nat.

Fixpoint lstrip (s : string) : string :=
  match s with
  | EmptyString => EmptyString
  | String c s' => if isspace c then lstrip s' else s
  end.

Fixpoint rstrip (s : string) : string :=
  match s with
  | EmptyString => EmptyString
  | String c s' =>
      match rstrip s' with
      | EmptyString => if isspace c then EmptyString else String c EmptyString
      | r => String c r
      end
  end.

(** [s.strip()] *)
Definition strip (s : string) : string := rstrip (lstrip s).

(** [s.startswith(p)] *)
Fixpoint startswith (p s : string) : bool :=
  match p, s with
  | EmptyString, _ => true
  | String a p', String b s' => if Ascii.eqb a b then startswith p' s' else false
  | String _ _, EmptyString => false
  end.

Definition push_char (c : ascii) (l : list string) : list string :=
  match l with
  | [] => [String c EmptyString]
  | t :: ts => String c t :: ts
  end.

(** [s.split()]: the maximal runs of non-whitespace characters. *)
Fixpoint split (s : string) : list string :=
  match s with
  | EmptyString => []
  | String c s' =>
      if isspace c then split s'
      else match s' with
           | EmptyString => [String c EmptyString]
           | String d _ =>
               if isspace d then String c EmptyString :: split s'
               else push_char c (split s')
           end
  end.

(** [s.split(sep)[0]] for a one-character separator: the text before the
    first occurrence of [sep], the whole of [s] when there is none. *)
Fixpoint split_head (sep : ascii) (s : string) : string :=
  match s with
  | EmptyString => EmptyString
  | String c s' => if Ascii.eqb c sep then EmptyString else String c (split_head sep s')
  end.

Definition digit_val (c : ascii) : option Z :=
  let n := nat_of_ascii c in
  if ((48 <=? n) && (n <=? 57))%nat then Some (Z.of_nat n - 48) else None.

(** The digit part of an integer literal accepted by [int]: decimal
    digits, single underscores allowed between two digits. [seen] tells
    whether the previous character was a digit. *)
Fixpoint int_digits (acc : Z) (seen : bool) (s : string) : option Z :=
  match s with
  | EmptyString => if seen then Some acc else None
  | String c s' =>
      match digit_val c with
      | Some d => int_digits (10 * acc + d) true s'
      | None =>
          if Ascii.eqb c "_" && seen then
            match s' with
            | EmptyString => None
            | String _ _ => int_digits acc false s'
            end
          else None
      end
  end.

(** [int(s)] in base 10; [None] stands for [ValueError].  (The limit
    CPython puts on the number of digits, 4300 by default, is left out.) *)
Definition int (s : string) : option Z :=
  match strip s with
  | String "+" r => int_digits 0 false r
  | String "-" r => Z.opp <$> int_digits 0 false r
  | t => int_digits 0 false t
  end.

(** [str(i)] for an integer. *)
Definition str (i : Z) : string := NilZero.string_of_int (Z.to_int i).

(** [sep.join(l)] *)
Fixpoint join (sep : string) (l : list string) : string :=
  match l with
  | [] => EmptyString
  | [x] => x
  | x :: (_ :: _) as r => x +:+ sep +:+ join sep r
  end.

(** [f.readlines()] of a file opened in text mode: universal newlines,
    every terminator read as a line feed and kept at the end of its line. *)
Fixpoint readlines (s : string) : list string :=
  match s with
  | EmptyString => []
  | String c s' =>
      if Ascii.eqb c nl then String nl EmptyString :: readlines s'
      else if Ascii.eqb c cr then
        match s' with
        | String d s'' =>
            if Ascii.eqb d nl then String nl EmptyString :: readlines s''
            else String nl EmptyString :: readlines s'
        | EmptyString => [String nl EmptyString]
        end
      else push_char c (readlines s')
  end.

End Py.

(** ** The builtin [float]

    [float s] either raises [ValueError] ([None]) or gives a float; an
    f-string then formats it.  Floating point is not embedded: both are
    taken as a parameter. *)

Record PyFloat := {
  float_t : Type;
  float : string -> option float_t;
  format_float : float_t -> string
}.

(** ** Parsing the OBJ text (lines 136-166) *)

(** The two accumulators of the loop: [vertices] holds the formatted
    coordinate triples, [faces] the flattened 0-based indices. *)
Record mesh := Mesh { vertices : list string; faces : list Z }.

Definition empty_mesh : mesh := Mesh [] [].

(** [int(p.split('/')[0]) - 1] *)
Definition v_idx (p : string) : option Z :=
  (fun n => n - 1) <$> Py.int (Py.split_head "/" p).

(** [0 <= v_idx < len(vertices)] *)
Definition in_range (nv : nat) (i : Z) : bool :=
  (0 <=? i) && (i <? Z.of_nat nv).

(** The loop [for p in parts[:3]] over the remaining fields, with the
    list [face_verts] built so far; [None] stands for the [ValueError]
    of [int]. *)
Fixpoint face_loop (nv : nat) (ps : list string) (face_verts : list Z)
  : option (list Z) :=
  match ps with
  | [] => Some face_verts
  | p :: ps' =>
      match v_idx p with
      | None => None
      | Some i =>
          face_loop nv ps'
            (if in_range nv i then face_verts ++ [i] else face_verts)
      end
  end.

(** A field resolves when its leading integer parses and, made 0-based,
    is an index into the [nv] vertices read so far. *)
Definition resolves (nv : nat) (p : string) : bool :=
  match v_idx p with
  | Some i => in_range nv i
  | None => false
  end.


(** The line [raw] is a face line whose first three fields are [p1],
    [p2], [p3]. *)
Definition face_line (raw p1 p2 p3 : string) (rest : list string) : Prop :=
  Py.startswith "f " (Py.strip raw) = true /\
  drop 1 (Py.split (Py.strip raw)) = p1 :: p2 :: p3 :: rest.

(** The first three fields all resolve. *)
Definition resolve3 (nv : nat) (p1 p2 p3 : string) : bool :=
  resolves nv p1 && resolves nv p2 && resolves nv p3.

Section Parse.

Context (fl : PyFloat).

(** [f"({x}, {y}, {z})"] *)
Definition vertex_text (x y z : float_t fl) : string :=
  "(" +:+ format_float fl x +:+ ", " +:+ format_float fl y +:+ ", "
      +:+ format_float fl z +:+ ")".

(** The branch [line.startswith('v ')]; [None] when the line adds no
    vertex (fewer than four fields, or a [ValueError] of [float]). *)
Definition parse_vertex (line : string) : option string :=
  let parts := Py.split line in
  if (4 <=? length parts)%nat then
    x ← float fl (nth 1 parts "");
    y ← float fl (nth 2 parts "");
    z ← float fl (nth 3 parts "");
    Some (vertex_text x y z)
  else None.

(** The branch [line.startswith('f ')]: the indices to append to
    [faces], the empty list when the line is dropped. *)
Definition parse_face (nv : nat) (line : string) : list Z :=
  let parts := drop 1 (Py.split line) in
  if (3 <=? length parts)%nat then
    match face_loop nv (take 3 parts) [] with
    | Some face_verts =>
        if (length face_verts =? 3)%nat then face_verts else []
    | None => []
    end
  else [].

(** One iteration of [for line in obj_lines]. *)
Definition step (m : mesh) (raw : string) : mesh :=
  let line := Py.strip raw in
  if String.eqb line "" || Py.startswith "#" line then m
  else if Py.startswith "v " line then
    match parse_vertex line with
    | Some v => Mesh (vertices m ++ [v]) (faces m)
    | None => m
    end
  else if Py.startswith "f " line then
    Mesh (vertices m) (faces m ++ parse_face (length (vertices m)) line)
  else m.

Definition parse_from (m : mesh) (obj_lines : list string) : mesh :=
  fold_left step obj_lines m.

Definition parse (obj_lines : list string) : mesh :=
  parse_from empty_mesh obj_lines.

(** [not vertices or not faces] *)
Definition no_geometry (m : mesh) : bool :=
  match vertices m, faces m with
  | _ :: _, _ :: _ => false
  | _, _ => true
  end.

(** The number of face lines of [obj_lines] that were retained, counted
    along the run of the loop started in [m]. *)
Fixpoint retained_from (m : mesh) (obj_lines : list string) : nat :=
  match obj_lines with
  | [] => 0%nat
  | l :: ls =>
      ((if (length (faces (step m l)) =? length (faces m))%nat then 0 else 1)
       + retained_from (step m l) ls)%nat
  end.

Definition retained (obj_lines : list string) : nat :=
  retained_from empty_mesh obj_lines.

(** The number of vertex lines of [obj_lines] that parsed. *)
Fixpoint parsed_from (m : mesh) (obj_lines : list string) : nat :=
  match obj_lines with
  | [] => 0%nat
  | l :: ls =>
      ((if (length (vertices (step m l)) =? length (vertices m))%nat
        then 0 else 1)
       + parsed_from (step m l) ls)%nat
  end.

Definition parsed (obj_lines : list string) : nat :=
  parsed_from empty_mesh obj_lines.

(** A formatted coordinate triple: three floats that [float] gave. *)
Definition is_triple (v : string) : Prop :=
  exists a b c x y z,
    float fl a = Some x /\ float fl b = Some y /\ float fl c = Some z /\
    v = vertex_text x y z.

(** The invariant of the loop: every index read so far points into the
    vertices read so far, and every vertex is a formatted triple. *)
Definition well_formed (m : mesh) : Prop :=
  Forall (fun i => 0 <= i < Z.of_nat (length (vertices m))) (faces m) /\
  Forall is_triple (vertices m).

End Parse.

(** ** The USD document (lines 172-196) *)

Module Usd.

Definition nl : string := String Py.nl "".
Definition dq : string := String Py.dq "".

(** [",\n            "] *)
Definition sep : string := "," +:+ nl +:+ "            ".

Definition face_vertex_indices (m : mesh) : list string := Py.str <$> faces m.

Definition num_faces (m : mesh) : nat := (length (faces m) / 3)%nat.

Definition face_vertex_counts (m : mesh) : list string :=
  replicate (num_faces m) "3".

Definition preamble : string :=
  "#usda 1.0" +:+ nl ++
  "(" +:+ nl ++
  "    defaultPrim = " +:+ dq +:+ "Root" +:+ dq +:+ nl ++
  "    metersPerUnit = 1" +:+ nl ++
  "    upAxis = " +:+ dq +:+ "Y" +:+ dq +:+ nl ++
  ")" +:+ nl ++
  nl ++
  "def Xform " +:+ dq +:+ "Root" +:+ dq +:+ nl ++
  "{" +:+ nl ++
  "    def Mesh " +:+ dq +:+ "Mesh" +:+ dq +:+ nl ++
  "    {" +:+ nl.

Definition postamble : string :=
  "        normal3f[] normals = []" +:+ nl ++
  "        texCoord2f[] primvars:st = []" +:+ nl ++
  "    }" +:+ nl ++
  "}" +:+ nl.

Definition usd_content (m : mesh) : string :=
  preamble ++
  "        int[] faceVertexCounts = [" +:+ Py.join sep (face_vertex_counts m) +:+ "]" +:+ nl ++
  "        int[] faceVertexIndices = [" +:+ Py.join sep (face_vertex_indices m) +:+ "]" +:+ nl ++
  "        point3f[] points = [" +:+ Py.join sep (vertices m) +:+ "]" +:+ nl ++
  postamble.

End Usd.

(** ** The filesystem and the environment of one call *)

(** The exceptions the modelled operations raise; all are subclasses of
    [Exception]. *)
Inductive exn :=
| FileNotFoundError
| FileExistsError
| TimeoutExpired
| UnicodeDecodeError
| OSError.

(** What a file holds.  [ZipUnfinished] is a container opened with mode
    ['w'] to which no complete entry has been added; [Blob] is any other
    data. *)
#[warnings="-register-all"]
Inductive content :=
| Text (s : string)
| Zip (entries : list (string * content))
| ZipUnfinished
| Blob.

Record file := File { data : content; size : Z }.

(** What the call cannot decide by itself: the external tool, the name
    [tempfile] picks, the I/O operations that fail, and the size of the
    deflated archive. *)
Record Env := {
  usdzconvert :
    string -> string -> gmap string file -> (exn + Z) * gmap string file;
  read_err : option exn;
  tmp_name : gmap string file -> string;
  tmp_create_err : option exn;
  tmp_write_err : option exn;
  zip_open_err : option exn;
  zip_write_err : option exn;
  unlink_err : option exn;
  archive_size : content -> Z
}.

(** Computations over the filesystem that may raise. *)
Definition M (A : Type) : Type :=
  gmap string file -> (exn + A) * gmap string file.

Definition ret {A} (a : A) : M A := fun fs => (inr a, fs).

Definition raise {A} (e : exn) : M A := fun fs => (inl e, fs).

Definition bind {A B} (m : M A) (k : A -> M B) : M B :=
  fun fs =>
    match m fs with
    | (inr a, fs') => k a fs'
    | (inl e, fs') => (inl e, fs')
    end.

(** [try: body except Exception: handler]; what [body] did to the
    filesystem before raising stays done. *)
Definition try_except {A} (body : M A) (handler : exn -> M A) : M A :=
  fun fs =>
    match body fs with
    | (inl e, fs') => handler e fs'
    | r => r
    end.

Declare Scope io_scope.
Delimit Scope io_scope with io.
Notation "x <- m ;; k" := (bind m (fun x => k))
  (at level 100, m at next level, right associativity) : io_scope.
Notation "m ;; k" := (bind m (fun _ => k))
  (at level 100, right associativity) : io_scope.

Module Os.

(** [os.path.exists] *)
Definition path_exists (p : string) : M bool :=
  fun fs => (inr (bool_decide (is_Some (fs !! p))), fs).

(** [os.path.getsize] *)
Definition getsize (p : string) : M Z :=
  fun fs =>
    match fs !! p with
    | Some f => (inr (size f), fs)
    | None => (inl FileNotFoundError, fs)
    end.

End Os.

Section Convert.

Context (fl : PyFloat) (env : Env).

(** [subprocess.run(['usdzconvert', obj_path, usdz_path], ...)], giving
    [result.returncode]. *)
Definition run_usdzconvert (obj_path usdz_path : string) : M Z :=
  usdzconvert env obj_path usdz_path.

(** [with open(obj_path, 'r') as f: obj_lines = f.readlines()] *)
Definition read_obj (obj_path : string) : M (list string) :=
  fun fs =>
    match read_err env with
    | Some e => (inl e, fs)
    | None =>
        match fs !! obj_path with
        | None => (inl FileNotFoundError, fs)
        | Some (File (Text s) _) => (inr (Py.readlines s), fs)
        | Some _ => (inl UnicodeDecodeError, fs)
        end
    end.

(** [with tempfile.NamedTemporaryFile(mode='w', suffix='.usd',
    delete=False, ...) as tmp_usd: tmp_usd.write(usd_content)], giving
    [tmp_usd.name].  The file is created exclusively: when the name the
    environment proposes is taken the creation raises [FileExistsError],
    as [tempfile] does once it has run out of candidates.  With
    [delete=False] the file is kept when the block is left, also when
    writing raised. *)
Definition write_tmp_usd (usd_content : string) : M string :=
  fun fs =>
    match tmp_create_err env with
    | Some e => (inl e, fs)
    | None =>
        let name := tmp_name env fs in
        match fs !! name with
        | Some _ => (inl FileExistsError, fs)
        | None =>
            match tmp_write_err env with
            | Some e => (inl e, <[name := File (Text "") 0]> fs)
            | None =>
                (inr name,
                 <[name := File (Text usd_content)
                             (Z.of_nat (String.length usd_content))]> fs)
            end
        end
    end.

(** [with zipfile.ZipFile(usdz_path, 'w', zipfile.ZIP_DEFLATED) as usdz:
    usdz.write(tmp_usd_path, 'model.usd')].  Mode ['w'] creates the
    destination or truncates it; the entry holds what the temporary file
    holds at that moment.  When adding the entry raises, the
    destination stays a container without a complete entry,
    [ZipUnfinished].  Its bytes are not tracked and its [size] is
    written 0, which is not the size on disk: leaving the [with] block
    closes the archive, so that a file with the 22 bytes of an empty
    central directory is left when nothing of the entry was written,
    and a longer one otherwise.  Nothing reads the size of such a
    file: [size_guard] is not reached after an exception. *)
Definition write_usdz (usdz_path tmp_usd_path : string) : M unit :=
  fun fs =>
    match zip_open_err env with
    | Some e => (inl e, fs)
    | None =>
        let fs1 := <[usdz_path := File ZipUnfinished 0]> fs in
        match zip_write_err env with
        | Some e => (inl e, fs1)
        | None =>
            match fs1 !! tmp_usd_path with
            | None => (inl FileNotFoundError, fs1)
            | Some f =>
                let z := Zip [("model.usd", data f)] in
                (inr tt, <[usdz_path := File z (archive_size env z)]> fs1)
            end
        end
    end.

(** [os.unlink(tmp_usd_path)] *)
Definition unlink (p : string) : M unit :=
  fun fs =>
    match unlink_err env with
    | Some e => (inl e, fs)
    | None =>
        match fs !! p with
        | None => (inl FileNotFoundError, fs)
        | Some _ => (inr tt, delete p fs)
        end
    end.

(** [os.path.exists(usdz_path) and os.path.getsize(usdz_path) > 1000] *)
Definition size_guard (usdz_path : string) : M bool :=
  (ex <- Os.path_exists usdz_path ;;
   if ex : bool then (sz <- Os.getsize usdz_path ;; ret (1000 <? sz))
   else ret false)%io.

(** Lines 111-125: the external tool.  The result is [true] when the
    function returns [True] at line 121, [false] when control falls
    through to the fallback. *)
Definition tool_attempt (obj_path usdz_path : string) : M bool :=
  try_except
    (rc <- run_usdzconvert obj_path usdz_path ;;
     if rc =? 0 then size_guard usdz_path else ret false)%io
    (fun _ => ret false).

(** Lines 128-217: the fallback, without its writes to [stderr] (line
    169 in the [try]; lines 214 and 216 in the handler, where an
    exception of a write leaves the function).  This is the call in
    which none of these writes raises; [Printing.fallback] has them. *)
Definition fallback (obj_path usdz_path : string) : M bool :=
  try_except
    (obj_lines <- read_obj obj_path ;;
     let m := parse fl obj_lines in
     if no_geometry m then ret false
     else
       tmp_usd_path <- write_tmp_usd (Usd.usd_content m) ;;
       write_usdz usdz_path tmp_usd_path ;;
       unlink tmp_usd_path ;;
       size_guard usdz_path)%io
    (fun _ => ret false).

(** [convert_to_usdz(obj_path, usdz_path)], without the writes to
    [stderr] of the fallback. *)
Definition convert_to_usdz (obj_path usdz_path : string) : M bool :=
  (returned <- tool_attempt obj_path usdz_path ;;
   if returned : bool then ret true else fallback obj_path usdz_path)%io.

(** No I/O operation of the fallback fails. *)
Definition no_faults : Prop :=
  read_err env = None /\ tmp_create_err env = None /\
  tmp_write_err env = None /\ zip_open_err env = None /\
  zip_write_err env = None /\ unlink_err env = None.

(** The filesystem after a fallback that ran to its end: the temporary
    document was written and deleted, the destination holds the archive. *)
Definition packaged (usdz : string) (doc : string) (fs : gmap string file)
  : gmap string file :=
  let z := Zip [("model.usd", Text doc)] in
  delete (tmp_name env fs)
    (<[usdz := File z (archive_size env z)]>
       (<[usdz := File ZipUnfinished 0]>
          (<[tmp_name env fs :=
               File (Text doc) (Z.of_nat (String.length doc))]> fs))).

End Convert.

(** ** Concrete instances, for running the model *)

(** A fragment of [float] and of its formatting: decimal literals
    [[sign] digits [. digits]] with at most 15 digits, at most 4 of them
    after the point.  On these CPython's conversion is exact up to
    printing and [repr] uses no exponent, so the text below is the text
    CPython prints.  Every other string is rejected here (CPython accepts
    more), so the fragment is used on inputs inside it only. *)
Module DecFloat.

Record lit := Lit { neg : bool; ipart : string; fpart : string }.

Definition is_digit (c : ascii) : bool :=
  let n := nat_of_ascii c in ((48 <=? n) && (n <=? 57))%nat.

Fixpoint all_digits (s : string) : bool :=
  match s with
  | EmptyString => true
  | String c s' => is_digit c && all_digits s'
  end.

(** The text after the first [sep], if there is one. *)
Fixpoint after (sep : ascii) (s : string) : option string :=
  match s with
  | EmptyString => None
  | String c s' => if Ascii.eqb c sep then Some s' else after sep s'
  end.

Fixpoint lstrip0 (s : string) : string :=
  match s with
  | String "0" s' => lstrip0 s'
  | _ => s
  end.

Fixpoint rstrip0 (s : string) : string :=
  match s with
  | EmptyString => EmptyString
  | String c s' =>
      match rstrip0 s' with
      | EmptyString => if Ascii.eqb c "0" then EmptyString else String c EmptyString
      | r => String c r
      end
  end.

Definition or_zero (s : string) : string :=
  match s with EmptyString => "0" | _ => s end.

Definition parse (s : string) : option lit :=
  let t := Py.strip s in
  let '(ng, body) :=
    match t with
    | String "-" r => (true, r)
    | String "+" r => (false, r)
    | _ => (false, t)
    end in
  let ip := Py.split_head "." body in
  let fp := default "" (after "." body) in
  if all_digits ip && all_digits fp
     && (1 <=? String.length ip)%nat
     && (String.length ip + String.length fp <=? 15)%nat
     && (String.length fp <=? 4)%nat
  then Some (Lit ng (or_zero (lstrip0 ip)) (or_zero (rstrip0 fp)))
  else None.

Definition format (x : lit) : string :=
  (if neg x then "-" else "") +:+ ipart x +:+ "." +:+ fpart x.

Definition model : PyFloat :=
  {| float_t := lit; float := parse; format_float := format |}.

End DecFloat.

Module Example.

(** No [usdzconvert] on the machine: [subprocess.run] raises
    [FileNotFoundError] and touches nothing. *)
Definition no_tool (obj_path usdz_path : string) (fs : gmap string file)
  : (exn + Z) * gmap string file := (inl FileNotFoundError, fs).

(** The name [tempfile] picks on the machines below. *)
Definition tmp : string := "/tmp/tmpk3v9x2.usd".

(** A machine without the external tool, on which opening the archive,
    adding the entry and deleting the temporary file fail as told. *)
Definition machine (zip_open zip_write unlnk : option exn) (sz : content -> Z)
  : Env :=
  {| usdzconvert := no_tool;
     read_err := None;
     tmp_name := fun _ => tmp;
     tmp_create_err := None;
     tmp_write_err := None;
     zip_open_err := zip_open;
     zip_write_err := zip_write;
     unlink_err := unlnk;
     archive_size := sz |}.

(** An environment without I/O faults. *)
Definition quiet (sz : content -> Z) : Env := machine None None None sz.

(** The size of a one-entry archive whose entry is kept uncompressed in
    one stored block: local header and name (30 + 9), block header and
    data (5 + n), central directory record and name (46 + 9), end record
    (22).  The deflated archive is no larger. *)
Definition stored_size (c : content) : Z :=
  match c with
  | Zip [(_, Text s)] => 121 + Z.of_nat (String.length s)
  | _ => 22
  end.

Definition triangle : string :=
  "v 0 0 0" +:+ Usd.nl +:+ "v 1 0 0" +:+ Usd.nl +:+ "v 0 1 0" +:+ Usd.nl +:+
  "f 1 2 3" +:+ Usd.nl.


(** A disk that holds the OBJ text [obj] as [mesh.obj] and nothing else. *)
Definition disk (obj : string) : gmap string file :=
  {[ "mesh.obj" := File (Text obj) (Z.of_nat (String.length obj)) ]}.

(** No fault, archives of the stored size. *)
Definition small : Env := quiet stored_size.

(** No fault, archives of 2000 bytes. *)
Definition large : Env := quiet (fun _ => 2000).

(** The directory of the destination is missing: opening the archive
    raises [FileNotFoundError]. *)
Definition no_dir : Env :=
  machine (Some FileNotFoundError) None None stored_size.

(** The disk is full: adding the entry to the archive raises [OSError]. *)
Definition disk_full : Env := machine None (Some OSError) None stored_size.

End Example.

(** ** Reading the archive back *)

(** Modelled from the spec: the repository has no reader of the scene
    document, and the round trip of the spec ("packaging then unpacking
    the container yields exactly one entry whose parsed vertex/face
    counts match the source mesh's retained counts") needs one.
    [read_counts] finds the three arrays in the order in which they are
    written and counts their entries: in an array that is not blank, the
    commas outside parentheses plus one. *)
Module UsdRead.

(** The entries of a container. *)
Definition unzip (c : content) : option (list (string * content)) :=
  match c with
  | Zip entries => Some entries
  | _ => None
  end.

Fixpoint strip_prefix (p s : string) : option string :=
  match p, s with
  | EmptyString, _ => Some s
  | String a p', String b s' =>
      if Ascii.eqb a b then strip_prefix p' s' else None
  | String _ _, EmptyString => None
  end.

(** The text after the first occurrence of [pat]. *)
Fixpoint find_after (pat s : string) : option string :=
  match strip_prefix pat s with
  | Some r => Some r
  | None =>
      match s with
      | EmptyString => None
      | String _ s' => find_after pat s'
      end
  end.

(** The text before the first [c], and the text after it. *)
Fixpoint until (c : ascii) (s : string) : option (string * string) :=
  match s with
  | EmptyString => None
  | String a s' =>
      if Ascii.eqb a c then Some (EmptyString, s')
      else
        match until c s' with
        | Some (x, r) => Some (String a x, r)
        | None => None
        end
  end.

(** The commas of [s] that are outside parentheses, [depth] parentheses
    being open at the start. *)
Fixpoint commas (depth : nat) (s : string) : nat :=
  match s with
  | EmptyString => 0%nat
  | String c s' =>
      if Ascii.eqb c "(" then commas (S depth) s'
      else if Ascii.eqb c ")" then commas (Nat.pred depth) s'
      else if Ascii.eqb c "," then
        match depth with
        | O => S (commas depth s')
        | S _ => commas depth s'
        end
      else commas depth s'
  end.

Fixpoint blank (s : string) : bool :=
  match s with
  | EmptyString => true
  | String c s' => Py.isspace c && blank s'
  end.

Definition count_items (body : string) : nat :=
  if blank body then 0%nat else S (commas 0 body).

Record counts := Counts { n_points : nat; n_faces : nat; n_indices : nat }.

Definition read_counts (doc : string) : option counts :=
  r1 ← find_after "faceVertexCounts = [" doc;
  '(cs, r2) ← until "]" r1;
  r3 ← find_after "faceVertexIndices = [" r2;
  '(ixs, r4) ← until "]" r3;
  r5 ← find_after "points = [" r4;
  '(ps, _) ← until "]" r5;
  Some (Counts (count_items ps) (count_items cs) (count_items ixs)).

(** The characters that matter to the reader. *)
Definition plain_char (c : ascii) : bool :=
  negb (Ascii.eqb c "(" || Ascii.eqb c ")" || Ascii.eqb c ","
        || Ascii.eqb c "]").

Fixpoint all_chars (P : ascii -> bool) (s : string) : bool :=
  match s with
  | EmptyString => true
  | String c s' => P c && all_chars P s'
  end.

Definition plain (s : string) : bool := all_chars plain_char s.

Definition no_close_char (c : ascii) : bool := negb (Ascii.eqb c "]").

Definition starts_nonspace (x : string) : bool :=
  match x with
  | EmptyString => false
  | String c _ => negb (Py.isspace c)
  end.

(** Reading [x] changes neither the count of commas nor the depth. *)
Definition neutral (x : string) : Prop :=
  forall d r, commas d (x +:+ r) = commas d r.

(** What the reader needs of an array entry. *)
Definition entry (x : string) : Prop :=
  neutral x /\ starts_nonspace x = true /\ all_chars no_close_char x = true.

(** The characters of the decimal text of an integer. *)
Definition num_char (c : ascii) : bool :=
  let n := nat_of_ascii c in
  ((48 <=? n) && (n <=? 57))%nat || Ascii.eqb c "-".

End UsdRead.

(** The text of a float has no parenthesis, comma or bracket, as is the
    case of every text CPython prints for a float. *)
Definition plain_floats (fl : PyFloat) : Prop :=
  forall s x, float fl s = Some x -> UsdRead.plain (format_float fl x) = true.

(** ** Lines of the OBJ text, by kind *)

(** A line the loop passes over: blank, a comment, or a directive that
    is neither ['v '] nor ['f '] (normals, texture coordinates, groups,
    materials). *)
Definition ignored_line (raw : string) : bool :=
  let line := Py.strip raw in
  String.eqb line "" || Py.startswith "#" line
  || negb (Py.startswith "v " line || Py.startswith "f " line).

(** ** More machines, for running the model *)

Module Machine.

(** [usdzconvert] is installed: it returns 0 and leaves [sz] bytes at the
    destination. *)
Definition tool_writes (sz : Z) (obj_path usdz_path : string)
    (fs : gmap string file) : (exn + Z) * gmap string file :=
  (inr 0, <[usdz_path := File Blob sz]> fs).

(** A machine with the external tool and no I/O fault. *)
Definition with_tool (sz : Z) : Env :=
  {| usdzconvert := tool_writes sz;
     read_err := None;
     tmp_name := fun _ => Example.tmp;
     tmp_create_err := None;
     tmp_write_err := None;
     zip_open_err := None;
     zip_write_err := None;
     unlink_err := None;
     archive_size := Example.stored_size |}.

End Machine.

(** * The generators, the NeRF module and the material module

    [generate_text_to_3d] and [generate_image_to_3d] of
    [shap_e_generator.py], [generate_nerf] of [nerf_generator.py] and
    [generate_materials] of [material_generator.py], over the same
    filesystem and with the same computations [M] as the packager.

    - The model pipeline ([setup_models], [sample_latents],
      [decode_latent_mesh]), [trimesh], [PIL], [torch] and the imports
      are given by environments: a call into them raises or returns.
    - The filesystem holds files; the directories that exist are given
      by the environment, and [os.makedirs], which creates directories
      only, raises or returns.
    - These definitions are the calls in which no write to [stderr] or
      [stdout] raises: of what is printed, the generators give the lines
      on [stdout] beside their value, and the writes to [stderr] are
      left out.  The functions with their writes, and the [main]
      functions, come after "What is printed". *)

(** ** More Python string primitives *)

Module PyStr.

(** [c.isalnum()] for code points below 256: the ASCII digits and
    letters, the Latin-1 letters, and the superscript digits and
    fractions of Latin-1. *)
Definition isalnum (c : ascii) : bool :=
  let n := nat_of_ascii c in
  ((48 <=? n) && (n <=? 57) || (65 <=? n) && (n <=? 90)
   || (97 <=? n) && (n <=? 122)
   || (n =? 170) || (n =? 178) || (n =? 179) || (n =? 181)
   || (n =? 185) || (n =? 186) || (188 <=? n) && (n <=? 190)
   || (192 <=? n) && (n <=? 214) || (216 <=? n) && (n <=? 246)
   || (248 <=? n) && (n <=? 255))%nat.

(** ["".join(c for c in s if P(c))] *)
Fixpoint select (P : ascii -> bool) (s : string) : string :=
  match s with
  | EmptyString => EmptyString
  | String c s' => if P c then String c (select P s') else select P s'
  end.

(** [s[:n]] *)
Fixpoint take (n : nat) (s : string) : string :=
  match n, s with
  | S k, String c s' => String c (take k s')
  | _, _ => EmptyString
  end.

(** [s.replace(old, new)] for a non-empty [old], scanning from the
    left; [skip] characters of a match just replaced are still to be
    passed over. *)
Fixpoint replace_go (old new : string) (skip : nat) (s : string) : string :=
  match s with
  | EmptyString => EmptyString
  | String c s' =>
      match skip with
      | S k => replace_go old new k s'
      | O =>
          if Py.startswith old s
          then new +:+ replace_go old new (String.length old - 1) s'
          else String c (replace_go old new 0 s')
      end
  end.

(** [new] put before every character and at the end: what [replace]
    does for an empty [old]. *)
Fixpoint interleave (new : string) (s : string) : string :=
  match s with
  | EmptyString => new
  | String c s' => new +:+ String c (interleave new s')
  end.

(** [s.replace(old, new)] *)
Definition replace (old new s : string) : string :=
  match old with
  | EmptyString => interleave new s
  | String _ _ => replace_go old new 0 s
  end.

(** [s.endswith(suffix)] *)
Fixpoint endswith (suffix s : string) : bool :=
  if String.eqb s suffix then true
  else match s with
       | EmptyString => false
       | String _ s' => endswith suffix s'
       end.

(** [c.lower()] for code points below 256. *)
Definition lower_char (c : ascii) : ascii :=
  let n := nat_of_ascii c in
  if ((65 <=? n) && (n <=? 90) || (192 <=? n) && (n <=? 214)
      || (216 <=? n) && (n <=? 222))%nat
  then ascii_of_nat (n + 32) else c.

(** [s.lower()] *)
Fixpoint lower (s : string) : string :=
  match s with
  | EmptyString => EmptyString
  | String c s' => String (lower_char c) (lower s')
  end.

(** [pat in s] *)
Fixpoint occurs (pat s : string) : bool :=
  Py.startswith pat s
  || match s with
     | EmptyString => false
     | String _ s' => occurs pat s'
     end.

End PyStr.

(** [os.path.join(a, b)] on a POSIX system. *)
Module PosixPath.

Definition join (a b : string) : string :=
  if Py.startswith "/" b then b
  else if String.eqb a "" || PyStr.endswith "/" a then a +:+ b
  else a +:+ "/" +:+ b.

End PosixPath.

(** ** File names (lines 273-277, 289, 295 and 398-403) *)

(** [c.isalnum() or c in (' ', '-', '_')] *)
Definition keep_char (c : ascii) : bool :=
  PyStr.isalnum c || Ascii.eqb c " " || Ascii.eqb c "-" || Ascii.eqb c "_".

(** The file name made from the prompt (lines 273-276). *)
Definition safe_prompt (prompt : string) : string :=
  let safe_prompt := Py.strip (PyStr.select keep_char (PyStr.take 30 prompt)) in
  let safe_prompt := PyStr.replace " " "_" safe_prompt in
  if String.eqb safe_prompt "" then "model" else safe_prompt.

(** The file name made from the stem of the image path (lines 400-402). *)
Definition safe_name (image_name : string) : string :=
  let safe_name := Py.strip (PyStr.select keep_char image_name) in
  if String.eqb safe_name "" then "model" else safe_name.

(** [os.path.join(output_dir, f"{safe_prompt}.ply")] *)
Definition output_path (output_dir name : string) : string :=
  PosixPath.join output_dir (name +:+ ".ply").

(** [output_path.replace('.ply', '.usdz')] *)
Definition usdz_path (output_path : string) : string :=
  PyStr.replace ".ply" ".usdz" output_path.

(** [output_path.replace('.ply', '.obj')] *)
Definition obj_path (output_path : string) : string :=
  PyStr.replace ".ply" ".obj" output_path.

(** The characters of a file name made from a prompt. *)
Definition name_char (c : ascii) : bool :=
  PyStr.isalnum c || Ascii.eqb c "-" || Ascii.eqb c "_".

(** Not a path separator, not a dot, not a space. *)
Definition component_char (c : ascii) : bool :=
  negb (Ascii.eqb c "/") && negb (Ascii.eqb c ".") && negb (Py.isspace c).

(** The last character of [s] is not white space. *)
Fixpoint ends_nonspace (s : string) : bool :=
  match s with
  | EmptyString => false
  | String c EmptyString => negb (Py.isspace c)
  | String _ s' => ends_nonspace s'
  end.

(** Any character but [c]. *)
Definition not_char (c : ascii) (x : ascii) : bool := negb (Ascii.eqb x c).

(** The directory part [os.path.join] puts before a relative name. *)
Definition dir_prefix (a : string) : string :=
  if String.eqb a "" || PyStr.endswith "/" a then a else a +:+ "/".

(** ** The generators (lines 220-453) *)

(** What a run of a generator cannot decide by itself: the environment
    of the packager, the stages of the model pipeline that raise, the
    directory creation and the file removal that fail, what
    [mesh.export] writes, and [Path(...).stem]. *)
Record GenEnv := {
  packager : Env;
  setup_models_err : option exn;
  load_image_err : option exn;
  sample_latents_err : option exn;
  decode_latent_mesh_err : option exn;
  makedirs_err : option exn;
  mesh_export : string -> gmap string file -> (exn + unit) * gmap string file;
  remove_err : option exn;
  stem : string -> string
}.

Section Generate.

Context (fl : PyFloat) (genv : GenEnv).

(** A call into the model pipeline or the operating system that either
    raises or changes no file.  For [setup_models] this holds of the
    runs in which [load_model] finds its checkpoints on disk; a
    [setup_models] that writes them is [Printing.setup_models]. *)
Definition stage (err : option exn) : M unit :=
  fun fs =>
    match err with
    | Some e => (inl e, fs)
    | None => (inr tt, fs)
    end.

(** [os.remove(path)] *)
Definition os_remove (path : string) : M unit :=
  fun fs =>
    match remove_err genv with
    | Some e => (inl e, fs)
    | None =>
        match fs !! path with
        | None => (inl FileNotFoundError, fs)
        | Some _ => (inr tt, delete path fs)
        end
    end.

(** Lines 293-315 (and 419-441): the OBJ export, the conversion and the
    removal of the OBJ file, inside [try ... except Exception], without
    the writes to [stderr] of the two branches and of the handler;
    [Printing.export_usdz] has them. *)
Definition export_usdz (output_path : string) : M unit :=
  try_except
    (mesh_export genv (obj_path output_path) ;;
     usdz_success <- convert_to_usdz fl (packager genv)
                       (obj_path output_path) (usdz_path output_path) ;;
     if usdz_success : bool
     then try_except (os_remove (obj_path output_path)) (fun _ => ret tt)
     else ret tt)%io
    (fun _ => ret tt).

(** Lines 282-326 (and 408-452): the PLY export, whose exception is
    raised again, the USDZ step, and the lines printed on [stdout];
    without the writes to [stderr], which [Printing.save_mesh] and
    [Printing.announce] have. *)
Definition save_mesh (output_path : string) : M (list string) :=
  (mesh_export genv output_path ;;
   export_usdz output_path ;;
   found <- Os.path_exists (usdz_path output_path) ;;
   ret (("OUTPUT_PATH: " +:+ output_path)
          :: if found : bool
             then ["USDZ_PATH: " +:+ usdz_path output_path] else []))%io.

(** [generate_text_to_3d(prompt, output_dir)] when no write raises and
    [setup_models] writes no file: the value returned and the lines
    printed on [stdout]. *)
Definition generate_text_to_3d (prompt output_dir : string)
  : M (string * list string) :=
  (stage (setup_models_err genv) ;;
   stage (sample_latents_err genv) ;;
   stage (decode_latent_mesh_err genv) ;;
   stage (makedirs_err genv) ;;
   out <- save_mesh (output_path output_dir (safe_prompt prompt)) ;;
   ret (output_path output_dir (safe_prompt prompt), out))%io.

(** [generate_image_to_3d(image_path, prompt, output_dir)] when no
    write raises and [setup_models] writes no file. *)
Definition generate_image_to_3d (image_path prompt output_dir : string)
  : M (string * list string) :=
  (stage (setup_models_err genv) ;;
   found <- Os.path_exists image_path ;;
   if negb found then raise FileNotFoundError
   else
     stage (load_image_err genv) ;;
     stage (sample_latents_err genv) ;;
     stage (decode_latent_mesh_err genv) ;;
     stage (makedirs_err genv) ;;
     out <- save_mesh
              (output_path output_dir (safe_name (stem genv image_path))) ;;
     ret (output_path output_dir (safe_name (stem genv image_path)), out))%io.

End Generate.

Module Studio.

(** [mesh.export] writes the PLY data as a blob and the OBJ text of a
    triangle. *)
Definition export_triangle (path : string) (fs : gmap string file)
  : (exn + unit) * gmap string file :=
  if PyStr.endswith ".obj" path
  then (inr tt,
        <[path := File (Text Example.triangle)
                    (Z.of_nat (String.length Example.triangle))]> fs)
  else (inr tt, <[path := File Blob 4096]> fs).

(** A run in which nothing fails, on the packager machine [env]. *)
Definition quiet (env : Env) : GenEnv :=
  {| packager := env;
     setup_models_err := None;
     load_image_err := None;
     sample_latents_err := None;
     decode_latent_mesh_err := None;
     makedirs_err := None;
     mesh_export := export_triangle;
     remove_err := None;
     stem := fun p => p |}.

End Studio.


(** ** Result dictionaries and imports *)

(** The values the result dictionaries of [generate_nerf] and
    [generate_materials] hold. *)
Inductive value :=
| VBool (b : bool)
| VStr (s : string).

(** A result dictionary. *)
Definition dict : Type := gmap string value.

(** The truth value of a dictionary value, as [if] tests it. *)
Definition truthy (v : value) : bool :=
  match v with
  | VBool b => b
  | VStr s => negb (String.eqb s "")
  end.

(** A dictionary value as an f-string formats it. *)
Definition format_value (v : value) : string :=
  match v with
  | VBool true => "True"
  | VBool false => "False"
  | VStr s => s
  end.

(** [{'success': False, 'error': msg}] *)
Definition failure (msg : string) : dict :=
  <["error" := VStr msg]> (<["success" := VBool false]> ∅).

(** How an [import] statement ends: the names are bound, [ImportError]
    is raised ([msg] is its text), or another exception is raised. *)
Inductive import_result :=
| Imported
| ImportError (msg : string)
| ImportRaises (e : exn).

(** ** nerf_generator.py *)

Module Nerf.

(** What [generate_nerf] cannot decide by itself: the directory of the
    module ([os.path.dirname(__file__)]), the directories that exist,
    the import of TensorFlow, the names [os.listdir] gives, the
    operations that fail, the size of an encoded text and the text of
    an exception ([str(e)]). *)
Record Env := {
  module_dir : string;
  isdir : string -> bool;
  import_tensorflow : import_result;
  listdir : string -> exn + list string;
  makedirs_err : option exn;
  open_err : option exn;
  write_err : option exn;
  encoded_size : string -> Z;
  exn_str : exn -> string
}.

(** The command line, once [argparse] has accepted it. *)
Record args := Args {
  images : string;
  output : string;
  dataset_type : string;
  config : option string
}.

(** [f.lower().endswith(('.png', '.jpg', '.jpeg'))] *)
Definition is_image (f : string) : bool :=
  PyStr.endswith ".png" (PyStr.lower f)
  || PyStr.endswith ".jpg" (PyStr.lower f)
  || PyStr.endswith ".jpeg" (PyStr.lower f).

(** The f-string of [create_nerf_config]. *)
Definition config_content (images_dir output_dir dataset_type : string)
  : string :=
  "# NeRF Configuration" +:+ Usd.nl +:+
  "# Generated automatically for Prometheus" +:+ Usd.nl +:+
  Usd.nl +:+
  "# Dataset settings" +:+ Usd.nl +:+
  "--datadir=" +:+ images_dir +:+ Usd.nl +:+
  "--dataset_type=" +:+ dataset_type +:+ Usd.nl +:+
  "--expname=prometheus_nerf" +:+ Usd.nl +:+
  "--basedir=" +:+ output_dir +:+ "/logs" +:+ Usd.nl +:+
  Usd.nl +:+
  "# Training settings" +:+ Usd.nl +:+
  "--N_iters=200000" +:+ Usd.nl +:+
  "--N_samples=64" +:+ Usd.nl +:+
  "--N_rand=1024" +:+ Usd.nl +:+
  "--lrate=5e-4" +:+ Usd.nl +:+
  "--lrate_decay=250" +:+ Usd.nl +:+
  Usd.nl +:+
  "# Network settings" +:+ Usd.nl +:+
  "--netdepth=8" +:+ Usd.nl +:+
  "--netwidth=256" +:+ Usd.nl +:+
  "--netdepth_fine=8" +:+ Usd.nl +:+
  "--netwidth_fine=256" +:+ Usd.nl +:+
  Usd.nl +:+
  "# Rendering settings" +:+ Usd.nl +:+
  "--chunk=1024*32" +:+ Usd.nl +:+
  "--no_batching" +:+ Usd.nl +:+
  "--no_reload" +:+ Usd.nl.

Section Generate.

Context (env : Env).

(** [os.path.exists(p)], for a file or a directory. *)
Definition path_exists (p : string) : M bool :=
  fun fs => (inr (bool_decide (is_Some (fs !! p)) || isdir env p), fs).

(** [os.listdir(p)] *)
Definition os_listdir (p : string) : M (list string) :=
  fun fs => (listdir env p, fs).

(** [with open(config_path, 'w') as f: f.write(config_content)].  Mode
    ['w'] creates the file or truncates it; when writing raises, the
    file stays, empty. *)
Definition write_text (path text : string) : M unit :=
  fun fs =>
    match open_err env with
    | Some e => (inl e, fs)
    | None =>
        match write_err env with
        | Some e => (inl e, <[path := File (Text "") 0]> fs)
        | None =>
            (inr tt, <[path := File (Text text) (encoded_size env text)]> fs)
        end
    end.

(** [create_nerf_config(config_path, images_dir, output_dir,
    dataset_type)], without the writes to [stderr] of lines 180 and
    181. *)
Definition create_nerf_config
    (config_path images_dir output_dir dataset_type : string) : M unit :=
  write_text config_path (config_content images_dir output_dir dataset_type).

(** The body of the [try] of [generate_nerf] from the check of the
    images directory on (lines 72-133). *)
Definition from_images
    (images_dir output_dir dataset_type : string) (config_file : option string)
  : M dict :=
  (found <- path_exists images_dir ;;
   if negb found
   then ret (failure ("Images directory not found: " +:+ images_dir))
   else
     names <- os_listdir images_dir ;;
     let image_files := List.filter is_image names in
     if Z.of_nat (length image_files) <? 3
     then ret (failure ("NeRF requires at least 3 images. Found "
                          +:+ Py.str (Z.of_nat (length image_files))
                          +:+ " images in " +:+ images_dir))
     else
       stage (makedirs_err env) ;;
       _ <- path_exists (PosixPath.join images_dir "poses_bounds.npy") ;;
       match config_file with
       | None =>
           create_nerf_config (PosixPath.join output_dir "nerf_config.txt")
             images_dir output_dir dataset_type
       | Some _ => ret tt
       end ;;
       ret (failure ("NeRF training not fully implemented. Requires "
                       +:+ "TensorFlow 1.15 and CUDA. Consider using a "
                       +:+ "modern NeRF implementation like nerfstudio "
                       +:+ "for Apple Silicon compatibility.")))%io.

(** [generate_nerf(images_dir, output_dir, dataset_type, config_file)]
    without its writes to [stderr], the three of the handler of lines
    135-144 included: the call in which none of them raises.
    [NerfPrinting.generate_nerf] has them. *)
Definition generate_nerf
    (images_dir output_dir dataset_type : string) (config_file : option string)
  : M dict :=
  try_except
    (repo <- path_exists (PosixPath.join (module_dir env) "nerf_repo") ;;
     if negb repo
     then ret (failure ("NeRF repository not found. Please ensure "
                          +:+ "nerf_repo/ directory exists."))
     else
       match import_tensorflow env with
       | ImportError _ =>
           ret (failure ("TensorFlow not found. NeRF requires TensorFlow "
                           +:+ "1.15. Note: TensorFlow 1.15 may not work on "
                           +:+ "Apple Silicon. Consider using a modern NeRF "
                           +:+ "implementation."))
       | ImportRaises e => raise e
       | Imported =>
           from_images images_dir output_dir dataset_type config_file
       end)%io
    (fun e => ret (failure ("Error generating NeRF: " +:+ exn_str env e))).

End Generate.

(** A machine with the repository, TensorFlow and a directory [shots]
    of four pictures and a text file. *)
Definition studio : Env :=
  {| module_dir := "/app";
     isdir := fun p => String.eqb p "/app/nerf_repo" || String.eqb p "shots";
     import_tensorflow := Imported;
     listdir := fun p =>
       if String.eqb p "shots"
       then inr ["a.png"; "b.JPG"; "c.jpeg"; "notes.txt"; "d.Png"]
       else inl FileNotFoundError;
     makedirs_err := None;
     open_err := None;
     write_err := None;
     encoded_size := fun s => Z.of_nat (String.length s);
     exn_str := fun _ => "error" |}.

End Nerf.

(** ** material_generator.py *)

Module Material.

(** [torch.device]: the three the module chooses from. *)
Inductive device := Mps | Cuda | Cpu.

(** The modes of the images the module makes. *)
Inductive mode := RGB | L.

(** [Image.new(mode, (width, height), color=...)]: an image of one
    colour, given by its bands. *)
Record image := Image_new {
  mode_of : mode;
  width : Z;
  height : Z;
  color : list Z
}.

(** What [generate_materials] cannot decide by itself: the directories
    that exist, what [torch] reports, the import of the MaterialAnything
    library, the operations that fail, what [trimesh] and [PIL] write
    ([save_raises] gives, for a [save] that raises, the exception and
    what is left on disk; [png] is the file a [save] that returns has
    written), the stem of a path and the text of an exception. *)
Record Env := {
  isdir : string -> bool;
  mps_is_available : bool;
  mps_is_built : bool;
  cuda_is_available : bool;
  import_lib : import_result;
  get_image2materials_err : option exn;
  trimesh_load_err : string -> gmap string file -> option exn;
  mesh_export : string -> gmap string file -> (exn + unit) * gmap string file;
  makedirs_err : option exn;
  stem : string -> string;
  save_raises : string -> gmap string file -> option (exn * gmap string file);
  png : image -> file;
  exn_str : exn -> string
}.

(** The command line, once [argparse] has accepted it. *)
Record args := Args {
  mesh : string;
  prompt : string;
  output : string;
  model_dir : string
}.

(** The dictionary returned at lines 165-171. *)
Definition success (albedo roughness metallic bump : string) : dict :=
  <["bump" := VStr bump]>
    (<["metallic" := VStr metallic]>
       (<["roughness" := VStr roughness]>
          (<["albedo" := VStr albedo]>
             (<["success" := VBool true]> ∅)))).

(** The four placeholder maps (lines 151-154). *)
Definition albedo : image := Image_new RGB 1024 1024 [200; 200; 200].
Definition roughness : image := Image_new L 1024 1024 [128].
Definition metallic : image := Image_new L 1024 1024 [0].
Definition bump : image := Image_new L 1024 1024 [128].

Section Generate.

Context (env : Env).

(** [os.path.exists(p)], for a file or a directory. *)
Definition path_exists (p : string) : M bool :=
  fun fs => (inr (bool_decide (is_Some (fs !! p)) || isdir env p), fs).

(** Lines 67-75: the device. *)
Definition pick_device : device :=
  if mps_is_available env && mps_is_built env then Mps
  else if cuda_is_available env then Cuda
  else Cpu.

(** [mesh = trimesh.load(mesh_path)] *)
Definition trimesh_load (mesh_path : string) : M unit :=
  fun fs =>
    match trimesh_load_err env mesh_path fs with
    | Some e => (inl e, fs)
    | None => (inr tt, fs)
    end.

(** [image.save(path)] *)
Definition save (img : image) (path : string) : M unit :=
  fun fs =>
    match save_raises env path fs with
    | Some (e, fs') => (inl e, fs')
    | None => (inr tt, <[path := png env img]> fs)
    end.

(** Lines 117-132, the inner [try]: on every device its body ends in
    [raise NotImplementedError(...)], which the handler of line 133
    catches; the value is the text of the exception. *)
Definition material_anything (d : device) : string :=
  match d with
  | Cuda => "Full MaterialAnything pipeline requires complex setup"
  | Mps | Cpu => "Use simplified generation"
  end.

(** Lines 133-163, the handler of the inner [try], which does not look
    at the exception: the four maps, saved in this order. *)
Definition simplified (e : string) (base_name : string)
  : M (string * string * string * string) :=
  (let albedo_path := base_name +:+ "_albedo.png" in
   let roughness_path := base_name +:+ "_roughness.png" in
   let metallic_path := base_name +:+ "_metallic.png" in
   let bump_path := base_name +:+ "_bump.png" in
   save albedo albedo_path ;;
   save roughness roughness_path ;;
   save metallic metallic_path ;;
   save bump bump_path ;;
   ret (albedo_path, roughness_path, metallic_path, bump_path))%io.

(** Lines 99-105: a PLY mesh is loaded and exported as OBJ. *)
Definition ply_to_obj (mesh_path : string) : M unit :=
  if PyStr.endswith ".ply" mesh_path
  then (trimesh_load mesh_path ;;
        mesh_export env (PyStr.replace ".ply" ".obj" mesh_path))%io
  else ret tt.

(** [generate_materials(mesh_path, prompt, output_dir, model_dir)]
    without its writes to [stderr], the three of the handler of lines
    173-182 included: the call in which none of them raises.
    [MaterialPrinting.generate_materials] has them. *)
Definition generate_materials
    (mesh_path prompt output_dir model_dir : string) : M dict :=
  try_except
    (found <- path_exists (PosixPath.join model_dir "material_estimator") ;;
     if negb found
     then ret (failure ("MaterialAnything models not found. Please run: "
                          +:+ "./download_material_models.sh"))
     else
       let device := pick_device in
       match import_lib env with
       | ImportError msg =>
           ret (failure ("MaterialAnything dependencies not available: "
                           +:+ msg
                           +:+ ". Please install: pip install pytorch3d kaolin"))
       | ImportRaises e => raise e
       | Imported =>
           stage (get_image2materials_err env) ;;
           ply_to_obj mesh_path ;;
           stage (makedirs_err env) ;;
           let base_name := PosixPath.join output_dir (stem env mesh_path) in
           paths <- simplified (material_anything device) base_name ;;
           let '(albedo_path, roughness_path, metallic_path, bump_path) :=
             paths in
           ret (success albedo_path roughness_path metallic_path bump_path)
       end)%io
    (fun e => ret (failure ("Error generating materials: " +:+ exn_str env e))).

End Generate.

(** A machine with the models and the library, on which nothing fails;
    a PNG file is a blob whose size depends on the mode of the image. *)
Definition studio (cuda : bool) : Env :=
  {| isdir := fun p => String.eqb p "pretrained_models/material_estimator";
     mps_is_available := false;
     mps_is_built := false;
     cuda_is_available := cuda;
     import_lib := Imported;
     get_image2materials_err := None;
     trimesh_load_err := fun _ _ => None;
     mesh_export := fun path fs =>
       (inr tt, <[path := File (Text Example.triangle) 32]> fs);
     makedirs_err := None;
     stem := fun _ => "chair";
     save_raises := fun _ _ => None;
     png := fun img =>
       match mode_of img with
       | RGB => File Blob 3100
       | L => File Blob 1040
       end;
     exn_str := fun _ => "error" |}.

End Material.
(** ** The vertex records and the valid faces of an OBJ text *)

(** [float] accepts the text [t]. *)
Definition accepted (fl : PyFloat) (t : string) : bool :=
  match float fl t with
  | Some _ => true
  | None => false
  end.

(** A vertex record: a line that, stripped, starts with ['v '] and has
    three fields after the [v] that [float] accepts. *)
Definition vertex_record (fl : PyFloat) (raw : string) : bool :=
  Py.startswith "v " (Py.strip raw) &&
  match Py.split (Py.strip raw) with
  | _ :: a :: b :: c :: _ => accepted fl a && accepted fl b && accepted fl c
  | _ => false
  end.

(** A valid face among [nv] vertices: a line that, stripped, starts with
    ['f '] and whose first three fields resolve. *)
Definition valid_face (nv : nat) (raw : string) : bool :=
  Py.startswith "f " (Py.strip raw) &&
  match drop 1 (Py.split (Py.strip raw)) with
  | p1 :: p2 :: p3 :: _ => resolve3 nv p1 p2 p3
  | _ => false
  end.

(** N: the number of vertex records of the text. *)
Fixpoint vertex_records (fl : PyFloat) (obj_lines : list string) : nat :=
  match obj_lines with
  | [] => 0%nat
  | raw :: rest =>
      if vertex_record fl raw then S (vertex_records fl rest)
      else vertex_records fl rest
  end.

(** M: the number of valid faces of the text, each among the vertex
    records above it; [nv] vertex records stand above [obj_lines]. *)
Fixpoint valid_faces (fl : PyFloat) (nv : nat) (obj_lines : list string)
  : nat :=
  match obj_lines with
  | [] => 0%nat
  | raw :: rest =>
      if vertex_record fl raw then valid_faces fl (S nv) rest
      else if valid_face nv raw then S (valid_faces fl nv rest)
      else valid_faces fl nv rest
  end.

(** * What is printed

    The definitions above leave out what the code prints: they are the
    calls in which no write to [stderr] or [stdout] raises.  From here
    on every print statement, flush and [traceback.print_exc()] is a
    step of its own, which may raise (a closed pipe, a closed stream),
    and the lines printed on [stdout] are kept.  A write is named by its
    line in the source file. *)

(** The exception that the write at a line of the source raises, if it
    raises. *)
Definition printer : Type := Z -> option exn.

(** No write raises. *)
Definition silent : printer := fun _ => None.

(** Every write raises [OSError], as on a closed pipe
    ([BrokenPipeError] is an [OSError]). *)
Definition broken_pipe : printer := fun _ => Some OSError.

(** The stream is closed when the write at line [n] is reached, and
    at that line only. *)
Definition closed_at (n : Z) : printer :=
  fun line => if line =? n then Some OSError else None.

(** The write to [stderr] at [line]: a print, a flush or
    [traceback.print_exc()]. *)
Definition print_at (pr : printer) (line : Z) : M unit :=
  fun fs =>
    match pr line with
    | Some e => (inl e, fs)
    | None => (inr tt, fs)
    end.

(** The writes at [lines], one after the other. *)
Fixpoint prints (pr : printer) (lines : list Z) : M unit :=
  match lines with
  | [] => ret tt
  | line :: rest => (print_at pr line ;; prints pr rest)%io
  end.

(** The exception [e] is raised by a write. *)
Definition raised_by (pr : printer) (e : exn) : Prop :=
  exists line, pr line = Some e.

(** No write raises. *)
Definition quiet (pr : printer) : Prop := forall line, pr line = None.

(** The outcome of a call that, if it raised, raised what a write
    raises. *)
Definition only_writes {A} (pr : printer)
    (outcome : (exn + A) * gmap string file) : Prop :=
  match outcome with
  | (inl e, _) => raised_by pr e
  | (inr _, _) => True
  end.

(** ** Calls that print on [stdout] *)

(** What such a call raises: an exception of an operation, or the
    [KeyError] of a subscript on a missing key. *)
Inductive raised :=
| Exn (e : exn)
| KeyError (key : string).

(** How a program ends: [main] returns, [sys.exit(code)] is called, or
    an exception reaches the top. *)
Inductive ending :=
| Returns
| SysExit (code : Z)
| Uncaught (r : raised).

(** A call gives what it returns or raises, the lines it has printed on
    [stdout], and the filesystem it leaves. *)
Definition P (A : Type) : Type :=
  gmap string file -> (raised + A) * list string * gmap string file.

Module Pr.

Definition ret {A} (a : A) : P A := fun fs => (inr a, [], fs).

Definition bind {A B} (m : P A) (k : A -> P B) : P B :=
  fun fs =>
    match m fs with
    | (inl r, printed, fs') => (inl r, printed, fs')
    | (inr a, printed, fs') =>
        match k a fs' with
        | (b, more, fs'') => (b, printed ++ more, fs'')
        end
    end.

(** [try: body except Exception: handler]; what [body] printed and did
    before raising stays. *)
Definition try_except {A} (body : P A) (handler : raised -> P A) : P A :=
  fun fs =>
    match body fs with
    | (inl r, printed, fs') =>
        match handler r fs' with
        | (a, more, fs'') => (a, printed ++ more, fs'')
        end
    | returned => returned
    end.

(** A call that prints nothing on [stdout]. *)
Definition lift {A} (m : M A) : P A :=
  fun fs =>
    match m fs with
    | (inl e, fs') => (inl (Exn e), [], fs')
    | (inr a, fs') => (inr a, [], fs')
    end.

(** The writes to [stderr] at [lines], or the flush of [stdout]. *)
Definition err (pr : printer) (lines : list Z) : P unit :=
  lift (prints pr lines).

(** [print(text, file=sys.stdout)] at [line]. *)
Definition out (pr : printer) (line : Z) (text : string) : P unit :=
  fun fs =>
    match pr line with
    | Some e => (inl (Exn e), [], fs)
    | None => (inr tt, [text], fs)
    end.

(** [result[key]] *)
Definition item (result : dict) (key : string) : P value :=
  fun fs =>
    match result !! key with
    | Some v => (inr v, [], fs)
    | None => (inl (KeyError key), [], fs)
    end.

(** The program whose [main] is [m]. *)
Definition program (m : P ending)
  : gmap string file -> ending * list string * gmap string file :=
  fun fs =>
    match m fs with
    | (inl r, printed, fs') => (Uncaught r, printed, fs')
    | (inr e, printed, fs') => (e, printed, fs')
    end.

End Pr.

Declare Scope print_scope.
Delimit Scope print_scope with pr.
Notation "x <- m ;; k" := (Pr.bind m (fun x => k))
  (at level 100, m at next level, right associativity) : print_scope.
Notation "m ;; k" := (Pr.bind m (fun _ => k))
  (at level 100, right associativity) : print_scope.

(** [Path(p).stem] for a path that ends neither in a slash nor in a
    [.] component: the text after the last slash, without its last
    suffix. *)
Module PurePath.

Fixpoint name_go (acc s : string) : string :=
  match s with
  | EmptyString => acc
  | String c s' =>
      if Ascii.eqb c "/" then name_go "" s'
      else name_go (acc +:+ String c "") s'
  end.

(** [Path(p).name] *)
Definition name (p : string) : string := name_go "" p.

(** [s.rfind('.')], counted from [i]. *)
Fixpoint rfind_dot (s : string) (i : nat) (found : option nat) : option nat :=
  match s with
  | EmptyString => found
  | String c s' =>
      rfind_dot s' (S i) (if Ascii.eqb c "." then Some i else found)
  end.

(** [Path(p).stem]: [name[:i]] when [0 < i < len(name) - 1] for the
    last dot [i], the name otherwise. *)
Definition stem (p : string) : string :=
  match rfind_dot (name p) 0 None with
  | Some i =>
      if ((0 <? i) && (i <? String.length (name p) - 1))%nat
      then PyStr.take i (name p) else name p
  | None => name p
  end.

End PurePath.

(** ** nerf_generator.py with its prints *)

Module NerfPrinting.

Section Generate.

Context (env : Nerf.Env) (pr : printer).

(** [create_nerf_config(...)], lines 147-181. *)
Definition create_nerf_config
    (config_path images_dir output_dir dataset_type : string) : M unit :=
  (Nerf.write_text env config_path
     (Nerf.config_content images_dir output_dir dataset_type) ;;
   prints pr [180; 181])%io.

(** Lines 72-133. *)
Definition from_images
    (images_dir output_dir dataset_type : string) (config_file : option string)
  : M dict :=
  (found <- Nerf.path_exists env images_dir ;;
   if negb found
   then ret (failure ("Images directory not found: " +:+ images_dir))
   else
     names <- Nerf.os_listdir env images_dir ;;
     let image_files := List.filter Nerf.is_image names in
     if Z.of_nat (length image_files) <? 3
     then ret (failure ("NeRF requires at least 3 images. Found "
                          +:+ Py.str (Z.of_nat (length image_files))
                          +:+ " images in " +:+ images_dir))
     else
       prints pr [85; 86] ;;
       stage (Nerf.makedirs_err env) ;;
       poses <- Nerf.path_exists env
                  (PosixPath.join images_dir "poses_bounds.npy") ;;
       (if negb poses then prints pr [95; 96; 97; 98] else ret tt) ;;
       match config_file with
       | None =>
           create_nerf_config (PosixPath.join output_dir "nerf_config.txt")
             images_dir output_dir dataset_type
       | Some _ => ret tt
       end ;;
       prints pr [105; 106; 107; 108] ;;
       prints pr [122; 123; 124; 125; 126; 127; 128] ;;
       ret (failure ("NeRF training not fully implemented. Requires "
                       +:+ "TensorFlow 1.15 and CUDA. Consider using a "
                       +:+ "modern NeRF implementation like nerfstudio "
                       +:+ "for Apple Silicon compatibility.")))%io.

(** [generate_nerf(images_dir, output_dir, dataset_type, config_file)]:
    the handler of lines 135-144 writes to [stderr] at lines 138 to 140,
    outside any [try]. *)
Definition generate_nerf
    (images_dir output_dir dataset_type : string) (config_file : option string)
  : M dict :=
  try_except
    (repo <- Nerf.path_exists env
               (PosixPath.join (Nerf.module_dir env) "nerf_repo") ;;
     if negb repo
     then ret (failure ("NeRF repository not found. Please ensure "
                          +:+ "nerf_repo/ directory exists."))
     else
       match Nerf.import_tensorflow env with
       | ImportError _ =>
           ret (failure ("TensorFlow not found. NeRF requires TensorFlow "
                           +:+ "1.15. Note: TensorFlow 1.15 may not work on "
                           +:+ "Apple Silicon. Consider using a modern NeRF "
                           +:+ "implementation."))
       | ImportRaises e => raise e
       | Imported =>
           prints pr [63; 64] ;;
           from_images images_dir output_dir dataset_type config_file
       end)%io
    (fun e =>
       prints pr [138; 139; 140] ;;
       ret (failure ("Error generating NeRF: " +:+ Nerf.exn_str env e)))%io.

(** Lines 202-205: a key that is there is printed. *)
Definition announce (line : Z) (key label : string) (result : dict) : P unit :=
  match result !! key with
  | Some v => Pr.out pr line (label +:+ format_value v)
  | None => Pr.ret tt
  end.

(** [main()], lines 184-210. *)
Definition main (a : Nerf.args) : P ending :=
  (result <- Pr.lift (generate_nerf (Nerf.images a) (Nerf.output a)
                        (Nerf.dataset_type a) (Nerf.config a)) ;;
   success <- Pr.item result "success" ;;
   if truthy success then
     announce 203 "mesh" "MESH: " result ;;
     announce 205 "video" "VIDEO: " result ;;
     Pr.err pr [206] ;;
     Pr.ret Returns
   else
     Pr.err pr [208; 209] ;;
     Pr.ret (SysExit 1))%pr.

End Generate.

End NerfPrinting.

(** ** material_generator.py with its prints *)

Module MaterialPrinting.

Section Generate.

Context (env : Material.Env) (pr : printer).

(** The print of lines 67-75. *)
Definition device_line (d : Material.device) : Z :=
  match d with
  | Material.Mps => 69
  | Material.Cuda => 72
  | Material.Cpu => 75
  end.

(** Lines 117-132, the body of the inner [try]: it prints and raises
    [NotImplementedError] on every device.  Whether a print raises or
    not, the block is left by an exception, which the handler of line
    133 catches. *)
Definition material_anything (d : Material.device) : M unit :=
  try_except
    (match d with
     | Material.Cuda => prints pr [122; 123]
     | Material.Mps | Material.Cpu => prints pr [130; 131]
     end)
    (fun _ => ret tt).

(** Lines 133-163, the handler of the inner [try]. *)
Definition simplified (base_name : string)
  : M (string * string * string * string) :=
  (let albedo_path := base_name +:+ "_albedo.png" in
   let roughness_path := base_name +:+ "_roughness.png" in
   let metallic_path := base_name +:+ "_metallic.png" in
   let bump_path := base_name +:+ "_bump.png" in
   prints pr [135; 136; 137] ;;
   Material.save env Material.albedo albedo_path ;;
   Material.save env Material.roughness roughness_path ;;
   Material.save env Material.metallic metallic_path ;;
   Material.save env Material.bump bump_path ;;
   prints pr [161; 162; 163] ;;
   ret (albedo_path, roughness_path, metallic_path, bump_path))%io.

(** Lines 99-106. *)
Definition ply_to_obj (mesh_path : string) : M unit :=
  if PyStr.endswith ".ply" mesh_path
  then (Material.trimesh_load env mesh_path ;;
        Material.mesh_export env (PyStr.replace ".ply" ".obj" mesh_path) ;;
        prints pr [105; 106])%io
  else ret tt.

(** [generate_materials(mesh_path, prompt, output_dir, model_dir)]: the
    handler of lines 173-182 writes to [stderr] at lines 176 to 178,
    outside any [try]. *)
Definition generate_materials
    (mesh_path prompt output_dir model_dir : string) : M dict :=
  try_except
    (found <- Material.path_exists env
                (PosixPath.join model_dir "material_estimator") ;;
     if negb found
     then ret (failure ("MaterialAnything models not found. Please run: "
                          +:+ "./download_material_models.sh"))
     else
       let device := Material.pick_device env in
       print_at pr (device_line device) ;;
       match Material.import_lib env with
       | ImportError msg =>
           ret (failure ("MaterialAnything dependencies not available: "
                           +:+ msg
                           +:+ ". Please install: pip install pytorch3d kaolin"))
       | ImportRaises e => raise e
       | Imported =>
           prints pr [88; 89] ;;
           stage (Material.get_image2materials_err env) ;;
           prints pr [94; 95; 96] ;;
           ply_to_obj mesh_path ;;
           stage (Material.makedirs_err env) ;;
           let base_name :=
             PosixPath.join output_dir (Material.stem env mesh_path) in
           material_anything device ;;
           paths <- simplified base_name ;;
           let '(albedo_path, roughness_path, metallic_path, bump_path) :=
             paths in
           ret (Material.success albedo_path roughness_path metallic_path
                  bump_path)
       end)%io
    (fun e =>
       prints pr [176; 177; 178] ;;
       ret (failure ("Error generating materials: "
                       +:+ Material.exn_str env e)))%io.

(** [main()], lines 185-210. *)
Definition main (a : Material.args) : P ending :=
  (result <- Pr.lift (generate_materials (Material.mesh a) (Material.prompt a)
                        (Material.output a) (Material.model_dir a)) ;;
   success <- Pr.item result "success" ;;
   if truthy success then
     albedo <- Pr.item result "albedo" ;;
     Pr.out pr 202 ("ALBEDO: " +:+ format_value albedo) ;;
     roughness <- Pr.item result "roughness" ;;
     Pr.out pr 203 ("ROUGHNESS: " +:+ format_value roughness) ;;
     metallic <- Pr.item result "metallic" ;;
     Pr.out pr 204 ("METALLIC: " +:+ format_value metallic) ;;
     bump <- Pr.item result "bump" ;;
     Pr.out pr 205 ("BUMP: " +:+ format_value bump) ;;
     Pr.err pr [206] ;;
     Pr.ret Returns
   else
     Pr.err pr [208; 209] ;;
     Pr.ret (SysExit 1))%pr.

End Generate.

End MaterialPrinting.

(** ** shap_e_generator.py with its prints *)

Module Printing.

Section Convert.

Context (fl : PyFloat) (env : Env) (pr : printer).

(** Lines 128-217, the fallback: line 169 prints inside the [try]; the
    handler prints at line 214 and calls [traceback.print_exc()] at line
    216, outside any [try]. *)
Definition fallback (obj_path usdz_path : string) : M bool :=
  try_except
    (obj_lines <- read_obj env obj_path ;;
     let m := parse fl obj_lines in
     if no_geometry m then (print_at pr 169 ;; ret false)
     else
       tmp_usd_path <- write_tmp_usd env (Usd.usd_content m) ;;
       write_usdz env usdz_path tmp_usd_path ;;
       unlink env tmp_usd_path ;;
       size_guard usdz_path)%io
    (fun _ => print_at pr 214 ;; print_at pr 216 ;; ret false)%io.

(** [convert_to_usdz(obj_path, usdz_path)]; lines 111-125 print
    nothing. *)
Definition convert_to_usdz (obj_path usdz_path : string) : M bool :=
  (returned <- tool_attempt env obj_path usdz_path ;;
   if returned : bool then ret true else fallback obj_path usdz_path)%io.

End Convert.

(** What a run of a generator cannot decide by itself.  [setup_models]
    stands for the whole of lines 63-106, with its prints: it raises or
    returns, and it may write files ([load_model] fetches the
    checkpoints and keeps them on disk); its argument is
    [use_image_model].  [load_image], [sample_latents] and
    [decode_latent_mesh] raise or return, and so does [os.makedirs],
    which creates directories only.  The filesystem holds files: a
    path exists, for the generators, when a file is at it. *)
Record Run := {
  packager : Env;
  print_err : printer;
  setup_models :
    bool -> gmap string file -> (exn + unit) * gmap string file;
  load_image_err : string -> option exn;
  sample_latents_err : option exn;
  decode_latent_mesh_err : option exn;
  makedirs_err : string -> option exn;
  mesh_export : string -> gmap string file -> (exn + unit) * gmap string file;
  remove_err : option exn;
  stem : string -> string
}.

(** The command line, once [argparse] has accepted it. *)
Inductive mode := text | image.

Record args := Args {
  mode_of : mode;
  prompt : string;
  image_of : option string;
  output : string;
  generate_materials : bool
}.

(** How [from material_generator import generate_materials] ends: the
    module is loaded; it is not found ([ImportError]); its own imports
    fail, and lines 24-27 of [material_generator.py] call
    [sys.exit(1)]; or loading it raises another exception. *)
Inductive module_import :=
| Loaded
| NotFound
| Exits (code : Z)
| LoadRaises (e : exn).

(** What [main] cannot decide by itself: the run of the generator, the
    environment and the writes of the material module, and its
    import. *)
Record Shell := {
  run : Run;
  material : Material.Env;
  material_print_err : printer;
  import_material_generator : module_import
}.

Section Generate.

Context (fl : PyFloat) (rn : Run).

(** [os.remove(path)] *)
Definition os_remove (path : string) : M unit :=
  fun fs =>
    match remove_err rn with
    | Some e => (inl e, fs)
    | None =>
        match fs !! path with
        | None => (inl FileNotFoundError, fs)
        | Some _ => (inr tt, delete path fs)
        end
    end.

(** Lines 293-315, and lines 419-441 with [off] = 126: the USDZ step.
    Its handler prints, inside the [try] of line 282. *)
Definition export_usdz (off : Z) (output_path : string) : M unit :=
  try_except
    (mesh_export rn (obj_path output_path) ;;
     usdz_success <- convert_to_usdz fl (packager rn) (print_err rn)
                       (obj_path output_path) (usdz_path output_path) ;;
     if usdz_success : bool
     then
       prints (print_err rn) [302 + off; 303 + off] ;;
       try_except (os_remove (obj_path output_path)) (fun _ => ret tt)
     else prints (print_err rn) [310 + off; 311 + off])%io
    (fun _ => prints (print_err rn) [313 + off; 314 + off; 315 + off])%io.

(** Lines 282-320, and lines 408-446 with [off] = 126: the PLY export
    and the USDZ step; the handler prints and raises again. *)
Definition save_mesh (off : Z) (output_path : string) : M unit :=
  try_except
    (mesh_export rn output_path ;;
     prints (print_err rn) [285 + off; 286 + off] ;;
     prints (print_err rn) [290 + off; 291 + off] ;;
     export_usdz off output_path)%io
    (fun e => prints (print_err rn) [318 + off; 319 + off] ;; raise e)%io.

(** Lines 322-326, and lines 448-452 with [off] = 126: the lines on
    [stdout]. *)
Definition announce (off : Z) (output_path : string) : P unit :=
  (Pr.out (print_err rn) (322 + off) ("OUTPUT_PATH: " +:+ output_path) ;;
   found <- Pr.lift (Os.path_exists (usdz_path output_path)) ;;
   (if found : bool
    then Pr.out (print_err rn) (325 + off)
           ("USDZ_PATH: " +:+ usdz_path output_path)
    else Pr.ret tt) ;;
   Pr.err (print_err rn) [326 + off])%pr.

(** The sampling and the decoding: a [try] whose handler prints and
    raises again. *)
Definition guarded (err : option exn) (done failed : list Z) : M unit :=
  try_except
    (stage err ;; prints (print_err rn) done)%io
    (fun e => prints (print_err rn) failed ;; raise e)%io.

(** Lines 222-320: [generate_text_to_3d] up to the saved mesh. *)
Definition text_mesh (prompt output_dir : string) : M string :=
  (setup_models rn false ;;
   prints (print_err rn) [224; 225] ;;
   prints (print_err rn) [231; 232] ;;
   guarded (sample_latents_err rn) [250; 251] [253; 254] ;;
   prints (print_err rn) [258; 259] ;;
   guarded (decode_latent_mesh_err rn) [263; 264] [266; 267] ;;
   stage (makedirs_err rn output_dir) ;;
   let output_path := output_path output_dir (safe_prompt prompt) in
   prints (print_err rn) [279; 280] ;;
   save_mesh 0 output_path ;;
   ret output_path)%io.

(** [generate_text_to_3d(prompt, output_dir)] *)
Definition generate_text_to_3d (prompt output_dir : string) : P string :=
  (output_path <- Pr.lift (text_mesh prompt output_dir) ;;
   announce 0 output_path ;;
   Pr.ret output_path)%pr.

(** Lines 332-446: [generate_image_to_3d] up to the saved mesh. *)
Definition image_mesh (image_path prompt output_dir : string) : M string :=
  (setup_models rn true ;;
   found <- Os.path_exists image_path ;;
   if negb found then raise FileNotFoundError
   else
     prints (print_err rn) [337; 338] ;;
     prints (print_err rn) [341; 342] ;;
     stage (load_image_err rn image_path) ;;
     prints (print_err rn) [344; 345] ;;
     prints (print_err rn) [357; 358] ;;
     guarded (sample_latents_err rn) [376; 377] [379; 380] ;;
     prints (print_err rn) [384; 385] ;;
     guarded (decode_latent_mesh_err rn) [389; 390] [392; 393] ;;
     stage (makedirs_err rn output_dir) ;;
     let output_path :=
       output_path output_dir (safe_name (stem rn image_path)) in
     prints (print_err rn) [405; 406] ;;
     save_mesh 126 output_path ;;
     ret output_path)%io.

(** [generate_image_to_3d(image_path, prompt, output_dir)] *)
Definition generate_image_to_3d (image_path prompt output_dir : string)
  : P string :=
  (output_path <- Pr.lift (image_mesh image_path prompt output_dir) ;;
   announce 126 output_path ;;
   Pr.ret output_path)%pr.

End Generate.

Section Main.

Context (fl : PyFloat) (sh : Shell).

(** Lines 488-515, the material step; [Some code] when the import ends
    in [sys.exit(code)], which is no [Exception] and is caught neither
    here nor at line 517. *)
Definition material_step (a : args) (output_path : string)
  : P (option Z) :=
  match import_material_generator sh with
  | Exits code => Pr.ret (Some code)
  | NotFound =>
      (Pr.err (print_err (run sh)) [510; 511] ;; Pr.ret None)%pr
  | LoadRaises _ =>
      (Pr.err (print_err (run sh)) [513; 514; 515] ;; Pr.ret None)%pr
  | Loaded =>
      Pr.try_except
        (material_result <-
           Pr.lift (MaterialPrinting.generate_materials (material sh)
                      (material_print_err sh) output_path (prompt a)
                      (PosixPath.join (output a) "materials")
                      "pretrained_models") ;;
         if match material_result !! "success" with
            | Some v => truthy v
            | None => false
            end
         then
           Pr.err (print_err (run sh)) [499] ;;
           albedo <- Pr.item material_result "albedo" ;;
           Pr.out (print_err (run sh)) 500
             ("MATERIAL_ALBEDO: " +:+ format_value albedo) ;;
           roughness <- Pr.item material_result "roughness" ;;
           Pr.out (print_err (run sh)) 501
             ("MATERIAL_ROUGHNESS: " +:+ format_value roughness) ;;
           metallic <- Pr.item material_result "metallic" ;;
           Pr.out (print_err (run sh)) 502
             ("MATERIAL_METALLIC: " +:+ format_value metallic) ;;
           bump <- Pr.item material_result "bump" ;;
           Pr.out (print_err (run sh)) 503
             ("MATERIAL_BUMP: " +:+ format_value bump) ;;
           Pr.err (print_err (run sh)) [504] ;;
           Pr.ret None
         else
           Pr.err (print_err (run sh)) [506; 507; 508] ;;
           Pr.ret None)%pr
        (fun _ =>
           Pr.err (print_err (run sh)) [513; 514; 515] ;; Pr.ret None)%pr
  end.

(** Lines 480-515: after the generation. *)
Definition after_generation (a : args) (output_path : string)
  : P (option Z) :=
  (Pr.err (print_err (run sh)) [480] ;;
   if generate_materials a
   then
     Pr.err (print_err (run sh)) [484; 485; 486] ;;
     material_step a output_path
   else Pr.ret None)%pr.

(** Lines 472-478: the generator that is called, or [None] when image
    mode has no image. *)
Definition generation (a : args) : option (P string) :=
  match mode_of a with
  | text => Some (generate_text_to_3d fl (run sh) (prompt a) (output a))
  | image =>
      match image_of a with
      | Some image_path =>
          if String.eqb image_path "" then None
          else Some (generate_image_to_3d fl (run sh)
                       image_path (prompt a) (output a))
      | None => None
      end
  end.

(** Lines 472-515, the body of the [try] of [main]; [Some code] when
    [sys.exit(code)] is called. *)
Definition body (a : args) : P (option Z) :=
  match generation a with
  | Some generate =>
      (output_path <- generate ;; after_generation a output_path)%pr
  | None => (Pr.err (print_err (run sh)) [476] ;; Pr.ret (Some 1))%pr
  end.

(** [main()], lines 456-521: the handler of line 517 writes to [stderr]
    at lines 518 and 520 and calls [sys.exit(1)]. *)
Definition main (a : args) : P ending :=
  Pr.try_except
    (code <- body a ;;
     Pr.ret match code with
            | Some c => SysExit c
            | None => Returns
            end)%pr
    (fun _ => Pr.err (print_err (run sh)) [518; 520] ;; Pr.ret (SysExit 1))%pr.

End Main.

(** A machine on which the pipeline and the material module work and no
    write raises; the packager has no external tool and its archives
    are 2000 bytes long. *)
Definition studio_run (pr : printer) : Run :=
  {| packager := Example.large;
     print_err := pr;
     setup_models := fun _ fs =>
       (inr tt, <["cache/transmitter.pt" := File Blob 4096]> fs);
     load_image_err := fun _ => None;
     sample_latents_err := None;
     decode_latent_mesh_err := None;
     makedirs_err := fun _ => None;
     mesh_export := Studio.export_triangle;
     remove_err := None;
     stem := PurePath.stem |}.

(** The same machine, the OBJ export failing. *)
Definition no_obj_run (pr : printer) : Run :=
  {| packager := Example.large;
     print_err := pr;
     setup_models := fun _ fs =>
       (inr tt, <["cache/transmitter.pt" := File Blob 4096]> fs);
     load_image_err := fun _ => None;
     sample_latents_err := None;
     decode_latent_mesh_err := None;
     makedirs_err := fun _ => None;
     mesh_export := fun path fs =>
       if PyStr.endswith ".obj" path then (inl FileExistsError, fs)
       else Studio.export_triangle path fs;
     remove_err := None;
     stem := PurePath.stem |}.

(** The material module on that machine. *)
Definition studio_material : Material.Env :=
  {| Material.isdir :=
       fun p => String.eqb p "pretrained_models/material_estimator";
     Material.mps_is_available := false;
     Material.mps_is_built := false;
     Material.cuda_is_available := false;
     Material.import_lib := Imported;
     Material.get_image2materials_err := None;
     Material.trimesh_load_err := fun _ _ => None;
     Material.mesh_export := Studio.export_triangle;
     Material.makedirs_err := None;
     Material.stem := PurePath.stem;
     Material.save_raises := fun _ _ => None;
     Material.png := fun img =>
       match Material.mode_of img with
       | Material.RGB => File Blob 3100
       | Material.L => File Blob 1040
       end;
     Material.exn_str := fun _ => "error" |}.

(** The material module on a machine where the import of the
    MaterialAnything library raises [OSError]. *)
Definition broken_material : Material.Env :=
  {| Material.isdir :=
       fun p => String.eqb p "pretrained_models/material_estimator";
     Material.mps_is_available := false;
     Material.mps_is_built := false;
     Material.cuda_is_available := false;
     Material.import_lib := ImportRaises OSError;
     Material.get_image2materials_err := None;
     Material.trimesh_load_err := fun _ _ => None;
     Material.mesh_export := Studio.export_triangle;
     Material.makedirs_err := None;
     Material.stem := PurePath.stem;
     Material.save_raises := fun _ _ => None;
     Material.png := fun _ => File Blob 1040;
     Material.exn_str := fun _ => "error" |}.

Definition studio (pr : printer) : Shell :=
  {| run := studio_run pr;
     material := studio_material;
     material_print_err := pr;
     import_material_generator := Loaded |}.

(** The same machine, on which the import of [material_generator]
    ends in [sys.exit(1)]. *)
Definition no_torch (pr : printer) : Shell :=
  {| run := studio_run pr;
     material := studio_material;
     material_print_err := pr;
     import_material_generator := Exits 1 |}.

(** [--mode text --prompt "a red chair" --output out
    --generate-materials] *)
Definition chair : args := Args text "a red chair" None "out" true.

(** The archive of the triangle on that machine. *)
Definition chair_usdz : file :=
  File (Zip [("model.usd",
              Text (Usd.usd_content
                      (parse DecFloat.model (Py.readlines Example.triangle))))])
       2000.

(** The files on that machine after the generation for [chair]. *)
Definition chair_files : gmap string file :=
  <["out/a_red_chair.usdz" := chair_usdz]>
    (<["out/a_red_chair.ply" := File Blob 4096]>
       {[ "cache/transmitter.pt" := File Blob 4096 ]}).

End Printing.

(** The run of an environment [genv] of the generators without their
    prints: no write raises, and [setup_models] raises or returns
    without a change to the files. *)
Definition quiet_run (genv : GenEnv) : Printing.Run :=
  {| Printing.packager := packager genv;
     Printing.print_err := silent;
     Printing.setup_models := fun _ => stage (setup_models_err genv);
     Printing.load_image_err := fun _ => load_image_err genv;
     Printing.sample_latents_err := sample_latents_err genv;
     Printing.decode_latent_mesh_err := decode_latent_mesh_err genv;
     Printing.makedirs_err := fun _ => makedirs_err genv;
     Printing.mesh_export := mesh_export genv;
     Printing.remove_err := remove_err genv;
     Printing.stem := stem genv |}.
(** ** Running the model *)

Example strip_line : Py.strip ("  f 1 2 3 " +:+ Usd.nl) = "f 1 2 3".
Proof. reflexivity. Qed.

Example split_fields :
  Py.split " f 1/2/3  2//4 3 " = ["f"; "1/2/3"; "2//4"; "3"].
Proof. reflexivity. Qed.

Example int_literals :
  (Py.int "12", Py.int "+1_0", Py.int "-3", Py.int "007",
   Py.int "", Py.int "1__0", Py.int "_1", Py.int "1_", Py.int "1a")
  = (Some 12, Some 10, Some (-3), Some 7, None, None, None, None, None).
Proof. reflexivity. Qed.

Example readlines_text :
  Py.readlines ("v 0 0 0" +:+ String Py.cr Usd.nl +:+ "f 1 2 3")
  = ["v 0 0 0" +:+ Usd.nl; "f 1 2 3"].
Proof. reflexivity. Qed.

Example float_texts :
  (DecFloat.format <$> DecFloat.parse "0",
   DecFloat.format <$> DecFloat.parse "-1.50",
   DecFloat.format <$> DecFloat.parse "007.",
   DecFloat.format <$> DecFloat.parse "0.0001",
   DecFloat.format <$> DecFloat.parse "x")
  = (Some "0.0", Some "-1.5", Some "7.0", Some "0.0001", None).
Proof. reflexivity. Qed.

(** Texture and normal indices, a face with a bad third index, a line
    that is neither a vertex nor a face, a negative index. *)
Example parse_mixed :
  parse DecFloat.model
    ["# mesh"; "v 0 0 0"; "v 1 0 0"; "vn 0 0 1"; "v 0 1 0"; "";
     "f 1/1/1 2/2/1 3/3/1"; "f 1 2 99"; "f 1 2"; "f -1 -2 -3"; "f 3 2 1 7"]
  = Mesh ["(0.0, 0.0, 0.0)"; "(1.0, 0.0, 0.0)"; "(0.0, 1.0, 0.0)"]
         [0; 1; 2; 2; 1; 0].
Proof. reflexivity. Qed.

Example triangle_read_back :
  UsdRead.read_counts
    (Usd.usd_content (parse DecFloat.model (Py.readlines Example.triangle)))
  = Some (UsdRead.Counts 3 1 3).
Proof. reflexivity. Qed.

(** ** The parser: what one line does *)

Lemma in_range_spec nv i :
  in_range nv i = true <-> 0 <= i < Z.of_nat nv.
Proof. unfold in_range. rewrite andb_true_iff, Z.leb_le, Z.ltb_lt. tauto. Qed.

Lemma face_loop_app nv ps acc :
  face_loop nv ps acc = (fun r => acc ++ r) <$> face_loop nv ps [].
Proof.
  revert acc. induction ps as [|p ps IH]; intros acc; simpl.
  - by rewrite app_nil_r.
  - destruct (v_idx p) as [i|]; [|done].
    destruct (in_range nv i).
    + rewrite (IH (acc ++ [i])), (IH [i]).
      destruct (face_loop nv ps []) as [r|]; simpl; [|done].
      by rewrite <- app_assoc.
    + apply IH.
Qed.

(** The loop over exactly three fields. *)
Lemma face_loop_three nv p1 p2 p3 :
  face_loop nv [p1; p2; p3] [] =
  match v_idx p1, v_idx p2, v_idx p3 with
  | Some i1, Some i2, Some i3 =>
      Some ((if in_range nv i1 then [i1] else []) ++
            (if in_range nv i2 then [i2] else []) ++
            (if in_range nv i3 then [i3] else []))
  | _, _, _ => None
  end.
Proof.
  simpl. destruct (v_idx p1) as [i1|]; [|done].
  destruct (v_idx p2) as [i2|]; [|done].
  destruct (v_idx p3) as [i3|]; [|done].
  destruct (in_range nv i1), (in_range nv i2), (in_range nv i3); reflexivity.
Qed.

Section ParseFacts.

Context (fl : PyFloat).

(** What a face line with at least three fields appends. *)
Lemma parse_face_fields nv line p1 p2 p3 rest :
  drop 1 (Py.split line) = p1 :: p2 :: p3 :: rest ->
  parse_face nv line =
  match v_idx p1, v_idx p2, v_idx p3 with
  | Some i1, Some i2, Some i3 =>
      if resolves nv p1 && resolves nv p2 && resolves nv p3
      then [i1; i2; i3] else []
  | _, _, _ => []
  end.
Proof.
  intros Hp. unfold parse_face. rewrite Hp. simpl (3 <=? _)%nat. cbv iota.
  change (take 3 (p1 :: p2 :: p3 :: rest)) with [p1; p2; p3].
  rewrite face_loop_three. unfold resolves.
  destruct (v_idx p1) as [i1|]; [|done].
  destruct (v_idx p2) as [i2|]; [|done].
  destruct (v_idx p3) as [i3|]; [|done].
  destruct (in_range nv i1), (in_range nv i2), (in_range nv i3); reflexivity.
Qed.

(** A face line appends nothing or three indices into the vertices read
    so far. *)
Lemma parse_face_cases nv line :
  parse_face nv line = [] \/
  exists i1 i2 i3,
    parse_face nv line = [i1; i2; i3] /\
    in_range nv i1 = true /\ in_range nv i2 = true /\ in_range nv i3 = true.
Proof.
  unfold parse_face.
  destruct (drop 1 (Py.split line)) as [|p1 [|p2 [|p3 rest]]]; simpl; auto.
  change (match face_loop nv [p1; p2; p3] [] with
          | Some fv => if (length fv =? 3)%nat then fv else []
          | None => []
          end = [] \/
          exists i1 i2 i3,
            match face_loop nv [p1; p2; p3] [] with
            | Some fv => if (length fv =? 3)%nat then fv else []
            | None => []
            end = [i1; i2; i3] /\
            in_range nv i1 = true /\ in_range nv i2 = true /\ in_range nv i3 = true).
  rewrite face_loop_three.
  destruct (v_idx p1) as [i1|]; auto.
  destruct (v_idx p2) as [i2|]; auto.
  destruct (v_idx p3) as [i3|]; auto.
  destruct (in_range nv i1) eqn:E1, (in_range nv i2) eqn:E2,
    (in_range nv i3) eqn:E3; simpl; auto.
  right. exists i1, i2, i3. auto.
Qed.

(** A line starting with ['f '] is neither empty, nor a comment, nor a
    vertex line. *)
Lemma startswith_f line :
  Py.startswith "f " line = true ->
  String.eqb line "" = false /\ Py.startswith "#" line = false /\
  Py.startswith "v " line = false.
Proof.
  destruct line as [|c line]; [simpl; intros; discriminate|].
  change (Py.startswith "f " (String c line))
    with (if Ascii.eqb "f" c then Py.startswith " " line else false).
  destruct (Ascii.eqb "f" c) eqn:E; [|intros; discriminate].
  apply Ascii.eqb_eq in E. subst c. intros _. repeat split; reflexivity.
Qed.

Lemma step_face m raw :
  Py.startswith "f " (Py.strip raw) = true ->
  step fl m raw =
  Mesh (vertices m)
       (faces m ++ parse_face (length (vertices m)) (Py.strip raw)).
Proof.
  intros H. destruct (startswith_f _ H) as (E1 & E2 & E3).
  unfold step. cbv zeta. rewrite E1, E2, E3, H. reflexivity.
Qed.

Lemma parse_vertex_Some line v :
  parse_vertex fl line = Some v -> is_triple fl v.
Proof.
  unfold parse_vertex. cbv zeta.
  destruct (4 <=? length (Py.split line))%nat; [|discriminate].
  destruct (float fl (nth 1 _ _)) as [x|] eqn:Ex; [|discriminate].
  destruct (float fl (nth 2 _ _)) as [y|] eqn:Ey; [|discriminate].
  destruct (float fl (nth 3 _ _)) as [z|] eqn:Ez; [|discriminate].
  simpl. intros [= <-]. unfold is_triple. eauto 10.
Qed.

(** One step keeps what was read, adds at most one vertex and either no
    index or three indices into the vertices read before the line. *)
Lemma step_cases m raw :
  step fl m raw = m \/
  (exists v, step fl m raw = Mesh (vertices m ++ [v]) (faces m) /\
             is_triple fl v) \/
  (exists i1 i2 i3,
     step fl m raw = Mesh (vertices m) (faces m ++ [i1; i2; i3]) /\
     in_range (length (vertices m)) i1 = true /\
     in_range (length (vertices m)) i2 = true /\
     in_range (length (vertices m)) i3 = true).
Proof.
  unfold step. cbv zeta.
  destruct (String.eqb (Py.strip raw) "" || Py.startswith "#" (Py.strip raw)).
  { left; reflexivity. }
  destruct (Py.startswith "v " (Py.strip raw)).
  - destruct (parse_vertex fl (Py.strip raw)) as [v|] eqn:E.
    + right; left. exists v. split; [reflexivity|].
      eapply parse_vertex_Some, E.
    + left; reflexivity.
  - destruct (Py.startswith "f " (Py.strip raw)); [|left; reflexivity].
    destruct (parse_face_cases (length (vertices m)) (Py.strip raw))
      as [-> | (i1 & i2 & i3 & -> & H)].
    + left. rewrite app_nil_r. destruct m; reflexivity.
    + right; right. exists i1, i2, i3. split; [reflexivity|exact H].
Qed.

Lemma well_formed_empty : well_formed fl empty_mesh.
Proof. split; constructor. Qed.

Lemma step_well_formed m raw :
  well_formed fl m -> well_formed fl (step fl m raw).
Proof.
  intros [Hf Hv].
  destruct (step_cases m raw)
    as [-> | [(v & -> & Hx) | (i1 & i2 & i3 & -> & H1 & H2 & H3)]].
  - by split.
  - split; simpl.
    + eapply Forall_impl; [exact Hf|]. intros i Hi. simpl in Hi.
      rewrite length_app. simpl. lia.
    + apply Forall_app. split; [exact Hv|].
      constructor; [exact Hx|constructor].
  - split; simpl; [|exact Hv].
    apply Forall_app. split; [exact Hf|].
    apply in_range_spec in H1, H2, H3.
    repeat (constructor; [assumption|]). constructor.
Qed.

Lemma parse_from_well_formed ls m :
  well_formed fl m -> well_formed fl (parse_from fl m ls).
Proof.
  revert m. induction ls as [|l ls IH]; intros m Hm; [exact Hm|].
  apply IH, step_well_formed, Hm.
Qed.

Lemma parse_from_faces_length ls m :
  length (faces (parse_from fl m ls)) =
  (length (faces m) + 3 * retained_from fl m ls)%nat.
Proof.
  revert m. induction ls as [|l ls IH]; intros m; simpl; [lia|].
  change (fold_left (step fl) ls (step fl m l))
    with (parse_from fl (step fl m l) ls).
  rewrite IH.
  destruct (step_cases m l)
    as [-> | [(v & -> & _) | (i1 & i2 & i3 & -> & _)]]; simpl.
  - rewrite Nat.eqb_refl. lia.
  - rewrite Nat.eqb_refl. lia.
  - rewrite length_app. simpl.
    destruct (Nat.eqb_spec (length (faces m) + 3) (length (faces m))); lia.
Qed.

Lemma parse_from_vertices_length ls m :
  length (vertices (parse_from fl m ls)) =
  (length (vertices m) + parsed_from fl m ls)%nat.
Proof.
  revert m. induction ls as [|l ls IH]; intros m; simpl; [lia|].
  change (fold_left (step fl) ls (step fl m l))
    with (parse_from fl (step fl m l) ls).
  rewrite IH.
  destruct (step_cases m l)
    as [-> | [(v & -> & _) | (i1 & i2 & i3 & -> & _)]]; simpl.
  - rewrite Nat.eqb_refl. lia.
  - rewrite length_app. simpl.
    destruct (Nat.eqb_spec (length (vertices m) + 1) (length (vertices m))); lia.
  - rewrite Nat.eqb_refl. lia.
Qed.

Lemma parse_from_app l1 l2 m :
  parse_from fl m (l1 ++ l2) = parse_from fl (parse_from fl m l1) l2.
Proof. apply fold_left_app. Qed.

Lemma retained_from_app l1 l2 m :
  retained_from fl m (l1 ++ l2) =
  (retained_from fl m l1 + retained_from fl (parse_from fl m l1) l2)%nat.
Proof.
  revert m. induction l1 as [|l l1 IH]; intros m; simpl; [reflexivity|].
  rewrite IH. unfold parse_from. lia.
Qed.

(** What a line does depends on the vertices read so far only, and the
    two accumulators grow independently. *)
Lemma step_split m raw :
  step fl m raw =
  Mesh (vertices m ++ vertices (step fl empty_mesh raw))
       (faces m ++ faces (step fl (Mesh (vertices m) []) raw)).
Proof.
  unfold step. cbv zeta.
  destruct (String.eqb (Py.strip raw) "" || Py.startswith "#" (Py.strip raw)).
  { simpl. rewrite !app_nil_r. by destruct m. }
  destruct (Py.startswith "v " (Py.strip raw)).
  - destruct (parse_vertex fl (Py.strip raw)); simpl;
      rewrite ?app_nil_r; [reflexivity|by destruct m].
  - destruct (Py.startswith "f " (Py.strip raw)); simpl;
      rewrite ?app_nil_r; [reflexivity|by destruct m].
Qed.



End ParseFacts.

(** ** Face lines *)



Lemma v_idx_Some p i :
  v_idx p = Some i <-> Py.int (Py.split_head "/" p) = Some (i + 1).
Proof.
  unfold v_idx. destruct (Py.int _) as [n|]; simpl; [|split; discriminate].
  split; intros [= ?]; f_equal; lia.
Qed.

Lemma resolves_spec nv p :
  resolves nv p = true <->
  exists n, Py.int (Py.split_head "/" p) = Some n /\ 1 <= n <= Z.of_nat nv.
Proof.
  unfold resolves. split.
  - destruct (v_idx p) as [i|] eqn:E; [|discriminate].
    intros H. apply in_range_spec in H. apply v_idx_Some in E.
    exists (i + 1). split; [exact E|lia].
  - intros (n & E & Hn). replace n with ((n - 1) + 1) in E by lia.
    apply v_idx_Some in E. rewrite E. apply in_range_spec. lia.
Qed.

Section FaceLines.

Context (fl : PyFloat).

Lemma face_line_retained m raw p1 p2 p3 rest :
  face_line raw p1 p2 p3 rest ->
  resolve3 (length (vertices m)) p1 p2 p3 = true ->
  exists i1 i2 i3,
    v_idx p1 = Some i1 /\ v_idx p2 = Some i2 /\ v_idx p3 = Some i3 /\
    step fl m raw = Mesh (vertices m) (faces m ++ [i1; i2; i3]).
Proof.
  intros [Hs Hp] Hr. rewrite (step_face fl m raw Hs).
  rewrite (parse_face_fields _ _ _ _ _ _ Hp).
  unfold resolve3 in *. rewrite Hr.
  apply andb_true_iff in Hr as [Hr H3]. apply andb_true_iff in Hr as [H1 H2].
  unfold resolves in H1, H2, H3.
  destruct (v_idx p1) as [i1|]; [|discriminate].
  destruct (v_idx p2) as [i2|]; [|discriminate].
  destruct (v_idx p3) as [i3|]; [|discriminate].
  exists i1, i2, i3. auto.
Qed.

Lemma face_line_dropped m raw p1 p2 p3 rest :
  face_line raw p1 p2 p3 rest ->
  resolve3 (length (vertices m)) p1 p2 p3 = false ->
  step fl m raw = m.
Proof.
  intros [Hs Hp] Hr. rewrite (step_face fl m raw Hs).
  rewrite (parse_face_fields _ _ _ _ _ _ Hp).
  unfold resolve3 in *. rewrite Hr.
  assert (E : match v_idx p1, v_idx p2, v_idx p3 with
              | Some _, Some _, Some _ => @nil Z
              | _, _, _ => []
              end = []).
  { destruct (v_idx p1), (v_idx p2), (v_idx p3); reflexivity. }
  rewrite E, app_nil_r. destruct m; reflexivity.
Qed.

(** A line that leaves the accumulators as they were can be taken out of
    the file. *)
Lemma parse_skip pre raw post :
  step fl (parse fl pre) raw = parse fl pre ->
  parse fl (pre ++ raw :: post) = parse fl (pre ++ post) /\
  retained fl (pre ++ raw :: post) = retained fl (pre ++ post).
Proof.
  intros H. unfold parse, retained.
  rewrite !parse_from_app, !retained_from_app. simpl.
  fold (parse fl pre). change (parse_from fl empty_mesh pre) with (parse fl pre).
  rewrite H, Nat.eqb_refl. split; reflexivity.
Qed.







End FaceLines.

(** ** The packager: what one call does *)

Section ConvertFacts.

Context (fl : PyFloat) (env : Env).

Lemma bind_inr {A B} (m : M A) (k : A -> M B) fs b fs' :
  bind m k fs = (inr b, fs') ->
  exists a fs1, m fs = (inr a, fs1) /\ k a fs1 = (inr b, fs').
Proof.
  unfold bind. destruct (m fs) as [[e|a] fs1]; [discriminate|]. eauto.
Qed.

(** A [try] whose handler returns a value never raises. *)
Lemma try_except_returns {A} (body : M A) (a : A) fs :
  exists r fs', try_except body (fun _ => ret a) fs = (inr r, fs').
Proof.
  unfold try_except, ret. destruct (body fs) as [[e|r] fs']; eauto.
Qed.

(** When the handler returns [false], [true] comes from the body. *)
Lemma try_except_true (body : M bool) fs fs' :
  try_except body (fun _ => ret false) fs = (inr true, fs') ->
  body fs = (inr true, fs').
Proof.
  unfold try_except, ret. destruct (body fs) as [[e|r] fs1]; [discriminate|].
  intros [= -> ->]. reflexivity.
Qed.

Lemma size_guard_eq usdz_path fs :
  size_guard usdz_path fs =
  (inr match fs !! usdz_path with
       | Some f => 1000 <? size f
       | None => false
       end, fs).
Proof.
  unfold size_guard, bind, Os.path_exists, Os.getsize, ret.
  destruct (fs !! usdz_path) as [f|] eqn:E; simpl; rewrite ?E; reflexivity.
Qed.

Lemma size_guard_true usdz_path fs fs' :
  size_guard usdz_path fs = (inr true, fs') ->
  fs' = fs /\ exists f, fs !! usdz_path = Some f /\ 1000 < size f.
Proof.
  rewrite size_guard_eq. intros [= H <-]. split; [done|].
  destruct (fs !! usdz_path) as [f|]; [|discriminate].
  exists f. split; [done|]. by apply Z.ltb_lt.
Qed.

Lemma tool_attempt_returns obj usdz fs :
  exists r fs', tool_attempt env obj usdz fs = (inr r, fs').
Proof. apply try_except_returns. Qed.

Lemma fallback_returns obj usdz fs :
  exists r fs', fallback fl env obj usdz fs = (inr r, fs').
Proof. apply try_except_returns. Qed.

Lemma tool_attempt_true obj usdz fs fs' :
  tool_attempt env obj usdz fs = (inr true, fs') ->
  exists f, fs' !! usdz = Some f /\ 1000 < size f.
Proof.
  intros H. apply try_except_true in H.
  apply bind_inr in H as (rc & fs1 & _ & H).
  destruct (rc =? 0); [|discriminate].
  apply size_guard_true in H as [-> H]. exact H.
Qed.

Lemma fallback_true obj usdz fs fs' :
  fallback fl env obj usdz fs = (inr true, fs') ->
  exists f, fs' !! usdz = Some f /\ 1000 < size f.
Proof.
  intros H. apply try_except_true in H.
  apply bind_inr in H as (ls & fs1 & _ & H). cbv zeta in H.
  destruct (no_geometry (parse fl ls)); [discriminate|].
  apply bind_inr in H as (tmp & fs2 & _ & H).
  apply bind_inr in H as ([] & fs3 & _ & H).
  apply bind_inr in H as ([] & fs4 & _ & H).
  apply size_guard_true in H as [-> H]. exact H.
Qed.

Lemma convert_to_usdz_eq obj usdz fs :
  convert_to_usdz fl env obj usdz fs =
  match tool_attempt env obj usdz fs with
  | (inr true, fs1) => (inr true, fs1)
  | (inr false, fs1) => fallback fl env obj usdz fs1
  | (inl e, fs1) => (inl e, fs1)
  end.
Proof.
  unfold convert_to_usdz, bind.
  destruct (tool_attempt env obj usdz fs) as [[e|[]] fs1]; reflexivity.
Qed.


(** With geometry and without faults the fallback writes the archive and
    its answer is the size guard. *)
Lemma fallback_packages obj usdz fs s sz :
  no_faults env ->
  fs !! obj = Some (File (Text s) sz) ->
  no_geometry (parse fl (Py.readlines s)) = false ->
  fs !! tmp_name env fs = None ->
  tmp_name env fs <> usdz ->
  let doc := Usd.usd_content (parse fl (Py.readlines s)) in
  fallback fl env obj usdz fs =
  (inr (1000 <? archive_size env (Zip [("model.usd", Text doc)])),
   packaged env usdz doc fs).
Proof.
  intros (Hr & Hc & Hw & Ho & Hz & Hu) Hf Hg Ht Hne doc.
  unfold fallback, try_except, bind, read_obj.
  rewrite Hr, Hf. cbv zeta. rewrite Hg.
  unfold write_tmp_usd. rewrite Hc, Ht, Hw.
  unfold write_usdz. rewrite Ho, Hz. cbv zeta.
  rewrite lookup_insert_ne by congruence. rewrite lookup_insert_eq.
  cbn [data].
  unfold unlink. rewrite Hu.
  rewrite lookup_insert_ne by congruence.
  rewrite lookup_insert_ne by congruence. rewrite lookup_insert_eq.
  rewrite size_guard_eq.
  rewrite lookup_delete_ne by congruence. rewrite lookup_insert_eq.
  reflexivity.
Qed.

End ConvertFacts.

(** ** The reader: what it finds in a written document *)

Section ReadFacts.

Import UsdRead.

Lemma append_cons c a b : String c a +:+ b = String c (a +:+ b).
Proof. reflexivity. Qed.

Lemma append_assoc a b c : (a +:+ b) +:+ c = a +:+ (b +:+ c).
Proof.
  induction a as [|x a IH]; [reflexivity|]. rewrite !append_cons. by rewrite IH.
Qed.

Lemma append_nil_r a : a +:+ "" = a.
Proof.
  induction a as [|x a IH]; [reflexivity|]. rewrite append_cons. by rewrite IH.
Qed.

Lemma all_chars_app P a b :
  all_chars P (a +:+ b) = all_chars P a && all_chars P b.
Proof.
  induction a as [|c a IH]; [reflexivity|].
  rewrite ?append_cons. simpl. by rewrite IH, andb_assoc.
Qed.

Lemma plain_neutral a : plain a = true -> neutral a.
Proof.
  unfold plain, neutral. induction a as [|c a IH]; [reflexivity|].
  simpl. intros H d r. rewrite ?append_cons. simpl.
  apply andb_true_iff in H as [Hc Ha].
  unfold plain_char in Hc. apply negb_true_iff in Hc.
  apply orb_false_iff in Hc as [Hc _].
  apply orb_false_iff in Hc as [Hc H3].
  apply orb_false_iff in Hc as [H1 H2].
  rewrite H1, H2, H3. apply IH, Ha.
Qed.

Lemma plain_no_close a : plain a = true -> all_chars no_close_char a = true.
Proof.
  unfold plain. induction a as [|c a IH]; simpl; [reflexivity|].
  intros H. apply andb_true_iff in H as [Hc Ha]. rewrite (IH Ha), andb_true_r.
  unfold plain_char in Hc. apply negb_true_iff in Hc.
  apply orb_false_iff in Hc as [_ Hc]. unfold no_close_char. by rewrite Hc.
Qed.

Lemma until_no_close a r :
  all_chars no_close_char a = true ->
  until "]" (a +:+ String "]" r) = Some (a, r).
Proof.
  induction a as [|c a IH]; [reflexivity|].
  simpl. intros H. rewrite ?append_cons. simpl.
  apply andb_true_iff in H as [Hc Ha].
  unfold no_close_char in Hc. apply negb_true_iff in Hc.
  rewrite Hc, (IH Ha). reflexivity.
Qed.

Lemma join_cons sep x y l :
  Py.join sep (x :: y :: l) = x +:+ sep +:+ Py.join sep (y :: l).
Proof. reflexivity. Qed.

Lemma join_no_close xs :
  Forall entry xs -> all_chars no_close_char (Py.join Usd.sep xs) = true.
Proof.
  induction xs as [|x [|y l] IH]; intros H; [reflexivity| |].
  - apply Forall_cons in H as [(_ & _ & H) _]. exact H.
  - apply Forall_cons in H as [(_ & _ & Hx) H].
    rewrite join_cons, !all_chars_app, Hx, (IH H). reflexivity.
Qed.

Lemma commas_join xs :
  Forall entry xs -> commas 0 (Py.join Usd.sep xs) = Nat.pred (length xs).
Proof.
  induction xs as [|x [|y l] IH]; intros H; [reflexivity| |].
  - apply Forall_cons in H as [(Hx & _) _]. simpl.
    rewrite <- (append_nil_r x). apply Hx.
  - apply Forall_cons in H as [(Hx & _) H].
    rewrite join_cons, Hx. 
    change (commas 0 (Usd.sep +:+ Py.join Usd.sep (y :: l)))
      with (S (commas 0 (Py.join Usd.sep (y :: l)))).
    rewrite (IH H). reflexivity.
Qed.

Lemma blank_starts x r : starts_nonspace x = true -> blank (x +:+ r) = false.
Proof.
  destruct x as [|c x]; simpl; [discriminate|].
  intros H. apply negb_true_iff in H. rewrite ?append_cons. simpl. by rewrite H.
Qed.

Lemma count_items_join xs :
  Forall entry xs -> count_items (Py.join Usd.sep xs) = length xs.
Proof.
  intros H. unfold count_items. destruct xs as [|x l]; [reflexivity|].
  rewrite (commas_join _ H).
  assert (Hb : blank (Py.join Usd.sep (x :: l)) = false).
  { apply Forall_cons in H as [(_ & Hs & _) _].
    destruct l; [|rewrite join_cons; by apply blank_starts].
    simpl. rewrite <- (append_nil_r x). by apply blank_starts. }
  rewrite Hb. reflexivity.
Qed.


Lemma until_close a r :
  all_chars no_close_char a = true ->
  until "]" (a +:+ "]" +:+ r) = Some (a, r).
Proof. apply until_no_close. Qed.

Lemma all_chars_impl (P Q : ascii -> bool) s :
  (forall c, P c = true -> Q c = true) ->
  all_chars P s = true -> all_chars Q s = true.
Proof.
  intros HPQ. induction s as [|c s IH]; simpl; [reflexivity|].
  intros H. apply andb_true_iff in H as [Hc Hs].
  by rewrite (HPQ c Hc), (IH Hs).
Qed.

Lemma num_char_plain c : num_char c = true -> plain_char c = true.
Proof.
  destruct c as [[] [] [] [] [] [] [] []]; vm_compute; congruence.
Qed.

Lemma string_of_uint_chars d :
  all_chars num_char (NilEmpty.string_of_uint d) = true.
Proof. induction d; simpl; [reflexivity|exact IHd..]. Qed.

Lemma str_chars i :
  all_chars num_char (Py.str i) = true /\ starts_nonspace (Py.str i) = true.
Proof.
  unfold Py.str.
  assert (H : forall d,
             all_chars num_char (NilZero.string_of_uint d) = true /\
             starts_nonspace (NilZero.string_of_uint d) = true).
  { intros d. pose proof (string_of_uint_chars d) as H.
    destruct d; simpl in *; auto. }
  destruct (Z.to_int i) as [d|d]; simpl; [apply H|].
  split; [apply H|reflexivity].
Qed.

Lemma entry_three : entry "3".
Proof. repeat split. Qed.

Lemma entry_str i : entry (Py.str i).
Proof.
  destruct (str_chars i) as [Hc Hs].
  pose proof (all_chars_impl _ _ _ num_char_plain Hc) as Hp.
  split; [by apply plain_neutral|]. split; [exact Hs|by apply plain_no_close].
Qed.

Section Triples.

Context (fl : PyFloat).

Lemma entry_triple v : plain_floats fl -> is_triple fl v -> entry v.
Proof.
  intros Hp (a & b & c & x & y & z & Hx & Hy & Hz & ->).
  apply Hp in Hx, Hy, Hz. unfold vertex_text. repeat split.
  - intros d r. rewrite !append_assoc.
    change (commas (S d)
              (format_float fl x +:+ ", " +:+ format_float fl y +:+ ", "
               +:+ format_float fl z +:+ ")" +:+ r) = commas d r).
    rewrite (plain_neutral _ Hx).
    change (commas (S d)
              (format_float fl y +:+ ", " +:+ format_float fl z
               +:+ ")" +:+ r) = commas d r).
    rewrite (plain_neutral _ Hy).
    change (commas (S d) (format_float fl z +:+ ")" +:+ r) = commas d r).
    rewrite (plain_neutral _ Hz). reflexivity.
  - rewrite !all_chars_app, !(plain_no_close _ Hx), !(plain_no_close _ Hy),
      !(plain_no_close _ Hz). reflexivity.
Qed.

(** Reading back the document written for a mesh. *)
Lemma read_counts_usd_content m :
  Forall entry (vertices m) ->
  read_counts (Usd.usd_content m) =
  Some (Counts (length (vertices m)) (Usd.num_faces m) (length (faces m))).
Proof.
  intros Hv.
  assert (Hc : Forall entry (Usd.face_vertex_counts m)).
  { unfold Usd.face_vertex_counts. apply Forall_replicate, entry_three. }
  assert (Hi : Forall entry (Usd.face_vertex_indices m)).
  { unfold Usd.face_vertex_indices. apply Forall_fmap, Forall_true.
    intros i. apply entry_str. }
  unfold read_counts, Usd.usd_content.
  set (J1 := Py.join Usd.sep (Usd.face_vertex_counts m)).
  set (J2 := Py.join Usd.sep (Usd.face_vertex_indices m)).
  set (J3 := Py.join Usd.sep (vertices m)).
  assert (E1 : forall X,
             find_after "faceVertexCounts = ["
               (Usd.preamble +:+ "        int[] faceVertexCounts = [" +:+ X)
             = Some X) by reflexivity.
  assert (E2 : forall X,
             find_after "faceVertexIndices = ["
               (Usd.nl +:+ "        int[] faceVertexIndices = [" +:+ X)
             = Some X) by reflexivity.
  assert (E3 : forall X,
             find_after "points = ["
               (Usd.nl +:+ "        point3f[] points = [" +:+ X)
             = Some X) by reflexivity.
  rewrite E1. cbn [mbind option_bind].
  rewrite (until_close J1 _ (join_no_close _ Hc)). cbn [mbind option_bind].
  rewrite E2. cbn [mbind option_bind].
  rewrite (until_close J2 _ (join_no_close _ Hi)). cbn [mbind option_bind].
  rewrite E3. cbn [mbind option_bind].
  rewrite (until_close J3 _ (join_no_close _ Hv)). cbn [mbind option_bind].
  unfold J1, J2, J3.
  rewrite !count_items_join by assumption.
  unfold Usd.face_vertex_counts, Usd.face_vertex_indices.
  by rewrite length_replicate, length_fmap.
Qed.

End Triples.

Lemma digit_plain c : DecFloat.is_digit c = true -> plain_char c = true.
Proof.
  intros H. apply num_char_plain. unfold num_char.
  unfold DecFloat.is_digit in H. by rewrite H.
Qed.

Lemma digits_plain s : DecFloat.all_digits s = true -> plain s = true.
Proof.
  unfold plain. induction s as [|c s IH]; simpl; [reflexivity|].
  intros H. apply andb_true_iff in H as [Hc Hs].
  by rewrite (digit_plain c Hc), (IH Hs).
Qed.

Lemma lstrip0_digits s :
  DecFloat.all_digits s = true ->
  DecFloat.all_digits (DecFloat.lstrip0 s) = true.
Proof.
  induction s as [|c s IH]; [reflexivity|].
  intros H. pose proof H as H'. simpl in H'.
  apply andb_true_iff in H' as [_ Hs]. specialize (IH Hs).
  destruct c as [[] [] [] [] [] [] [] []]; try exact H. exact IH.
Qed.

Lemma rstrip0_digits s :
  DecFloat.all_digits s = true ->
  DecFloat.all_digits (DecFloat.rstrip0 s) = true.
Proof.
  induction s as [|c s IH]; [reflexivity|].
  simpl. intros H. apply andb_true_iff in H as [Hc Hs]. specialize (IH Hs).
  destruct (DecFloat.rstrip0 s) as [|d r].
  - destruct (Ascii.eqb c "0"); simpl; [reflexivity|by rewrite Hc].
  - change (DecFloat.is_digit c && DecFloat.all_digits (String d r) = true).
    by rewrite Hc, IH.
Qed.

Lemma or_zero_digits s :
  DecFloat.all_digits s = true ->
  DecFloat.all_digits (DecFloat.or_zero s) = true.
Proof. destruct s; [reflexivity|auto]. Qed.

(** The decimal fragment prints digits, a point and a sign only. *)
Lemma plain_floats_dec : plain_floats DecFloat.model.
Proof.
  intros s x. simpl. unfold DecFloat.parse.
  set (t := Py.strip s).
  destruct (match t with
            | String "-" r => (true, r)
            | String "+" r => (false, r)
            | _ => (false, t)
            end) as [ng body].
  cbv zeta.
  set (ip := Py.split_head "." body).
  set (fp := default "" (DecFloat.after "." body)).
  destruct (DecFloat.all_digits ip) eqn:Hi; [|discriminate].
  destruct (DecFloat.all_digits fp) eqn:Hf; [|discriminate].
  destruct (_ && _); [|discriminate].
  intros [= <-]. unfold DecFloat.format. simpl.
  unfold plain. rewrite !all_chars_app.
  fold (plain (DecFloat.or_zero (DecFloat.lstrip0 ip))).
  fold (plain (DecFloat.or_zero (DecFloat.rstrip0 fp))).
  rewrite (digits_plain _ (or_zero_digits _ (lstrip0_digits _ Hi))).
  rewrite (digits_plain _ (or_zero_digits _ (rstrip0_digits _ Hf))).
  destruct ng; reflexivity.
Qed.

End ReadFacts.

Section ArchiveFacts.

Context (fl : PyFloat) (env : Env).

(** A fallback that returns [True] has read the OBJ text, found
    geometry, and left at the destination the archive of the document
    written for the parsed mesh; the temporary document is gone. *)
Lemma fallback_true_archive obj usdz fs fs' :
  fallback fl env obj usdz fs = (inr true, fs') ->
  exists s sz,
    fs !! obj = Some (File (Text s) sz) /\
    no_geometry (parse fl (Py.readlines s)) = false /\
    fs' !! usdz =
      Some (File (Zip [("model.usd",
                        Text (Usd.usd_content (parse fl (Py.readlines s))))])
                 (archive_size env
                    (Zip [("model.usd",
                           Text (Usd.usd_content
                                   (parse fl (Py.readlines s))))]))) /\
    fs' !! tmp_name env fs = None.
Proof.
  unfold fallback, try_except, bind, read_obj, ret.
  destruct (read_err env); [discriminate|].
  destruct (fs !! obj) as [[[s| | |] sz]|]; try discriminate.
  cbv zeta.
  destruct (no_geometry _) eqn:Hg; [discriminate|].
  unfold write_tmp_usd.
  destruct (tmp_create_err env); [discriminate|].
  destruct (fs !! tmp_name env fs) eqn:Et; [discriminate|].
  destruct (tmp_write_err env); [discriminate|].
  unfold write_usdz.
  destruct (zip_open_err env); [discriminate|].
  cbv zeta.
  destruct (zip_write_err env); [discriminate|].
  destruct (decide (tmp_name env fs = usdz)) as [Heq|Hne].
  - rewrite Heq, !lookup_insert_eq. unfold unlink.
    destruct (unlink_err env); [discriminate|].
    rewrite lookup_insert_eq, size_guard_eq, lookup_delete_eq. discriminate.
  - rewrite lookup_insert_ne by congruence. rewrite lookup_insert_eq.
    cbn [data]. unfold unlink.
    destruct (unlink_err env); [discriminate|].
    rewrite lookup_insert_ne by congruence.
    rewrite lookup_insert_ne by congruence. rewrite lookup_insert_eq.
    rewrite size_guard_eq. intros [= _ <-].
    exists s, sz. split; [reflexivity|]. split; [exact Hg|]. split.
    + rewrite lookup_delete_ne by congruence. by rewrite lookup_insert_eq.
    + by rewrite lookup_delete_eq.
Qed.

End ArchiveFacts.

(** ** Counting the records of the text *)

Section CountFacts.

Context (fl : PyFloat).

Lemma startswith_v_line line :
  Py.startswith "v " line = true ->
  String.eqb line "" = false /\ Py.startswith "#" line = false /\
  Py.startswith "f " line = false.
Proof.
  destruct line as [|c line]; [simpl; intros; discriminate|].
  change (Py.startswith "v " (String c line))
    with (if Ascii.eqb "v" c then Py.startswith " " line else false).
  destruct (Ascii.eqb "v" c) eqn:E; [|intros; discriminate].
  apply Ascii.eqb_eq in E. subst c. intros _. repeat split; reflexivity.
Qed.

(** A vertex record adds one vertex, a formatted triple. *)
Lemma step_vertex_record m raw :
  vertex_record fl raw = true ->
  exists v, is_triple fl v /\
            step fl m raw = Mesh (vertices m ++ [v]) (faces m).
Proof.
  unfold vertex_record. intros H. apply andb_true_iff in H as [Hs Hf].
  destruct (startswith_v_line _ Hs) as (E1 & E2 & _).
  unfold step. cbv zeta. rewrite E1, E2, Hs. simpl.
  unfold parse_vertex. cbv zeta.
  destruct (Py.split (Py.strip raw)) as [|h [|a [|b [|c rest]]]];
    try discriminate.
  unfold accepted in Hf. simpl.
  destruct (float fl a) as [x|] eqn:Ea; [|discriminate].
  destruct (float fl b) as [y|] eqn:Eb; [|discriminate].
  destruct (float fl c) as [z|] eqn:Ec; [|discriminate].
  simpl. eexists. split; [|reflexivity].
  unfold is_triple. eauto 10.
Qed.

(** A line that is no vertex record adds no vertex. *)
Lemma step_no_vertex_record m raw :
  vertex_record fl raw = false ->
  vertices (step fl m raw) = vertices m.
Proof.
  unfold vertex_record, step. cbv zeta. intros H.
  destruct (String.eqb (Py.strip raw) "" || Py.startswith "#" (Py.strip raw));
    [reflexivity|].
  destruct (Py.startswith "v " (Py.strip raw)); simpl in H.
  - unfold parse_vertex. cbv zeta.
    destruct (Py.split (Py.strip raw)) as [|h [|a [|b [|c rest]]]];
      try reflexivity.
    unfold accepted in H. simpl.
    destruct (float fl a); [|reflexivity].
    destruct (float fl b); [|reflexivity].
    destruct (float fl c); [discriminate|reflexivity].
  - destruct (Py.startswith "f " (Py.strip raw)); reflexivity.
Qed.

(** A valid face adds three indices; any other line that is no vertex
    record adds none. *)
Lemma step_face_count m raw :
  vertex_record fl raw = false ->
  length (faces (step fl m raw)) =
  (length (faces m) +
   if valid_face (length (vertices m)) raw then 3 else 0)%nat.
Proof.
  intros Hv. unfold valid_face.
  destruct (Py.startswith "f " (Py.strip raw)) eqn:Hs; simpl.
  - rewrite (step_face fl m raw Hs). simpl. rewrite length_app. f_equal.
    destruct (drop 1 (Py.split (Py.strip raw)))
      as [|p1 [|p2 [|p3 rest]]] eqn:Hp;
      try (unfold parse_face; rewrite Hp; reflexivity).
    rewrite (parse_face_fields _ _ _ _ _ _ Hp). unfold resolve3.
    destruct (resolves _ p1 && resolves _ p2 && resolves _ p3) eqn:Hr.
    + apply andb_true_iff in Hr as [Hr H3].
      apply andb_true_iff in Hr as [H1 H2].
      unfold resolves in H1, H2, H3.
      destruct (v_idx p1); [|discriminate].
      destruct (v_idx p2); [|discriminate].
      destruct (v_idx p3); [reflexivity|discriminate].
    + destruct (v_idx p1), (v_idx p2), (v_idx p3); reflexivity.
  - unfold step. cbv zeta.
    destruct (String.eqb (Py.strip raw) "" || Py.startswith "#" (Py.strip raw));
      [lia|].
    destruct (Py.startswith "v " (Py.strip raw)).
    + destruct (parse_vertex fl (Py.strip raw)); simpl; lia.
    + rewrite Hs. lia.
Qed.

(** The loop reads as many vertices as the text has vertex records, and
    three indices for each of its valid faces. *)
Lemma parse_from_counts ls m :
  length (vertices (parse_from fl m ls)) =
    (length (vertices m) + vertex_records fl ls)%nat /\
  length (faces (parse_from fl m ls)) =
    (length (faces m) + 3 * valid_faces fl (length (vertices m)) ls)%nat.
Proof.
  revert m. induction ls as [|raw ls IH]; intros m; simpl; [lia|].
  change (fold_left (step fl) ls (step fl m raw))
    with (parse_from fl (step fl m raw) ls).
  destruct (IH (step fl m raw)) as [IHv IHf]. rewrite IHv, IHf.
  destruct (vertex_record fl raw) eqn:Hv.
  - destruct (step_vertex_record m raw Hv) as (v & _ & ->). simpl.
    rewrite length_app. simpl.
    replace (length (vertices m) + 1)%nat with (S (length (vertices m)))
      by lia.
    lia.
  - rewrite (step_no_vertex_record m raw Hv).
    rewrite (step_face_count m raw Hv).
    destruct (valid_face (length (vertices m)) raw); lia.
Qed.

End CountFacts.

(** Without its prints the call returns: every exception of the two
    [try] blocks is caught. *)
Lemma convert_to_usdz_returns
    (fl : PyFloat) (env : Env) (obj usdz : string) (fs : gmap string file) :
  exists (b : bool) (fs' : gmap string file),
    convert_to_usdz fl env obj usdz fs = (inr b, fs').
Proof.
  rewrite convert_to_usdz_eq.
  destruct (tool_attempt_returns env obj usdz fs) as (r & fs1 & ->).
  destruct r; [eauto|]. apply fallback_returns.
Qed.

(** ** The packager with its prints *)

Section PrintFacts.

Context (fl : PyFloat) (env : Env) (pr : printer).

Lemma print_at_silent line fs : print_at silent line fs = (inr tt, fs).
Proof. reflexivity. Qed.

(** A print raises only the exception of its line. *)
Lemma print_at_cases line fs :
  (pr line = None /\ print_at pr line fs = (inr tt, fs)) \/
  (exists e, pr line = Some e /\ print_at pr line fs = (inl e, fs)).
Proof.
  unfold print_at. destruct (pr line) as [e|]; [right; eauto|left; auto].
Qed.

(** The handler of lines 213-217. *)
Lemma handler_cases fs :
  (pr 214 = None /\ pr 216 = None /\
   (print_at pr 214 ;; print_at pr 216 ;; ret false)%io fs = (inr false, fs)) \/
  (exists e,
      (pr 214 = Some e \/ (pr 214 = None /\ pr 216 = Some e)) /\
      (print_at pr 214 ;; print_at pr 216 ;; ret false)%io fs = (inl e, fs)).
Proof.
  unfold bind, print_at, ret.
  destruct (pr 214) as [e|]; [right; eauto|].
  destruct (pr 216) as [e|]; [right; eauto|left; auto].
Qed.

(** The fallback raises only what its handler raises. *)
Lemma printing_fallback_cases obj usdz fs :
  (exists b fs', Printing.fallback fl env pr obj usdz fs = (inr b, fs')) \/
  (exists e fs',
      (pr 214 = Some e \/ (pr 214 = None /\ pr 216 = Some e)) /\
      Printing.fallback fl env pr obj usdz fs = (inl e, fs')).
Proof.
  unfold Printing.fallback, try_except.
  match goal with |- context [match ?body fs with _ => _ end] =>
    destruct (body fs) as [[e0|b] fs1] end.
  - destruct (handler_cases fs1) as [(_ & _ & ->)|(e & He & ->)];
      [left; eauto|right; eauto].
  - left; eauto.
Qed.

Lemma printing_convert_eq obj usdz fs :
  Printing.convert_to_usdz fl env pr obj usdz fs =
  match tool_attempt env obj usdz fs with
  | (inr true, fs1) => (inr true, fs1)
  | (inr false, fs1) => Printing.fallback fl env pr obj usdz fs1
  | (inl e, fs1) => (inl e, fs1)
  end.
Proof.
  unfold Printing.convert_to_usdz, bind.
  destruct (tool_attempt env obj usdz fs) as [[e|[]] fs1]; reflexivity.
Qed.

(** The call raises only what the handler of the fallback raises. *)
Lemma printing_convert_cases obj usdz fs :
  (exists b fs', Printing.convert_to_usdz fl env pr obj usdz fs = (inr b, fs')) \/
  (exists e fs',
      (pr 214 = Some e \/ (pr 214 = None /\ pr 216 = Some e)) /\
      Printing.convert_to_usdz fl env pr obj usdz fs = (inl e, fs')).
Proof.
  rewrite printing_convert_eq.
  destruct (tool_attempt_returns env obj usdz fs) as (r & fs1 & ->).
  destruct r; [left; eauto|]. apply printing_fallback_cases.
Qed.

End PrintFacts.

(** When no write raises, the packager with its prints is the packager
    above. *)
Lemma printing_fallback_silent fl env obj usdz fs :
  Printing.fallback fl env silent obj usdz fs = fallback fl env obj usdz fs.
Proof.
  unfold Printing.fallback, fallback, try_except, bind.
  destruct (read_obj env obj fs) as [[e|ls] fs1]; [reflexivity|].
  cbv zeta. destruct (no_geometry (parse fl ls)); [reflexivity|].
  destruct (write_tmp_usd env _ fs1) as [[e|t] fs2]; [reflexivity|].
  destruct (write_usdz env usdz t fs2) as [[e|[]] fs3]; [reflexivity|].
  destruct (unlink env t fs3) as [[e|[]] fs4]; [reflexivity|].
  destruct (size_guard usdz fs4) as [[e|b] fs5]; reflexivity.
Qed.

Lemma printing_convert_silent fl env obj usdz fs :
  Printing.convert_to_usdz fl env silent obj usdz fs
  = convert_to_usdz fl env obj usdz fs.
Proof.
  rewrite printing_convert_eq, convert_to_usdz_eq.
  destruct (tool_attempt env obj usdz fs) as [[e|[]] fs1];
    [reflexivity|reflexivity|apply printing_fallback_silent].
Qed.

(** ** Properties of the packager *)

(** C1. The document the fallback writes.  Let N be the number of vertex
    records of the OBJ text and M the number of its valid faces, a face
    being valid when its first three fields refer to vertex records
    above it.  When the fallback reaches the archive (the text is read,
    it has a valid face, and no I/O operation fails), the entry
    [model.usd] of the archive at the destination is the document whose
    [faceVertexCounts] array has M entries all equal to 3, whose
    flattened [faceVertexIndices] array has 3M entries, the decimal
    texts of integers that all lie in [0, N), and whose [points] array
    has N formatted coordinate triples. *)
Theorem C1_document_arrays
    (fl : PyFloat) (env : Env) (obj usdz : string)
    (fs : gmap string file) (s : string) (sz : Z) :
  let N := vertex_records fl (Py.readlines s) in
  let M := valid_faces fl 0 (Py.readlines s) in
  no_faults env ->
  fs !! obj = Some (File (Text s) sz) ->
  (0 < M)%nat ->
  fs !! tmp_name env fs = None ->
  tmp_name env fs <> usdz ->
  exists (indices : list Z) (points : list string) (doc : string),
    length indices = (3 * M)%nat /\
    Forall (fun i => 0 <= i < Z.of_nat N) indices /\
    length points = N /\
    Forall (is_triple fl) points /\
    doc =
      Usd.preamble +:+
      "        int[] faceVertexCounts = [" +:+
        Py.join Usd.sep (replicate M "3") +:+ "]" +:+ Usd.nl +:+
      "        int[] faceVertexIndices = [" +:+
        Py.join Usd.sep (Py.str <$> indices) +:+ "]" +:+ Usd.nl +:+
      "        point3f[] points = [" +:+
        Py.join Usd.sep points +:+ "]" +:+ Usd.nl +:+
      Usd.postamble /\
    (fallback fl env obj usdz fs).2 !! usdz =
      Some (File (Zip [("model.usd", Text doc)])
                 (archive_size env (Zip [("model.usd", Text doc)]))).
Proof.
  intros N M Hq Hf HM Ht Hne.
  set (m := parse fl (Py.readlines s)).
  destruct (parse_from_counts fl (Py.readlines s) empty_mesh) as [HN HF].
  fold (parse fl (Py.readlines s)) in HN, HF. fold m in HN, HF.
  cbn [empty_mesh vertices faces length Nat.add] in HN, HF.
  fold N in HN. fold M in HF.
  destruct (parse_from_well_formed fl (Py.readlines s) empty_mesh
              (well_formed_empty fl)) as [Hi Hv].
  fold (parse fl (Py.readlines s)) in Hi, Hv. fold m in Hi, Hv.
  assert (Hg : no_geometry m = false).
  { unfold no_geometry.
    destruct (faces m) as [|i idx] eqn:Ef; [simpl in HF; lia|].
    destruct (vertices m) eqn:Ev; [|reflexivity].
    apply Forall_cons in Hi as [Hi _]. simpl in Hi. lia. }
  exists (faces m), (vertices m). eexists.
  split; [exact HF|]. split; [by rewrite <- HN|].
  split; [exact HN|]. split; [exact Hv|]. split; [reflexivity|].
  rewrite (fallback_packages fl env obj usdz fs s sz Hq Hf Hg Ht Hne).
  cbv zeta. cbn [snd]. unfold packaged. cbv zeta.
  rewrite lookup_delete_ne by congruence. rewrite lookup_insert_eq.
  fold m.
  assert (Hd : Usd.usd_content m =
               Usd.preamble +:+
               "        int[] faceVertexCounts = [" +:+
                 Py.join Usd.sep (replicate M "3") +:+ "]" +:+ Usd.nl +:+
               "        int[] faceVertexIndices = [" +:+
                 Py.join Usd.sep (Py.str <$> faces m) +:+ "]" +:+ Usd.nl +:+
               "        point3f[] points = [" +:+
                 Py.join Usd.sep (vertices m) +:+ "]" +:+ Usd.nl +:+
               Usd.postamble).
  { unfold Usd.usd_content, Usd.face_vertex_counts, Usd.num_faces.
    rewrite HF.
    assert (E : Nat.div (3 * M) 3 = M)
      by (rewrite Nat.mul_comm; apply Nat.div_mul; lia).
    rewrite E. reflexivity. }
  rewrite Hd. reflexivity.
Qed.

(** A triangle: three vertex records and one valid face. *)
Lemma C1_witness :
  vertex_records DecFloat.model (Py.readlines Example.triangle) = 3%nat /\
  valid_faces DecFloat.model 0 (Py.readlines Example.triangle) = 1%nat /\
  exists (indices : list Z) (points : list string) (doc : string),
    length indices = (3 * 1)%nat /\
    Forall (fun i => 0 <= i < 3) indices /\
    length points = 3%nat /\
    Forall (is_triple DecFloat.model) points /\
    doc =
      Usd.preamble +:+
      "        int[] faceVertexCounts = [" +:+
        Py.join Usd.sep (replicate 1 "3") +:+ "]" +:+ Usd.nl +:+
      "        int[] faceVertexIndices = [" +:+
        Py.join Usd.sep (Py.str <$> indices) +:+ "]" +:+ Usd.nl +:+
      "        point3f[] points = [" +:+
        Py.join Usd.sep points +:+ "]" +:+ Usd.nl +:+
      Usd.postamble /\
    (fallback DecFloat.model Example.large "mesh.obj" "mesh.usdz"
       (Example.disk Example.triangle)).2 !! "mesh.usdz" =
      Some (File (Zip [("model.usd", Text doc)])
                 (archive_size Example.large (Zip [("model.usd", Text doc)]))).
Proof.
  split; [reflexivity|]. split; [reflexivity|].
  exact (C1_document_arrays DecFloat.model Example.large "mesh.obj" "mesh.usdz"
           (Example.disk Example.triangle) Example.triangle 32
           (conj eq_refl (conj eq_refl (conj eq_refl
              (conj eq_refl (conj eq_refl eq_refl)))))
           eq_refl (le_n 1) eq_refl ltac:(discriminate)).
Defined.








(** C5. Round trip.  When the fallback returns [True] (the text of every
    float being free of parentheses, commas and brackets), the container
    at the destination holds exactly one entry, named [model.usd]; the
    entry is the document written for the parsed mesh, and reading it
    back gives as many points as vertex lines parsed, as many faces as
    face lines were retained, and three indices per face. *)
Theorem C5_round_trip
    (fl : PyFloat) (env : Env) (obj usdz : string)
    (fs fs' : gmap string file) :
  plain_floats fl ->
  fallback fl env obj usdz fs = (inr true, fs') ->
  exists s sz f doc,
    fs !! obj = Some (File (Text s) sz) /\
    fs' !! usdz = Some f /\
    UsdRead.unzip (data f) = Some [("model.usd", Text doc)] /\
    doc = Usd.usd_content (parse fl (Py.readlines s)) /\
    UsdRead.read_counts doc =
      Some (UsdRead.Counts (parsed fl (Py.readlines s))
                           (retained fl (Py.readlines s))
                           (3 * retained fl (Py.readlines s))).
Proof.
  intros Hp H.
  destruct (fallback_true_archive fl env obj usdz fs fs' H)
    as (s & sz & Hf & _ & Hz & _).
  exists s, sz. eexists. eexists.
  split; [exact Hf|]. split; [exact Hz|]. split; [reflexivity|].
  split; [reflexivity|].
  destruct (parse_from_well_formed fl (Py.readlines s) empty_mesh
              (well_formed_empty fl)) as [_ Hv].
  fold (parse fl (Py.readlines s)) in Hv.
  rewrite read_counts_usd_content.
  - pose proof (parse_from_faces_length fl (Py.readlines s) empty_mesh) as Hl.
    pose proof (parse_from_vertices_length fl (Py.readlines s) empty_mesh) as Hn.
    fold (parse fl (Py.readlines s)) in Hl, Hn.
    fold (retained fl (Py.readlines s)) in Hl.
    fold (parsed fl (Py.readlines s)) in Hn.
    cbn [length faces vertices empty_mesh Nat.add] in Hl, Hn.
    unfold Usd.num_faces. rewrite Hl, Hn.
    do 2 f_equal. rewrite Nat.mul_comm. apply Nat.div_mul. lia.
  - eapply Forall_impl; [exact Hv|]. intros v. by apply entry_triple.
Qed.

(** A triangle packaged on a machine without the external tool, the
    archive being 2000 bytes long: the entry read back has 3 points,
    1 face and 3 indices. *)
Lemma C5_witness :
  fallback DecFloat.model Example.large "mesh.obj" "mesh.usdz"
    (Example.disk Example.triangle)
  = (inr true,
     (fallback DecFloat.model Example.large "mesh.obj" "mesh.usdz"
        (Example.disk Example.triangle)).2) /\
  parsed DecFloat.model (Py.readlines Example.triangle) = 3%nat /\
  retained DecFloat.model (Py.readlines Example.triangle) = 1%nat /\
  exists s sz f doc,
    Example.disk Example.triangle !! "mesh.obj" = Some (File (Text s) sz) /\
    (fallback DecFloat.model Example.large "mesh.obj" "mesh.usdz"
       (Example.disk Example.triangle)).2 !! "mesh.usdz" = Some f /\
    UsdRead.unzip (data f) = Some [("model.usd", Text doc)] /\
    doc = Usd.usd_content (parse DecFloat.model (Py.readlines s)) /\
    UsdRead.read_counts doc =
      Some (UsdRead.Counts (parsed DecFloat.model (Py.readlines s))
                           (retained DecFloat.model (Py.readlines s))
                           (3 * retained DecFloat.model (Py.readlines s))).
Proof.
  assert (H : fallback DecFloat.model Example.large "mesh.obj" "mesh.usdz"
                (Example.disk Example.triangle)
              = (inr true,
                 (fallback DecFloat.model Example.large "mesh.obj" "mesh.usdz"
                    (Example.disk Example.triangle)).2))
    by (vm_compute; reflexivity).
  split; [exact H|]. split; [reflexivity|]. split; [reflexivity|].
  exact (C5_round_trip DecFloat.model Example.large "mesh.obj" "mesh.usdz"
           _ _ plain_floats_dec H).
Defined.

(** C6.  The temporary document is deleted at line 207 only, which is
    reached when opening the archive and adding the entry both went
    well.  Here the destination cannot be opened (its directory is
    missing): the call creates the temporary document, returns [False],
    and the temporary document is still on disk. *)
Theorem C6_temp_file_left_behind :
  Example.disk Example.triangle !! Example.tmp = None /\
  (convert_to_usdz DecFloat.model Example.no_dir
     "mesh.obj" "missing/mesh.usdz" (Example.disk Example.triangle)).1
    = inr false /\
  (convert_to_usdz DecFloat.model Example.no_dir
     "mesh.obj" "missing/mesh.usdz" (Example.disk Example.triangle)).2
    !! Example.tmp
    = Some (File (Text (Usd.usd_content
                          (parse DecFloat.model
                             (Py.readlines Example.triangle))))
                 410) /\
  (convert_to_usdz DecFloat.model Example.no_dir
     "mesh.obj" "missing/mesh.usdz" (Example.disk Example.triangle)).2
    !! "missing/mesh.usdz" = None.
Proof.
  repeat split; vm_compute; reflexivity.
Qed.

(** C7, as stated, fails.  Adding the entry raises (the disk is full):
    the call returns [False] and the destination, created when the
    archive was opened, holds no complete entry. *)
Lemma C7_counterexample :
  Example.disk Example.triangle !! "mesh.usdz" = None /\
  (convert_to_usdz DecFloat.model Example.disk_full "mesh.obj" "mesh.usdz"
     (Example.disk Example.triangle)).1 = inr false /\
  (convert_to_usdz DecFloat.model Example.disk_full "mesh.obj" "mesh.usdz"
     (Example.disk Example.triangle)).2 !! "mesh.usdz"
    = Some (File ZipUnfinished 0).
Proof.
  repeat split; vm_compute; reflexivity.
Qed.

(** C7, amended.  When [convert_to_usdz] returns [False] (the temporary
    file not being the destination itself), the destination is in one of
    three states: as the attempt with the external tool left it (the
    fallback did not open the archive); a container opened for writing
    to which the entry was not completely added; or a complete archive
    whose single entry is [model.usd], in which case deleting the
    temporary file failed or the archive is not larger than 1000 bytes.
    Nothing removes or repairs the destination. *)
Theorem C7_destination_after_failure
    (fl : PyFloat) (env : Env) (obj usdz : string)
    (fs fs' : gmap string file) :
  convert_to_usdz fl env obj usdz fs = (inr false, fs') ->
  tmp_name env (tool_attempt env obj usdz fs).2 <> usdz ->
  fs' !! usdz = (tool_attempt env obj usdz fs).2 !! usdz \/
  fs' !! usdz = Some (File ZipUnfinished 0) \/
  exists doc,
    fs' !! usdz =
      Some (File (Zip [("model.usd", Text doc)])
                 (archive_size env (Zip [("model.usd", Text doc)]))) /\
    (unlink_err env <> None \/
     archive_size env (Zip [("model.usd", Text doc)]) <= 1000).
Proof.
  rewrite convert_to_usdz_eq.
  destruct (tool_attempt env obj usdz fs) as [[e|[]] fs1]; try discriminate.
  simpl. clear fs. intros H Hne. revert fs' H.
  unfold fallback, try_except, bind, read_obj, ret.
  destruct (read_err env); [intros fs' [= <-]; by left|].
  destruct (fs1 !! obj) as [[[s| | |] sz]|];
    try (intros fs' [= <-]; by left).
  cbv zeta.
  destruct (no_geometry _); [intros fs' [= <-]; by left|].
  unfold write_tmp_usd.
  destruct (tmp_create_err env); [intros fs' [= <-]; by left|].
  destruct (fs1 !! tmp_name env fs1) eqn:Et; [intros fs' [= <-]; by left|].
  destruct (tmp_write_err env).
  { intros fs' [= <-]. left. by rewrite lookup_insert_ne. }
  unfold write_usdz.
  destruct (zip_open_err env).
  { intros fs' [= <-]. left. by rewrite lookup_insert_ne. }
  cbv zeta.
  destruct (zip_write_err env).
  { intros fs' [= <-]. right; left. by rewrite lookup_insert_eq. }
  rewrite lookup_insert_ne by congruence. rewrite lookup_insert_eq.
  cbn [data]. unfold unlink.
  destruct (unlink_err env) eqn:Eu.
  { intros fs' [= <-]. right; right. eexists. rewrite lookup_insert_eq.
    split; [reflexivity|]. left. congruence. }
  rewrite lookup_insert_ne by congruence.
  rewrite lookup_insert_ne by congruence. rewrite lookup_insert_eq.
  rewrite size_guard_eq.
  rewrite lookup_delete_ne by congruence. rewrite lookup_insert_eq.
  cbn [size].
  intros fs' [= Hs <-]. right; right. eexists.
  rewrite lookup_delete_ne by congruence. rewrite lookup_insert_eq.
  split; [reflexivity|]. right. apply Z.ltb_ge. exact Hs.
Qed.

(** A triangle packaged without any fault: the archive is complete and
    531 bytes long at most, and the call returns [False]. *)
Lemma C7_witness :
  convert_to_usdz DecFloat.model Example.small "mesh.obj" "mesh.usdz"
    (Example.disk Example.triangle)
  = (inr false,
     (convert_to_usdz DecFloat.model Example.small "mesh.obj" "mesh.usdz"
        (Example.disk Example.triangle)).2) /\
  (convert_to_usdz DecFloat.model Example.small "mesh.obj" "mesh.usdz"
     (Example.disk Example.triangle)).2 !! "mesh.usdz"
  = Some (File (Zip [("model.usd",
                      Text (Usd.usd_content
                              (parse DecFloat.model
                                 (Py.readlines Example.triangle))))])
               531) /\
  ((convert_to_usdz DecFloat.model Example.small "mesh.obj" "mesh.usdz"
      (Example.disk Example.triangle)).2 !! "mesh.usdz"
   = (tool_attempt Example.small "mesh.obj" "mesh.usdz"
        (Example.disk Example.triangle)).2 !! "mesh.usdz" \/
   (convert_to_usdz DecFloat.model Example.small "mesh.obj" "mesh.usdz"
      (Example.disk Example.triangle)).2 !! "mesh.usdz"
   = Some (File ZipUnfinished 0) \/
   exists doc,
     (convert_to_usdz DecFloat.model Example.small "mesh.obj" "mesh.usdz"
        (Example.disk Example.triangle)).2 !! "mesh.usdz"
     = Some (File (Zip [("model.usd", Text doc)])
                  (archive_size Example.small (Zip [("model.usd", Text doc)])))
     /\ (unlink_err Example.small <> None \/
         archive_size Example.small (Zip [("model.usd", Text doc)]) <= 1000)).
Proof.
  assert (Hc : convert_to_usdz DecFloat.model Example.small
                 "mesh.obj" "mesh.usdz" (Example.disk Example.triangle)
               = (inr false,
                  (convert_to_usdz DecFloat.model Example.small
                     "mesh.obj" "mesh.usdz"
                     (Example.disk Example.triangle)).2))
    by (vm_compute; reflexivity).
  assert (Hne : tmp_name Example.small
                  (tool_attempt Example.small "mesh.obj" "mesh.usdz"
                     (Example.disk Example.triangle)).2
                <> "mesh.usdz") by discriminate.
  split; [exact Hc|]. split; [vm_compute; reflexivity|].
  exact (C7_destination_after_failure DecFloat.model Example.small
           "mesh.obj" "mesh.usdz" _ _ Hc Hne).
Defined.

(** C8, as stated, fails.  The handler of lines 213-217 writes to
    [stderr] outside any [try].  On a closed pipe, a missing OBJ file
    makes [open] raise [FileNotFoundError], which is caught; the print of
    line 214 then raises, and that exception reaches the caller: no
    boolean is returned. *)
Lemma C8_counterexample :
  (∅ : gmap string file) !! "mesh.obj" = None /\
  Printing.convert_to_usdz DecFloat.model Example.small broken_pipe
    "mesh.obj" "mesh.usdz" ∅
  = (inl OSError, ∅).
Proof.
  split; vm_compute; reflexivity.
Qed.

(** C8, amended.  Every exception of the external tool, of reading and
    parsing the OBJ file and of writing the archive is caught inside
    [convert_to_usdz].  An exception reaches the caller only when the
    handler of the fallback itself raises it, in the print of line 214
    or in [traceback.print_exc()] of line 216; when these two writes do
    not raise, the call returns a boolean. *)
Theorem C8_raises_only_in_its_handler
    (fl : PyFloat) (env : Env) (pr : printer) (obj usdz : string)
    (fs : gmap string file) :
  (forall e fs',
      Printing.convert_to_usdz fl env pr obj usdz fs = (inl e, fs') ->
      pr 214 = Some e \/ (pr 214 = None /\ pr 216 = Some e)) /\
  (pr 214 = None -> pr 216 = None ->
   exists (b : bool) (fs' : gmap string file),
     Printing.convert_to_usdz fl env pr obj usdz fs = (inr b, fs')).
Proof.
  destruct (printing_convert_cases fl env pr obj usdz fs)
    as [(b & fs1 & H)|(e & fs1 & He & H)]; rewrite H.
  - split; [intros e fs' [=]|eauto].
  - split.
    + intros e' fs' [= <- <-]. exact He.
    + intros H1 H2. destruct He as [He|[_ He]]; congruence.
Qed.

(** The missing OBJ file again, the writes to [stderr] going well: the
    call returns [False]. *)
Lemma C8_witness :
  Printing.convert_to_usdz DecFloat.model Example.small silent
    "mesh.obj" "mesh.usdz" ∅ = (inr false, ∅) /\
  exists (b : bool) (fs' : gmap string file),
    Printing.convert_to_usdz DecFloat.model Example.small silent
      "mesh.obj" "mesh.usdz" ∅ = (inr b, fs').
Proof.
  split; [vm_compute; reflexivity|].
  exact (proj2 (C8_raises_only_in_its_handler DecFloat.model Example.small
                  silent "mesh.obj" "mesh.usdz" ∅) eq_refl eq_refl).
Defined.

(** C9. [convert_to_usdz] returns [True] only if, on return, the
    destination exists and is larger than 1000 bytes.  An output of the
    external tool that is not larger, with return code 0 and no
    exception, is not accepted (control falls to the fallback), and a
    call that ends with the destination missing or not larger than 1000
    bytes has returned [False]. *)
Theorem C9_size_guard
    (fl : PyFloat) (env : Env) (obj usdz : string) (fs : gmap string file) :
  (forall fs',
      convert_to_usdz fl env obj usdz fs = (inr true, fs') ->
      exists f, fs' !! usdz = Some f /\ 1000 < size f) /\
  (forall fs1,
      usdzconvert env obj usdz fs = (inr 0, fs1) ->
      (forall f, fs1 !! usdz = Some f -> size f <= 1000) ->
      tool_attempt env obj usdz fs = (inr false, fs1)) /\
  (forall b fs',
      convert_to_usdz fl env obj usdz fs = (inr b, fs') ->
      (forall f, fs' !! usdz = Some f -> size f <= 1000) ->
      b = false).
Proof.
  assert (H1 : forall fs',
      convert_to_usdz fl env obj usdz fs = (inr true, fs') ->
      exists f, fs' !! usdz = Some f /\ 1000 < size f).
  { intros fs'. rewrite convert_to_usdz_eq.
    destruct (tool_attempt env obj usdz fs) as [[e|[]] fs1] eqn:Et.
    - discriminate.
    - intros [= <-]. eapply tool_attempt_true, Et.
    - apply fallback_true. }
  split; [exact H1|]. split.
  - intros fs1 Hrun Hsmall.
    unfold tool_attempt, try_except, bind, run_usdzconvert.
    rewrite Hrun. simpl. rewrite size_guard_eq.
    destruct (fs1 !! usdz) as [f|] eqn:E; [|reflexivity].
    specialize (Hsmall f eq_refl).
    destruct (Z.ltb_spec 1000 (size f)); [lia|reflexivity].
  - intros [] fs' Hc Hsmall; [|reflexivity].
    destruct (H1 fs' Hc) as (f & Hf & Hlt).
    specialize (Hsmall f Hf). lia.
Qed.

(** A triangle packaged on a machine without the external tool, the
    archive being 2000 bytes long. *)
Lemma C9_witness :
  convert_to_usdz DecFloat.model Example.large "mesh.obj" "mesh.usdz"
    (Example.disk Example.triangle)
  = (inr true,
     (convert_to_usdz DecFloat.model Example.large "mesh.obj" "mesh.usdz"
        (Example.disk Example.triangle)).2) /\
  exists f,
    (convert_to_usdz DecFloat.model Example.large "mesh.obj" "mesh.usdz"
       (Example.disk Example.triangle)).2 !! "mesh.usdz" = Some f /\
    1000 < size f.
Proof.
  assert (Hc : convert_to_usdz DecFloat.model Example.large
                 "mesh.obj" "mesh.usdz" (Example.disk Example.triangle)
               = (inr true,
                  (convert_to_usdz DecFloat.model Example.large
                     "mesh.obj" "mesh.usdz"
                     (Example.disk Example.triangle)).2))
    by (vm_compute; reflexivity).
  split; [exact Hc|].
  exact (proj1 (C9_size_guard DecFloat.model Example.large
                  "mesh.obj" "mesh.usdz" (Example.disk Example.triangle))
           _ Hc).
Defined.

(** C10, as stated, fails.  The face line [f 1 2 3 4] stands before the
    line of the fourth vertex, to which its fourth field refers: the
    field is not one of the first three, is not looked at, and the face
    is retained. *)
Lemma C10_counterexample :
  face_line "f 1 2 3 4" "1" "2" "3" ["4"] /\
  resolves
    (length (vertices (parse DecFloat.model
                         ["v 0 0 0"; "v 1 0 0"; "v 0 1 0"]))) "4" = false /\
  length (vertices (parse DecFloat.model
                      ["v 0 0 0"; "v 1 0 0"; "v 0 1 0"; "f 1 2 3 4";
                       "v 1 1 0"])) = 4%nat /\
  faces (parse DecFloat.model
           ["v 0 0 0"; "v 1 0 0"; "v 0 1 0"; "f 1 2 3 4"; "v 1 1 0"])
    = [0; 1; 2].
Proof.
  repeat split; vm_compute; reflexivity.
Qed.

(** C10, amended.  A face index is checked against the vertices read before the
    face line, not against the final vertex count.  For a face line
    reached after the lines [pre]: a field resolves exactly when its
    1-based integer lies between 1 and the number of vertices read in
    [pre]; the face is retained exactly when its first three fields
    resolve; and when one of them is 0 or less, or larger than that
    number, the line is dropped, whatever vertices the later lines
    [post] define. *)
Theorem C10_checked_against_vertices_so_far
    (fl : PyFloat) (pre post : list string)
    (raw p1 p2 p3 : string) (rest : list string) :
  let m := parse fl pre in
  let nv := length (vertices m) in
  face_line raw p1 p2 p3 rest ->
  (forall p,
      resolves nv p = true <->
      exists n, Py.int (Py.split_head "/" p) = Some n /\ 1 <= n <= Z.of_nat nv) /\
  ((exists i1 i2 i3, faces (step fl m raw) = faces m ++ [i1; i2; i3]) <->
   resolve3 nv p1 p2 p3 = true) /\
  (forall p n,
      p ∈ [p1; p2; p3] ->
      Py.int (Py.split_head "/" p) = Some n ->
      n <= 0 \/ Z.of_nat nv < n ->
      step fl m raw = m /\
      parse fl (pre ++ raw :: post) = parse fl (pre ++ post)).
Proof.
  intros m nv Hl. split; [intros p; apply resolves_spec|]. split.
  - split.
    + intros (i1 & i2 & i3 & H).
      destruct (resolve3 nv p1 p2 p3) eqn:E; [reflexivity|].
      rewrite (face_line_dropped fl m raw _ _ _ _ Hl E) in H.
      apply (f_equal length) in H. rewrite length_app in H. simpl in H. lia.
    + intros E.
      destruct (face_line_retained fl m raw _ _ _ _ Hl E)
        as (i1 & i2 & i3 & _ & _ & _ & ->).
      exists i1, i2, i3. reflexivity.
  - intros p n Hin Hn Hout.
    assert (Hp : resolves nv p = false).
    { destruct (resolves nv p) eqn:E; [|reflexivity].
      apply resolves_spec in E as (n' & Hn' & Hr).
      rewrite Hn in Hn'. injection Hn' as <-. lia. }
    assert (E : resolve3 nv p1 p2 p3 = false).
    { unfold resolve3.
      apply elem_of_cons in Hin as [-> | Hin]; [by rewrite Hp|].
      apply elem_of_cons in Hin as [-> | Hin];
        [rewrite Hp; by destruct (resolves nv p1)|].
      apply elem_of_cons in Hin as [-> | Hin];
        [rewrite Hp; by destruct (resolves nv p1), (resolves nv p2)|].
      by apply elem_of_nil in Hin. }
    pose proof (face_line_dropped fl m raw _ _ _ _ Hl E) as Hd.
    split; [exact Hd|]. apply (parse_skip fl pre raw post Hd).
Qed.

(** The face line [f 1 2 3] placed before the three vertex lines it
    refers to: index 3 lies within the final vertex count, and the face
    is dropped. *)
Lemma C10_witness :
  face_line "f 1 2 3" "1" "2" "3" [] /\
  length (vertices (parse DecFloat.model
                      ["f 1 2 3"; "v 0 0 0"; "v 1 0 0"; "v 0 1 0"])) = 3%nat /\
  parse DecFloat.model ([] ++ "f 1 2 3" :: ["v 0 0 0"; "v 1 0 0"; "v 0 1 0"])
    = parse DecFloat.model ([] ++ ["v 0 0 0"; "v 1 0 0"; "v 0 1 0"]) /\
  faces (parse DecFloat.model
           ["f 1 2 3"; "v 0 0 0"; "v 1 0 0"; "v 0 1 0"]) = [].
Proof.
  assert (Hl : face_line "f 1 2 3" "1" "2" "3" []) by (split; reflexivity).
  split; [exact Hl|]. split; [reflexivity|]. split; [|reflexivity].
  refine (proj2 (proj2 (proj2
    (C10_checked_against_vertices_so_far DecFloat.model []
       ["v 0 0 0"; "v 1 0 0"; "v 0 1 0"]
       "f 1 2 3" "1" "2" "3" [] Hl)) "3" 3 _ eq_refl _)).
  - apply list_elem_of_In. simpl. auto.
  - right. simpl. lia.
Defined.
(** ** Further properties of the parser *)

Section LineFacts.

Context (fl : PyFloat).

Lemma ignored_line_step m raw : ignored_line raw = true -> step fl m raw = m.
Proof.
  unfold ignored_line, step. cbv zeta.
  destruct (String.eqb (Py.strip raw) "" || Py.startswith "#" (Py.strip raw));
    [reflexivity|].
  simpl. intros H. apply negb_true_iff, orb_false_iff in H as [-> ->].
  reflexivity.
Qed.

(** A line starting with ['v '] has ["v"] as its first field. *)
Lemma split_vertex_line line :
  Py.startswith "v " line = true ->
  exists fields, Py.split line = "v" :: fields.
Proof.
  destruct line as [|c1 [|c2 t]]; try (simpl; intros; discriminate).
  - change (Py.startswith "v " (String c1 ""))
      with (if Ascii.eqb "v" c1 then false else false).
    destruct (Ascii.eqb "v" c1); discriminate.
  - change (Py.startswith "v " (String c1 (String c2 t)))
      with (if Ascii.eqb "v" c1 then if Ascii.eqb " " c2 then true else false
            else false).
    destruct (Ascii.eqb "v" c1) eqn:E1; [|discriminate].
    destruct (Ascii.eqb " " c2) eqn:E2; [|discriminate].
    apply Ascii.eqb_eq in E1, E2. subst c1 c2. intros _.
    exists (Py.split (String " " t)). reflexivity.
Qed.

Lemma startswith_v line :
  Py.startswith "v " line = true ->
  String.eqb line "" || Py.startswith "#" line = false.
Proof.
  destruct line as [|c line]; [simpl; intros; discriminate|].
  change (Py.startswith "v " (String c line))
    with (if Ascii.eqb "v" c then Py.startswith " " line else false).
  destruct (Ascii.eqb "v" c) eqn:E; [|intros; discriminate].
  apply Ascii.eqb_eq in E. subst c. reflexivity.
Qed.

(** The accumulators after [ls], started in [m]: the vertices of [m]
    followed by those of [ls] read alone, and the faces of [m] followed
    by those [ls] gives after the vertices of [m]. *)
Lemma parse_from_split ls m :
  parse_from fl m ls =
  Mesh (vertices m ++ vertices (parse fl ls))
       (faces m ++ faces (parse_from fl (Mesh (vertices m) []) ls)).
Proof.
  revert m. induction ls as [|l ls IH]; intros m.
  { simpl. rewrite !app_nil_r. by destruct m. }
  unfold parse. simpl.
  change (fold_left (step fl) ls) with (fun m => parse_from fl m ls).
  cbv beta.
  rewrite (IH (step fl m l)), (IH (step fl empty_mesh l)),
    (IH (step fl (Mesh (vertices m) []) l)).
  rewrite (step_split fl m l), (step_split fl (Mesh (vertices m) []) l).
  simpl. rewrite <- !app_assoc. reflexivity.
Qed.

(** What the face lines give depends on the vertices read before them
    through their number only. *)
Lemma step_faces_count m m' raw :
  length (vertices m) = length (vertices m') ->
  faces (step fl (Mesh (vertices m) []) raw) =
  faces (step fl (Mesh (vertices m') []) raw) /\
  length (vertices (step fl m raw)) = length (vertices (step fl m' raw)).
Proof.
  intros E. split.
  - unfold step. cbv zeta.
    destruct (String.eqb (Py.strip raw) "" || Py.startswith "#" (Py.strip raw));
      [reflexivity|].
    destruct (Py.startswith "v " (Py.strip raw)).
    + destruct (parse_vertex fl (Py.strip raw)); reflexivity.
    + destruct (Py.startswith "f " (Py.strip raw)); [|reflexivity].
      simpl. by rewrite E.
  - rewrite (step_split fl m raw), (step_split fl m' raw). simpl.
    rewrite !length_app. by rewrite E.
Qed.

Lemma parse_from_faces_count ls m m' :
  length (vertices m) = length (vertices m') ->
  faces (parse_from fl (Mesh (vertices m) []) ls) =
  faces (parse_from fl (Mesh (vertices m') []) ls).
Proof.
  revert m m'. induction ls as [|l ls IH]; intros m m' E; [reflexivity|].
  simpl.
  change (fold_left (step fl) ls) with (fun m => parse_from fl m ls).
  cbv beta.
  rewrite (parse_from_split ls (step fl (Mesh (vertices m) []) l)).
  rewrite (parse_from_split ls (step fl (Mesh (vertices m') []) l)).
  simpl.
  destruct (step_faces_count m m' l E) as [Ef _].
  rewrite Ef. f_equal.
  apply (IH (step fl (Mesh (vertices m) []) l)
            (step fl (Mesh (vertices m') []) l)).
  apply (step_faces_count (Mesh (vertices m) []) (Mesh (vertices m') []) l E).
Qed.

End LineFacts.

(** X1. Blank lines, comment lines and lines of any directive other
    than ['v '] and ['f '] have no effect: the parse, and so the document
    written, is the one of the file without the line. *)
Theorem ignored_lines_do_nothing
    (fl : PyFloat) (pre post : list string) (raw : string) :
  ignored_line raw = true ->
  parse fl (pre ++ raw :: post) = parse fl (pre ++ post) /\
  Usd.usd_content (parse fl (pre ++ raw :: post)) =
  Usd.usd_content (parse fl (pre ++ post)).
Proof.
  intros H.
  destruct (parse_skip fl pre raw post (ignored_line_step fl _ raw H)) as [E _].
  rewrite E. split; reflexivity.
Qed.

(** A normal line between a vertex line and a face line. *)
Lemma ignored_lines_do_nothing_witness :
  ignored_line "vn 0 0 1" = true /\
  ignored_line ("  # a comment " +:+ Usd.nl) = true /\
  ignored_line "vertex 1 2 3" = true /\
  parse DecFloat.model (["v 0 0 0"] ++ "vn 0 0 1" :: ["f 1 1 1"])
    = parse DecFloat.model (["v 0 0 0"] ++ ["f 1 1 1"]).
Proof.
  split; [reflexivity|]. split; [reflexivity|]. split; [reflexivity|].
  exact (proj1 (ignored_lines_do_nothing DecFloat.model
                  ["v 0 0 0"] ["f 1 1 1"] "vn 0 0 1" eq_refl)).
Defined.

(** X2. A vertex line adds one vertex exactly when it has at least
    three fields after the ["v"] and [float] accepts the first three of
    them; the vertex is made of these three floats and further fields
    (a weight, colours) are not looked at.  Otherwise the line is passed
    over: nothing read so far is changed and the loop goes on. *)
Theorem vertex_line_step (fl : PyFloat) (m : mesh) (raw : string) :
  Py.startswith "v " (Py.strip raw) = true ->
  exists fields,
    Py.split (Py.strip raw) = "v" :: fields /\
    match fields with
    | a :: b :: c :: _ =>
        match float fl a, float fl b, float fl c with
        | Some x, Some y, Some z =>
            step fl m raw = Mesh (vertices m ++ [vertex_text fl x y z]) (faces m)
        | _, _, _ => step fl m raw = m
        end
    | _ => step fl m raw = m
    end.
Proof.
  intros H. destruct (split_vertex_line _ H) as (fields & Hs).
  exists fields. split; [exact Hs|].
  unfold step. cbv zeta. rewrite (startswith_v _ H), H.
  unfold parse_vertex. cbv zeta. rewrite Hs.
  destruct fields as [|a [|b [|c rest]]]; try reflexivity.
  simpl. destruct (float fl a); [|reflexivity].
  destruct (float fl b); [|reflexivity].
  destruct (float fl c); reflexivity.
Qed.

(** A vertex with colours, and a vertex whose second coordinate is not
    a number. *)
Lemma vertex_line_step_witness :
  step DecFloat.model empty_mesh "v 1 2.5 -3 0.2 0.4 0.6"
    = Mesh ["(1.0, 2.5, -3.0)"] [] /\
  step DecFloat.model empty_mesh "v 1 two 3" = empty_mesh.
Proof.
  split.
  - destruct (vertex_line_step DecFloat.model empty_mesh
                "v 1 2.5 -3 0.2 0.4 0.6" eq_refl) as (fields & Hs & H).
    injection Hs as <-. exact H.
  - destruct (vertex_line_step DecFloat.model empty_mesh
                "v 1 two 3" eq_refl) as (fields & Hs & H).
    injection Hs as <-. exact H.
Defined.

(** X3. Reading two runs of lines one after the other: the vertices are
    those of the first run followed by those of the second run read
    alone; the faces are those of the first run followed by those the
    second run gives after the vertices of the first.  The faces of the
    second run depend on the first run through its number of vertices
    only. *)
Theorem parse_app (fl : PyFloat) (l1 l2 : list string) :
  vertices (parse fl (l1 ++ l2)) =
    vertices (parse fl l1) ++ vertices (parse fl l2) /\
  faces (parse fl (l1 ++ l2)) =
    faces (parse fl l1) ++
    faces (parse_from fl (Mesh (vertices (parse fl l1)) []) l2) /\
  (forall l1',
      length (vertices (parse fl l1')) = length (vertices (parse fl l1)) ->
      faces (parse_from fl (Mesh (vertices (parse fl l1')) []) l2) =
      faces (parse_from fl (Mesh (vertices (parse fl l1)) []) l2)).
Proof.
  assert (E : parse fl (l1 ++ l2) = parse_from fl (parse fl l1) l2)
    by (unfold parse; apply parse_from_app).
  rewrite E, (parse_from_split fl l2 (parse fl l1)). simpl.
  split; [reflexivity|]. split; [reflexivity|].
  intros l1' El. by apply parse_from_faces_count.
Qed.

(** ** Further properties of the packager *)

(** X4. The fallback touches two paths at most, the destination and
    the temporary file: whatever it returns, every other path holds what
    it held before.  In particular an OBJ input that is neither of the
    two is never changed nor deleted by the packager. *)
Theorem fallback_frame
    (fl : PyFloat) (env : Env) (obj usdz p : string) (fs : gmap string file) :
  p <> usdz ->
  p <> tmp_name env fs ->
  (fallback fl env obj usdz fs).2 !! p = fs !! p.
Proof.
  intros Hu Ht.
  assert (Hframe : forall (m : gmap string file) x y z,
             delete (tmp_name env fs)
               (<[usdz := x]> (<[usdz := y]> (<[tmp_name env fs := z]> m)))
             !! p = m !! p).
  { intros m x y z. rewrite lookup_delete_ne by congruence.
    rewrite !lookup_insert_ne by congruence. reflexivity. }
  unfold fallback, try_except, bind, read_obj, ret.
  destruct (read_err env); [reflexivity|].
  destruct (fs !! obj) as [[[s| | |] sz]|]; try reflexivity.
  cbv zeta. destruct (no_geometry _); [reflexivity|].
  unfold write_tmp_usd.
  destruct (tmp_create_err env); [reflexivity|].
  destruct (fs !! tmp_name env fs) eqn:Et; [reflexivity|].
  destruct (tmp_write_err env); [simpl; by rewrite lookup_insert_ne|].
  unfold write_usdz.
  destruct (zip_open_err env); [simpl; by rewrite lookup_insert_ne|].
  cbv zeta.
  destruct (zip_write_err env).
  { cbn [snd]. rewrite !lookup_insert_ne by congruence. reflexivity. }
  destruct (decide (tmp_name env fs = usdz)) as [Heq|Hne].
  - rewrite Heq in *. rewrite !lookup_insert_eq. unfold unlink.
    destruct (unlink_err env).
    { cbn [snd]. rewrite !lookup_insert_ne by congruence. reflexivity. }
    rewrite lookup_insert_eq, size_guard_eq. cbn [snd].
    rewrite lookup_delete_ne by congruence.
    rewrite !lookup_insert_ne by congruence. reflexivity.
  - rewrite lookup_insert_ne by congruence. rewrite lookup_insert_eq.
    unfold unlink.
    destruct (unlink_err env).
    { cbn [snd]. rewrite !lookup_insert_ne by congruence. reflexivity. }
    rewrite lookup_insert_ne by congruence.
    rewrite lookup_insert_ne by congruence. rewrite lookup_insert_eq.
    rewrite size_guard_eq. cbn [snd]. apply Hframe.
Qed.

(** The OBJ input after a failed and after a successful packaging. *)
Lemma fallback_frame_witness :
  (fallback DecFloat.model Example.disk_full "mesh.obj" "mesh.usdz"
     (Example.disk Example.triangle)).2 !! "mesh.obj"
    = Example.disk Example.triangle !! "mesh.obj" /\
  (fallback DecFloat.model Example.large "mesh.obj" "mesh.usdz"
     (Example.disk Example.triangle)).2 !! "mesh.obj"
    = Example.disk Example.triangle !! "mesh.obj".
Proof.
  split.
  - apply (fallback_frame DecFloat.model Example.disk_full
             "mesh.obj" "mesh.usdz" "mesh.obj"); discriminate.
  - apply (fallback_frame DecFloat.model Example.large
             "mesh.obj" "mesh.usdz" "mesh.obj"); discriminate.
Defined.

(** X5. When the external tool returns 0 and leaves more than 1000
    bytes at the destination, [convert_to_usdz] returns [True] at once:
    the filesystem is the one the tool left, no temporary file is made,
    and the OBJ text is not read, so that the answer is [True] also for
    an OBJ file that is missing or holds no geometry. *)
Theorem tool_success_skips_fallback
    (fl : PyFloat) (env : Env) (obj usdz : string)
    (fs fs1 : gmap string file) (f : file) :
  usdzconvert env obj usdz fs = (inr 0, fs1) ->
  fs1 !! usdz = Some f ->
  1000 < size f ->
  convert_to_usdz fl env obj usdz fs = (inr true, fs1).
Proof.
  intros Hrun Hf Hs.
  assert (Ht : tool_attempt env obj usdz fs = (inr true, fs1)).
  { unfold tool_attempt, try_except, bind, run_usdzconvert.
    rewrite Hrun. simpl. rewrite size_guard_eq, Hf.
    destruct (Z.ltb_spec 1000 (size f)); [reflexivity|lia]. }
  rewrite convert_to_usdz_eq, Ht. reflexivity.
Qed.

(** The tool leaves 5000 bytes; there is no OBJ file at all. *)
Lemma tool_success_skips_fallback_witness :
  (∅ : gmap string file) !! "mesh.obj" = None /\
  convert_to_usdz DecFloat.model (Machine.with_tool 5000)
    "mesh.obj" "mesh.usdz" ∅
  = (inr true, {[ "mesh.usdz" := File Blob 5000 ]}).
Proof.
  split; [reflexivity|].
  apply (tool_success_skips_fallback DecFloat.model (Machine.with_tool 5000)
           "mesh.obj" "mesh.usdz" ∅ _ (File Blob 5000)).
  - reflexivity.
  - reflexivity.
  - reflexivity.
Defined.

(** X6. The whole effect of a fallback that returns [True] is one file:
    the filesystem afterwards is the one before with the archive of the
    document at the destination; the temporary file is gone and whatever
    the destination held before (a rejected output of the external tool,
    an older archive) is replaced. *)
Theorem fallback_success_effect
    (fl : PyFloat) (env : Env) (obj usdz : string)
    (fs fs' : gmap string file) :
  fallback fl env obj usdz fs = (inr true, fs') ->
  exists s sz,
    fs !! obj = Some (File (Text s) sz) /\
    fs' =
    <[usdz :=
        File (Zip [("model.usd",
                    Text (Usd.usd_content (parse fl (Py.readlines s))))])
             (archive_size env
                (Zip [("model.usd",
                       Text (Usd.usd_content (parse fl (Py.readlines s))))]))]>
      fs.
Proof.
  unfold fallback, try_except, bind, read_obj, ret.
  destruct (read_err env); [discriminate|].
  destruct (fs !! obj) as [[[s| | |] sz]|]; try discriminate.
  cbv zeta.
  destruct (no_geometry _) eqn:Hg; [discriminate|].
  unfold write_tmp_usd.
  destruct (tmp_create_err env); [discriminate|].
  destruct (fs !! tmp_name env fs) eqn:Et; [discriminate|].
  destruct (tmp_write_err env); [discriminate|].
  unfold write_usdz.
  destruct (zip_open_err env); [discriminate|].
  cbv zeta.
  destruct (zip_write_err env); [discriminate|].
  destruct (decide (tmp_name env fs = usdz)) as [Heq|Hne].
  - rewrite Heq, !lookup_insert_eq. unfold unlink.
    destruct (unlink_err env); [discriminate|].
    rewrite lookup_insert_eq, size_guard_eq, lookup_delete_eq. discriminate.
  - rewrite lookup_insert_ne by congruence. rewrite lookup_insert_eq.
    cbn [data]. unfold unlink.
    destruct (unlink_err env); [discriminate|].
    rewrite lookup_insert_ne by congruence.
    rewrite lookup_insert_ne by congruence. rewrite lookup_insert_eq.
    rewrite size_guard_eq. intros [= _ <-].
    exists s, sz. split; [reflexivity|].
    rewrite insert_insert_eq.
    rewrite delete_insert_ne by congruence.
    rewrite delete_insert_eq, (delete_id _ _ Et). reflexivity.
Qed.

(** A triangle packaged over a rejected output of the external tool. *)
Lemma fallback_success_effect_witness :
  fallback DecFloat.model Example.large "mesh.obj" "mesh.usdz"
    (<["mesh.usdz" := File Blob 12]> (Example.disk Example.triangle))
  = (inr true,
     <["mesh.usdz" :=
         File (Zip [("model.usd",
                     Text (Usd.usd_content
                             (parse DecFloat.model
                                (Py.readlines Example.triangle))))])
              2000]>
       (<["mesh.usdz" := File Blob 12]> (Example.disk Example.triangle))) /\
  exists s sz,
    (<["mesh.usdz" := File Blob 12]> (Example.disk Example.triangle))
      !! "mesh.obj" = Some (File (Text s) sz) /\
    (fallback DecFloat.model Example.large "mesh.obj" "mesh.usdz"
       (<["mesh.usdz" := File Blob 12]> (Example.disk Example.triangle))).2 =
    <["mesh.usdz" :=
        File (Zip [("model.usd",
                    Text (Usd.usd_content
                            (parse DecFloat.model (Py.readlines s))))])
             (archive_size Example.large
                (Zip [("model.usd",
                       Text (Usd.usd_content
                               (parse DecFloat.model (Py.readlines s))))]))]>
      (<["mesh.usdz" := File Blob 12]> (Example.disk Example.triangle)).
Proof.
  assert (H : fallback DecFloat.model Example.large "mesh.obj" "mesh.usdz"
                (<["mesh.usdz" := File Blob 12]> (Example.disk Example.triangle))
              = (inr true,
                 (fallback DecFloat.model Example.large "mesh.obj" "mesh.usdz"
                    (<["mesh.usdz" := File Blob 12]>
                       (Example.disk Example.triangle))).2))
    by (vm_compute; reflexivity).
  split; [vm_compute; reflexivity|].
  exact (fallback_success_effect DecFloat.model Example.large
           "mesh.obj" "mesh.usdz" _ _ H).
Defined.

(** ** File names and paths *)

Section Names.

Import UsdRead.

Lemma startswith_cons a p b s :
  Py.startswith (String a p) (String b s) =
  if Ascii.eqb a b then Py.startswith p s else false.
Proof. reflexivity. Qed.

Lemma all_chars_select P s : all_chars P (PyStr.select P s) = true.
Proof.
  induction s as [|c s IH]; [reflexivity|]. simpl.
  destruct (P c) eqn:E; [|exact IH]. simpl. by rewrite E, IH.
Qed.

Lemma length_select P s :
  (String.length (PyStr.select P s) <= String.length s)%nat.
Proof.
  induction s as [|c s IH]; simpl; [lia|].
  destruct (P c); simpl; lia.
Qed.

Lemma length_take n s : (String.length (PyStr.take n s) <= n)%nat.
Proof.
  revert s. induction n as [|n IH]; intros [|c s]; simpl; try lia.
  specialize (IH s). lia.
Qed.

Lemma take_all n s : (String.length s <= n)%nat -> PyStr.take n s = s.
Proof.
  revert s. induction n as [|n IH]; intros [|c s]; simpl; try reflexivity;
    try lia.
  intros H. rewrite IH by lia. reflexivity.
Qed.

Lemma select_id P s : all_chars P s = true -> PyStr.select P s = s.
Proof.
  induction s as [|c s IH]; [reflexivity|]. simpl.
  intros H. apply andb_true_iff in H as [-> Hs]. by rewrite (IH Hs).
Qed.

Lemma all_chars_lstrip P s :
  all_chars P s = true -> all_chars P (Py.lstrip s) = true.
Proof.
  induction s as [|c s IH]; [reflexivity|]. intros H.
  pose proof H as H'. simpl in H'. apply andb_true_iff in H' as [_ Hs].
  simpl. destruct (Py.isspace c); [exact (IH Hs)|exact H].
Qed.

Lemma all_chars_rstrip P s :
  all_chars P s = true -> all_chars P (Py.rstrip s) = true.
Proof.
  induction s as [|c s IH]; [reflexivity|]. simpl.
  intros H. apply andb_true_iff in H as [Hc Hs]. specialize (IH Hs).
  destruct (Py.rstrip s) as [|d r].
  - destruct (Py.isspace c); [reflexivity|]. simpl. by rewrite Hc.
  - change (P c && all_chars P (String d r) = true). by rewrite Hc, IH.
Qed.

Lemma all_chars_strip P s :
  all_chars P s = true -> all_chars P (Py.strip s) = true.
Proof. intros H. by apply all_chars_rstrip, all_chars_lstrip. Qed.

Lemma length_lstrip s : (String.length (Py.lstrip s) <= String.length s)%nat.
Proof.
  induction s as [|c s IH]; simpl; [lia|].
  destruct (Py.isspace c); simpl; lia.
Qed.

Lemma length_rstrip s : (String.length (Py.rstrip s) <= String.length s)%nat.
Proof.
  induction s as [|c s IH]; simpl; [lia|].
  destruct (Py.rstrip s) as [|d r].
  - destruct (Py.isspace c); simpl; lia.
  - simpl in *. lia.
Qed.

Lemma length_strip s : (String.length (Py.strip s) <= String.length s)%nat.
Proof.
  unfold Py.strip. pose proof (length_rstrip (Py.lstrip s)).
  pose proof (length_lstrip s). lia.
Qed.

(** What [lstrip] gives is empty or starts with a character that is not
    white space; [rstrip] keeps the first character of such a string. *)
Lemma lstrip_starts s :
  Py.lstrip s = "" \/ starts_nonspace (Py.lstrip s) = true.
Proof.
  induction s as [|c s IH]; [by left|]. simpl.
  destruct (Py.isspace c) eqn:E; [exact IH|]. right. simpl. by rewrite E.
Qed.

Lemma rstrip_starts s :
  starts_nonspace s = true -> starts_nonspace (Py.rstrip s) = true.
Proof.
  destruct s as [|c s]; [discriminate|]. simpl. intros H.
  apply negb_true_iff in H.
  destruct (Py.rstrip s); [rewrite H|]; simpl; by rewrite H.
Qed.

Lemma rstrip_ends s :
  Py.rstrip s = "" \/ ends_nonspace (Py.rstrip s) = true.
Proof.
  induction s as [|c s IH]; [by left|]. simpl.
  destruct (Py.rstrip s) as [|d r].
  - destruct (Py.isspace c) eqn:E; [by left|]. right. simpl. by rewrite E.
  - right. destruct IH as [IH|IH]; [discriminate|]. exact IH.
Qed.

Lemma strip_edges s :
  Py.strip s = "" \/
  starts_nonspace (Py.strip s) = true /\ ends_nonspace (Py.strip s) = true.
Proof.
  unfold Py.strip.
  destruct (rstrip_ends (Py.lstrip s)) as [E|E]; [by left|]. right.
  split; [|exact E].
  destruct (lstrip_starts s) as [H|H].
  - rewrite H in E. discriminate.
  - by apply rstrip_starts.
Qed.

(** A string without white space is left as it is by [strip]. *)
Lemma strip_id s :
  all_chars (fun c => negb (Py.isspace c)) s = true -> Py.strip s = s.
Proof.
  intros H. unfold Py.strip.
  assert (Hl : Py.lstrip s = s).
  { destruct s as [|c s]; [reflexivity|]. simpl in *.
    apply andb_true_iff in H as [Hc _]. apply negb_true_iff in Hc.
    by rewrite Hc. }
  rewrite Hl. clear Hl.
  induction s as [|c s IH]; [reflexivity|]. simpl in *.
  apply andb_true_iff in H as [Hc Hs]. apply negb_true_iff in Hc.
  rewrite (IH Hs). destruct s; [by rewrite Hc|reflexivity].
Qed.

(** Replacing the spaces by underscores, character by character. *)
Lemma replace_space_cons c s :
  PyStr.replace_go " " "_" 0 (String c s) =
  String (if Ascii.eqb " " c then "_"%char else c)
         (PyStr.replace_go " " "_" 0 s).
Proof.
  change (PyStr.replace_go " " "_" 0 (String c s))
    with (if Py.startswith " " (String c s)
          then "_" +:+ PyStr.replace_go " " "_" 0 s
          else String c (PyStr.replace_go " " "_" 0 s)).
  rewrite startswith_cons. destruct (Ascii.eqb " " c); reflexivity.
Qed.

Lemma length_replace_space s :
  String.length (PyStr.replace " " "_" s) = String.length s.
Proof.
  unfold PyStr.replace.
  induction s as [|c s IH]; [reflexivity|].
  rewrite replace_space_cons. simpl. by rewrite IH.
Qed.

Lemma keep_char_cases c :
  keep_char c = true -> Ascii.eqb " " c = true \/ name_char c = true.
Proof.
  destruct c as [[] [] [] [] [] [] [] []]; vm_compute; intros H;
    first [discriminate H | left; reflexivity | right; reflexivity].
Qed.

Lemma name_char_not_space c : name_char c = true -> Ascii.eqb " " c = false.
Proof.
  destruct c as [[] [] [] [] [] [] [] []]; vm_compute; congruence.
Qed.

Lemma name_char_keep c : name_char c = true -> keep_char c = true.
Proof.
  unfold keep_char, name_char.
  destruct (PyStr.isalnum c), (Ascii.eqb c " "), (Ascii.eqb c "-"),
    (Ascii.eqb c "_"); simpl; auto.
Qed.

Lemma name_char_component c : name_char c = true -> component_char c = true.
Proof.
  destruct c as [[] [] [] [] [] [] [] []]; vm_compute; congruence.
Qed.

Lemma name_chars_replace_space s :
  all_chars keep_char s = true ->
  all_chars name_char (PyStr.replace " " "_" s) = true.
Proof.
  unfold PyStr.replace.
  induction s as [|c s IH]; [reflexivity|].
  rewrite replace_space_cons. cbn [all_chars]. intros H.
  apply andb_true_iff in H as [Hc Hs]. rewrite (IH Hs), andb_true_r.
  destruct (keep_char_cases c Hc) as [E|E]; [by rewrite E|].
  by rewrite (name_char_not_space c E).
Qed.

Lemma replace_space_id s :
  all_chars name_char s = true -> PyStr.replace " " "_" s = s.
Proof.
  unfold PyStr.replace.
  induction s as [|c s IH]; [reflexivity|].
  rewrite replace_space_cons. cbn [all_chars]. intros H.
  apply andb_true_iff in H as [Hc Hs].
  by rewrite (IH Hs), (name_char_not_space c Hc).
Qed.

Lemma eqb_empty_length s : String.eqb s "" = false -> s <> "".
Proof. intros H ->. discriminate. Qed.

End Names.

(** What [safe_prompt] gives is made of the characters it keeps, and
    is not empty. *)
Lemma safe_prompt_chars (prompt : string) :
  UsdRead.all_chars keep_char (safe_prompt prompt) = true /\
  safe_prompt prompt <> "".
Proof.
  unfold safe_prompt. cbv zeta.
  set (t := Py.strip (PyStr.select keep_char (PyStr.take 30 prompt))).
  assert (Hk : UsdRead.all_chars keep_char t = true)
    by apply all_chars_strip, all_chars_select.
  destruct (String.eqb (PyStr.replace " " "_" t) "") eqn:E.
  - split; [reflexivity|discriminate].
  - split; [|by apply eqb_empty_length].
    eapply all_chars_impl; [apply name_char_keep|].
    by apply name_chars_replace_space.
Qed.

(** The shape of a file name made from a prompt. *)
Lemma safe_prompt_name (prompt : string) :
  safe_prompt prompt <> "" /\
  (String.length (safe_prompt prompt) <= 30)%nat /\
  UsdRead.all_chars name_char (safe_prompt prompt) = true.
Proof.
  unfold safe_prompt. cbv zeta.
  set (t := Py.strip (PyStr.select keep_char (PyStr.take 30 prompt))).
  assert (Hk : UsdRead.all_chars keep_char t = true)
    by apply all_chars_strip, all_chars_select.
  assert (Hl : (String.length t <= 30)%nat).
  { unfold t. pose proof (length_strip
      (PyStr.select keep_char (PyStr.take 30 prompt))).
    pose proof (length_select keep_char (PyStr.take 30 prompt)).
    pose proof (length_take 30 prompt). lia. }
  destruct (String.eqb (PyStr.replace " " "_" t) "") eqn:E.
  - split; [discriminate|]. split; [simpl; lia|reflexivity].
  - split; [by apply eqb_empty_length|].
    rewrite length_replace_space. split; [exact Hl|].
    by apply name_chars_replace_space.
Qed.

(** X7. The file name made from a prompt is never empty, has at most 30
    characters, and holds letters, digits, hyphens and underscores only:
    no path separator, no dot and no white space, whatever the prompt. *)
Theorem safe_prompt_is_a_name (prompt : string) :
  safe_prompt prompt <> "" /\
  (String.length (safe_prompt prompt) <= 30)%nat /\
  UsdRead.all_chars name_char (safe_prompt prompt) = true /\
  UsdRead.all_chars component_char (safe_prompt prompt) = true.
Proof.
  destruct (safe_prompt_name prompt) as (H1 & H2 & H3).
  split; [exact H1|]. split; [exact H2|]. split; [exact H3|].
  eapply all_chars_impl; [apply name_char_component|exact H3].
Qed.

(** X8. Making a file name from a name that was made from a prompt
    gives the same name. *)
Theorem safe_prompt_idempotent (prompt : string) :
  safe_prompt (safe_prompt prompt) = safe_prompt prompt.
Proof.
  destruct (safe_prompt_name prompt) as (Hne & Hl & Hn).
  assert (Hc : UsdRead.all_chars component_char (safe_prompt prompt) = true)
    by (eapply all_chars_impl; [apply name_char_component|exact Hn]).
  set (s := safe_prompt prompt) in *.
  unfold safe_prompt at 1. cbv zeta.
  rewrite (take_all 30 s Hl).
  rewrite (select_id keep_char s)
    by (eapply all_chars_impl; [apply name_char_keep|exact Hn]).
  rewrite (strip_id s).
  2:{ eapply all_chars_impl; [|exact Hc]. intros c H.
      unfold component_char in H. apply andb_true_iff in H as [_ H]. exact H. }
  rewrite (replace_space_id s Hn).
  destruct (String.eqb s "") eqn:E; [|reflexivity].
  apply String.eqb_eq in E. contradiction.
Qed.

(** X9. The file name made from the stem of an image path is never
    empty, holds letters, digits, spaces, hyphens and underscores only
    (no path separator, no dot), and neither starts nor ends with white
    space. *)
Theorem safe_name_is_a_name (image_name : string) :
  safe_name image_name <> "" /\
  UsdRead.all_chars keep_char (safe_name image_name) = true /\
  UsdRead.all_chars
    (fun c => negb (Ascii.eqb c "/") && negb (Ascii.eqb c "."))
    (safe_name image_name) = true /\
  UsdRead.starts_nonspace (safe_name image_name) = true /\
  ends_nonspace (safe_name image_name) = true.
Proof.
  assert (Hd : forall c, keep_char c = true ->
                 negb (Ascii.eqb c "/") && negb (Ascii.eqb c ".") = true).
  { intros c. destruct c as [[] [] [] [] [] [] [] []]; vm_compute; congruence. }
  unfold safe_name. cbv zeta.
  set (t := Py.strip (PyStr.select keep_char image_name)).
  assert (Hk : UsdRead.all_chars keep_char t = true)
    by apply all_chars_strip, all_chars_select.
  destruct (String.eqb t "") eqn:E.
  - repeat split; try reflexivity. discriminate.
  - pose proof (eqb_empty_length t E) as Hne.
    split; [exact Hne|]. split; [exact Hk|].
    split; [eapply all_chars_impl; [exact Hd|exact Hk]|].
    destruct (strip_edges (PyStr.select keep_char image_name)) as [H|H];
      [contradiction|exact H].
Qed.

Section Paths.

Import UsdRead.

(** A character that is not in the pattern ends every match. *)
Lemma startswith_sep pat c a b :
  all_chars (not_char c) pat = true ->
  Py.startswith pat (a +:+ String c b) = Py.startswith pat a.
Proof.
  revert a. induction pat as [|p pat IH]; intros a H; [by destruct a|].
  simpl in H. apply andb_true_iff in H as [Hp Hpat].
  unfold not_char in Hp. apply negb_true_iff in Hp.
  destruct a as [|x a].
  - change ("" +:+ String c b) with (String c b).
    rewrite startswith_cons, Hp. reflexivity.
  - rewrite append_cons, !startswith_cons. by rewrite (IH a Hpat).
Qed.

Lemma occurs_cons pat c s :
  PyStr.occurs pat (String c s) =
  Py.startswith pat (String c s) || PyStr.occurs pat s.
Proof. reflexivity. Qed.

Lemma occurs_sep pat c a b :
  all_chars (not_char c) pat = true ->
  PyStr.occurs pat (a +:+ String c b) =
  PyStr.occurs pat a || PyStr.occurs pat b.
Proof.
  intros H. induction a as [|x a IH].
  - change ("" +:+ String c b) with (String c b).
    rewrite occurs_cons.
    pose proof (startswith_sep pat c "" b H) as E.
    change ("" +:+ String c b) with (String c b) in E. rewrite E.
    change (PyStr.occurs pat "") with (Py.startswith pat "" || false).
    by rewrite orb_false_r.
  - pose proof (startswith_sep pat c (String x a) b H) as E.
    rewrite append_cons in *. rewrite !occurs_cons, E, IH, orb_assoc.
    reflexivity.
Qed.

(** A string without dot holds no [.ply]. *)
Lemma occurs_no_dot s :
  all_chars (not_char ".") s = true -> PyStr.occurs ".ply" s = false.
Proof.
  induction s as [|c s IH]; [reflexivity|]. simpl all_chars.
  intros H. apply andb_true_iff in H as [Hc Hs].
  rewrite occurs_cons, startswith_cons, (IH Hs).
  unfold not_char in Hc. apply negb_true_iff in Hc.
  rewrite Ascii.eqb_sym, Hc. reflexivity.
Qed.

Lemma endswith_slash a :
  PyStr.endswith "/" a = true -> exists a', a = a' +:+ "/".
Proof.
  induction a as [|c a IH].
  - simpl. discriminate.
  - change (PyStr.endswith "/" (String c a))
      with (if String.eqb (String c a) "/" then true
            else PyStr.endswith "/" a).
    destruct (String.eqb (String c a) "/") eqn:E.
    + apply String.eqb_eq in E. rewrite E. intros _. by exists "".
    + intros H. destruct (IH H) as (a' & ->). by exists (String c a').
Qed.

(** [replace] on a text that ends with the only [.ply] it holds. *)
Lemma startswith_ply_suffix v :
  Py.startswith ".ply" (v +:+ ".ply") = true ->
  v = "" \/ Py.startswith ".ply" v = true.
Proof.
  destruct v as [|c1 [|c2 [|c3 [|c4 v]]]]; [by left|..]; right;
    revert H; rewrite ?append_cons;
    change ("" +:+ ".ply") with ".ply";
    rewrite ?startswith_cons;
    repeat match goal with
           | |- context [Ascii.eqb ?a ?b] =>
               destruct (Ascii.eqb_spec a b); subst; try discriminate
           end; auto.
Qed.

Lemma replace_ply_suffix new s :
  PyStr.occurs ".ply" s = false ->
  PyStr.replace ".ply" new (s +:+ ".ply") = s +:+ new.
Proof.
  unfold PyStr.replace. induction s as [|c s IH]; intros H.
  - change (PyStr.replace_go ".ply" new 0 ("" +:+ ".ply"))
      with (new +:+ ""). by rewrite append_nil_r.
  - rewrite occurs_cons in H. apply orb_false_iff in H as [Hs Ho].
    rewrite !append_cons.
    change (PyStr.replace_go ".ply" new 0 (String c (s +:+ ".ply")))
      with (if Py.startswith ".ply" (String c (s +:+ ".ply"))
            then new +:+ PyStr.replace_go ".ply" new 3 (s +:+ ".ply")
            else String c (PyStr.replace_go ".ply" new 0 (s +:+ ".ply"))).
    destruct (Py.startswith ".ply" (String c (s +:+ ".ply"))) eqn:E.
    + rewrite <- append_cons in E.
      destruct (startswith_ply_suffix _ E) as [E'|E']; [discriminate|].
      rewrite E' in Hs. discriminate.
    + by rewrite (IH Ho).
Qed.

Lemma join_relative a b :
  Py.startswith "/" b = false -> PosixPath.join a b = dir_prefix a +:+ b.
Proof.
  intros H. unfold PosixPath.join, dir_prefix. rewrite H.
  destruct (String.eqb a "" || PyStr.endswith "/" a); [reflexivity|].
  by rewrite append_assoc.
Qed.

Lemma occurs_dir_prefix a name :
  PyStr.occurs ".ply" a = false ->
  all_chars (not_char ".") name = true ->
  PyStr.occurs ".ply" (dir_prefix a +:+ name) = false.
Proof.
  intros Ha Hn. pose proof (occurs_no_dot name Hn) as Hno.
  unfold dir_prefix.
  destruct (String.eqb a "") eqn:E.
  { apply String.eqb_eq in E. subst a. exact Hno. }
  simpl. destruct (PyStr.endswith "/" a) eqn:Es.
  - destruct (endswith_slash a Es) as (a' & ->).
    rewrite (occurs_sep ".ply" "/" a' "" eq_refl) in Ha.
    apply orb_false_iff in Ha as [Ha _].
    rewrite append_assoc.
    change ("/" +:+ name) with (String "/" name).
    by rewrite (occurs_sep ".ply" "/" a' name eq_refl), Ha, Hno.
  - rewrite append_assoc.
    change ("/" +:+ name) with (String "/" name).
    by rewrite (occurs_sep ".ply" "/" a name eq_refl), Ha, Hno.
Qed.

Lemma name_starts_relative name ext :
  all_chars (not_char "/") name = true ->
  Py.startswith "/" ext = false ->
  Py.startswith "/" (name +:+ ext) = false.
Proof.
  destruct name as [|c name]; [auto|]. simpl all_chars.
  intros H _. apply andb_true_iff in H as [Hc _].
  unfold not_char in Hc. apply negb_true_iff in Hc.
  rewrite append_cons, startswith_cons, Ascii.eqb_sym, Hc. reflexivity.
Qed.

End Paths.

(** The three paths are one base, [dir_prefix output_dir +:+ name],
    with the three extensions. *)
Lemma paths_of_name (output_dir name : string) :
  PyStr.occurs ".ply" output_dir = false ->
  UsdRead.all_chars keep_char name = true ->
  (forall ext,
      Py.startswith "/" ext = false ->
      PosixPath.join output_dir (name +:+ ext)
      = (dir_prefix output_dir +:+ name) +:+ ext) /\
  usdz_path (output_path output_dir name)
    = (dir_prefix output_dir +:+ name) +:+ ".usdz" /\
  obj_path (output_path output_dir name)
    = (dir_prefix output_dir +:+ name) +:+ ".obj".
Proof.
  intros Hd Hk.
  assert (Hslash : UsdRead.all_chars (not_char "/") name = true).
  { eapply all_chars_impl; [|exact Hk]. intros c.
    destruct c as [[] [] [] [] [] [] [] []]; vm_compute; congruence. }
  assert (Hdot : UsdRead.all_chars (not_char ".") name = true).
  { eapply all_chars_impl; [|exact Hk]. intros c.
    destruct c as [[] [] [] [] [] [] [] []]; vm_compute; congruence. }
  assert (Hj : forall ext,
             Py.startswith "/" ext = false ->
             PosixPath.join output_dir (name +:+ ext)
             = (dir_prefix output_dir +:+ name) +:+ ext).
  { intros ext He.
    rewrite (join_relative _ _ (name_starts_relative name ext Hslash He)).
    by rewrite append_assoc. }
  pose proof (occurs_dir_prefix output_dir name Hd Hdot) as Ho.
  split; [exact Hj|].
  unfold usdz_path, obj_path, output_path.
  rewrite !Hj by reflexivity.
  rewrite !(replace_ply_suffix _ _ Ho). split; reflexivity.
Qed.

(** X10. The paths of the intermediate OBJ file and of the archive.
    For a file name made by [safe_prompt] or [safe_name] and an output
    directory whose path does not hold [.ply], the two paths are the
    path of the PLY file with its extension changed, in the same
    directory, and the three paths are different from one another.
    (The replacement acts on the whole path: a [.ply] inside the
    directory path would be rewritten as well.) *)
Theorem derived_paths (output_dir name : string) :
  PyStr.occurs ".ply" output_dir = false ->
  UsdRead.all_chars keep_char name = true ->
  usdz_path (output_path output_dir name)
    = PosixPath.join output_dir (name +:+ ".usdz") /\
  obj_path (output_path output_dir name)
    = PosixPath.join output_dir (name +:+ ".obj") /\
  output_path output_dir name <> usdz_path (output_path output_dir name) /\
  output_path output_dir name <> obj_path (output_path output_dir name) /\
  obj_path (output_path output_dir name)
    <> usdz_path (output_path output_dir name).
Proof.
  intros Hd Hk.
  destruct (paths_of_name output_dir name Hd Hk) as (Hj & Hu & Ho).
  rewrite Hu, Ho. unfold output_path.
  rewrite !Hj by reflexivity.
  repeat split; intros E;
    apply (inj (String.app (dir_prefix output_dir +:+ name))) in E;
    discriminate E.
Qed.

(** The paths for the prompt [a red chair] in the directory [./out]. *)
Lemma derived_paths_witness :
  output_path "./out" (safe_prompt "a red chair") = "./out/a_red_chair.ply" /\
  usdz_path (output_path "./out" (safe_prompt "a red chair"))
    = "./out/a_red_chair.usdz" /\
  obj_path (output_path "./out" (safe_prompt "a red chair"))
    = "./out/a_red_chair.obj".
Proof.
  split; [reflexivity|].
  destruct (derived_paths "./out" (safe_prompt "a red chair")
              eq_refl eq_refl) as (H1 & H2 & _).
  split; [exact H1|exact H2].
Defined.

(** ** The generators *)

Section GenerateFacts.

Context (fl : PyFloat) (genv : GenEnv).

Lemma export_usdz_returns output_path fs :
  exists fs', export_usdz fl genv output_path fs = (inr tt, fs').
Proof.
  destruct (try_except_returns
              (mesh_export genv (obj_path output_path) ;;
               usdz_success <- convert_to_usdz fl (packager genv)
                                 (obj_path output_path)
                                 (usdz_path output_path) ;;
               if usdz_success : bool
               then try_except (os_remove genv (obj_path output_path))
                      (fun _ => ret tt)
               else ret tt)%io tt fs) as ([] & fs' & H).
  exists fs'. exact H.
Qed.

(** Once the PLY file is written, [save_mesh] returns. *)
Lemma save_mesh_returns output_path fs fs1 :
  mesh_export genv output_path fs = (inr tt, fs1) ->
  exists fs',
    export_usdz fl genv output_path fs1 = (inr tt, fs') /\
    save_mesh fl genv output_path fs =
    (inr (("OUTPUT_PATH: " +:+ output_path)
            :: if bool_decide (is_Some (fs' !! usdz_path output_path))
               then ["USDZ_PATH: " +:+ usdz_path output_path] else []),
     fs').
Proof.
  intros He. destruct (export_usdz_returns output_path fs1) as (fs' & Hu).
  exists fs'. split; [exact Hu|].
  unfold save_mesh, bind. rewrite He, Hu. reflexivity.
Qed.

(** The USDZ step when the OBJ file is written and the conversion
    returns. *)
Lemma export_usdz_converted output_path fs1 fs2 fs3 b :
  mesh_export genv (obj_path output_path) fs1 = (inr tt, fs2) ->
  convert_to_usdz fl (packager genv)
    (obj_path output_path) (usdz_path output_path) fs2 = (inr b, fs3) ->
  export_usdz fl genv output_path fs1 =
  (inr tt,
   if b then
     match remove_err genv, fs3 !! obj_path output_path with
     | None, Some _ => delete (obj_path output_path) fs3
     | _, _ => fs3
     end
   else fs3).
Proof.
  intros He Hc. unfold export_usdz, try_except, bind. rewrite He, Hc.
  destruct b; [|reflexivity].
  unfold os_remove, ret.
  destruct (remove_err genv); [reflexivity|].
  destruct (fs3 !! obj_path output_path); reflexivity.
Qed.

End GenerateFacts.


Section AnnounceFacts.

Context (fl : PyFloat) (env : Env).

(** The filesystem after a fallback that ran to its end is the one
    before with the archive at the destination. *)
Lemma packaged_eq usdz doc fs :
  fs !! tmp_name env fs = None ->
  tmp_name env fs <> usdz ->
  packaged env usdz doc fs =
  <[usdz := File (Zip [("model.usd", Text doc)])
              (archive_size env (Zip [("model.usd", Text doc)]))]> fs.
Proof.
  intros Ht Hne. unfold packaged. cbv zeta.
  rewrite insert_insert_eq.
  rewrite delete_insert_ne by congruence.
  rewrite delete_insert_eq, (delete_id _ _ Ht). reflexivity.
Qed.

(** The conversion on a machine without the external tool and without
    faults: the archive is written, the answer is the verdict of the
    size guard. *)
Lemma convert_without_tool obj usdz fs s sz e :
  usdzconvert env obj usdz fs = (inl e, fs) ->
  no_faults env ->
  fs !! obj = Some (File (Text s) sz) ->
  (0 < retained fl (Py.readlines s))%nat ->
  fs !! tmp_name env fs = None ->
  tmp_name env fs <> usdz ->
  convert_to_usdz fl env obj usdz fs =
  (inr (1000 <? archive_size env
                  (Zip [("model.usd",
                         Text (Usd.usd_content (parse fl (Py.readlines s))))])),
   <[usdz :=
       File (Zip [("model.usd",
                   Text (Usd.usd_content (parse fl (Py.readlines s))))])
            (archive_size env
               (Zip [("model.usd",
                      Text (Usd.usd_content (parse fl (Py.readlines s))))]))]>
     fs).
Proof.
  intros Hrun Hq Hf Hr Ht Hne.
  assert (Htool : tool_attempt env obj usdz fs = (inr false, fs)).
  { unfold tool_attempt, try_except, bind, run_usdzconvert.
    rewrite Hrun. reflexivity. }
  rewrite convert_to_usdz_eq, Htool.
  assert (Hg : no_geometry (parse fl (Py.readlines s)) = false).
  { pose proof (parse_from_faces_length fl (Py.readlines s) empty_mesh) as Hlen.
    destruct (parse_from_well_formed fl (Py.readlines s) empty_mesh
                (well_formed_empty fl)) as [Hi _].
    fold (parse fl (Py.readlines s)) in Hlen, Hi.
    fold (retained fl (Py.readlines s)) in Hlen. simpl in Hlen.
    unfold no_geometry.
    destruct (faces (parse fl (Py.readlines s))) as [|i fs0];
      [simpl in Hlen; lia|].
    destruct (vertices (parse fl (Py.readlines s))); [|reflexivity].
    apply Forall_cons in Hi as [Hi _]. simpl in Hi. lia. }
  rewrite (fallback_packages fl env obj usdz fs s sz Hq Hf Hg Ht Hne).
  cbv zeta. rewrite (packaged_eq usdz _ fs Ht Hne). reflexivity.
Qed.

End AnnounceFacts.

(** X12. The archive is announced whatever the verdict on it.  On a
    machine without the external tool and without faults, for a mesh
    with at least one retained face: the archive is written, and
    [USDZ_PATH] is printed also when [convert_to_usdz] has returned
    [False] because the archive is not larger than 1000 bytes.  The
    intermediate OBJ file is removed when the verdict is [True] and left
    on disk when it is [False]. *)
Theorem archive_announced_whatever_the_verdict
    (fl : PyFloat) (genv : GenEnv) (prompt output_dir : string)
    (fs fs1 fs2 : gmap string file) (s : string) (sz : Z) (e : exn) :
  let out := output_path output_dir (safe_prompt prompt) in
  let env := packager genv in
  let z := Zip [("model.usd",
                 Text (Usd.usd_content (parse fl (Py.readlines s))))] in
  let written := <[usdz_path out := File z (archive_size env z)]> fs2 in
  PyStr.occurs ".ply" output_dir = false ->
  setup_models_err genv = None ->
  sample_latents_err genv = None ->
  decode_latent_mesh_err genv = None ->
  makedirs_err genv = None ->
  remove_err genv = None ->
  mesh_export genv out fs = (inr tt, fs1) ->
  mesh_export genv (obj_path out) fs1 = (inr tt, fs2) ->
  fs2 !! obj_path out = Some (File (Text s) sz) ->
  usdzconvert env (obj_path out) (usdz_path out) fs2 = (inl e, fs2) ->
  no_faults env ->
  (0 < retained fl (Py.readlines s))%nat ->
  fs2 !! tmp_name env fs2 = None ->
  tmp_name env fs2 <> usdz_path out ->
  convert_to_usdz fl env (obj_path out) (usdz_path out) fs2
    = (inr (1000 <? archive_size env z), written) /\
  generate_text_to_3d fl genv prompt output_dir fs
    = (inr (out, ["OUTPUT_PATH: " +:+ out; "USDZ_PATH: " +:+ usdz_path out]),
       if 1000 <? archive_size env z
       then delete (obj_path out) written else written).
Proof.
  intros out env z written Hd H1 H2 H3 H4 Hrm He Ho Hf Hrun Hq Hr Ht Hne.
  assert (Hc : convert_to_usdz fl env (obj_path out) (usdz_path out) fs2
               = (inr (1000 <? archive_size env z), written))
    by exact (convert_without_tool fl env _ _ fs2 s sz e Hrun Hq Hf Hr Ht Hne).
  split; [exact Hc|].
  destruct (safe_prompt_chars prompt) as [Hk _].
  assert (Hdiff : obj_path out <> usdz_path out).
  { destruct (paths_of_name output_dir (safe_prompt prompt) Hd Hk)
      as (_ & Eu & Eo).
    unfold out. rewrite Eu, Eo. intros E.
    apply (inj (String.app
                  (dir_prefix output_dir +:+ safe_prompt prompt))) in E.
    discriminate E. }
  assert (Hobj : written !! obj_path out = Some (File (Text s) sz)).
  { unfold written. rewrite lookup_insert_ne by congruence. exact Hf. }
  pose proof (export_usdz_converted fl genv out fs1 fs2 written _ Ho Hc) as Hu.
  rewrite Hrm, Hobj in Hu.
  unfold generate_text_to_3d, bind, stage. rewrite H1, H2, H3, H4.
  fold out. unfold save_mesh, bind. rewrite He, Hu.
  unfold Os.path_exists, ret.
  destruct (1000 <? archive_size env z).
  - rewrite lookup_delete_ne by congruence.
    unfold written. rewrite lookup_insert_eq. reflexivity.
  - unfold written. rewrite lookup_insert_eq. reflexivity.
Qed.

(** A triangle, whose archive is 531 bytes long at most: the conversion
    returns [False], the archive is announced, the OBJ file stays. *)
Lemma archive_announced_whatever_the_verdict_witness :
  convert_to_usdz DecFloat.model Example.small
    "out/a_red_chair.obj" "out/a_red_chair.usdz"
    (<["out/a_red_chair.obj" := File (Text Example.triangle) 32]>
       {[ "out/a_red_chair.ply" := File Blob 4096 ]})
  = (inr false,
     <["out/a_red_chair.usdz" :=
         File (Zip [("model.usd",
                     Text (Usd.usd_content
                             (parse DecFloat.model
                                (Py.readlines Example.triangle))))])
              531]>
       (<["out/a_red_chair.obj" := File (Text Example.triangle) 32]>
          {[ "out/a_red_chair.ply" := File Blob 4096 ]})) /\
  generate_text_to_3d DecFloat.model (Studio.quiet Example.small)
    "a red chair" "out" ∅
  = (inr ("out/a_red_chair.ply",
          ["OUTPUT_PATH: out/a_red_chair.ply";
           "USDZ_PATH: out/a_red_chair.usdz"]),
     <["out/a_red_chair.usdz" :=
         File (Zip [("model.usd",
                     Text (Usd.usd_content
                             (parse DecFloat.model
                                (Py.readlines Example.triangle))))])
              531]>
       (<["out/a_red_chair.obj" := File (Text Example.triangle) 32]>
          {[ "out/a_red_chair.ply" := File Blob 4096 ]})).
Proof.
  exact (archive_announced_whatever_the_verdict DecFloat.model
           (Studio.quiet Example.small) "a red chair" "out" ∅
           {[ "out/a_red_chair.ply" := File Blob 4096 ]}
           (<["out/a_red_chair.obj" := File (Text Example.triangle) 32]>
              {[ "out/a_red_chair.ply" := File Blob 4096 ]})
           Example.triangle 32 FileNotFoundError
           eq_refl eq_refl eq_refl eq_refl eq_refl eq_refl eq_refl eq_refl
           eq_refl eq_refl
           (conj eq_refl (conj eq_refl (conj eq_refl
              (conj eq_refl (conj eq_refl eq_refl)))))
           (le_n 1) eq_refl ltac:(discriminate)).
Defined.

(** ** The NeRF module *)

Section NerfFacts.

Context (env : Nerf.Env).

(** The part of [generate_nerf] after the imports returns a failure
    dictionary or raises, and touches the configuration file only. *)
Lemma from_images_cases images_dir output_dir dataset_type config_file fs :
  let cfg := PosixPath.join output_dir "nerf_config.txt" in
  (exists msg, Nerf.from_images env images_dir output_dir dataset_type
                 config_file fs = (inr (failure msg), fs)) \/
  (exists e, Nerf.from_images env images_dir output_dir dataset_type
               config_file fs = (inl e, fs)) \/
  (config_file = None /\
   exists r text,
     (text = "" \/ text = Nerf.config_content images_dir output_dir dataset_type) /\
     ((exists e, r = inl e) \/ exists msg, r = inr (failure msg)) /\
     exists sz,
       Nerf.from_images env images_dir output_dir dataset_type config_file fs
       = (r, <[cfg := File (Text text) sz]> fs)).
Proof.
  intros cfg.
  unfold Nerf.from_images, bind, Nerf.path_exists, Nerf.os_listdir, ret, stage.
  destruct (bool_decide (is_Some (fs !! images_dir)) || Nerf.isdir env images_dir);
    simpl; [|left; eauto].
  destruct (Nerf.listdir env images_dir) as [e|names]; [right; left; eauto|].
  destruct (Z.of_nat (length (List.filter Nerf.is_image names)) <? 3);
    [left; eauto|].
  destruct (Nerf.makedirs_err env) as [e|]; [right; left; eauto|].
  destruct config_file as [c|]; [left; eauto|].
  unfold Nerf.create_nerf_config, Nerf.write_text.
  destruct (Nerf.open_err env) as [e|]; [right; left; eauto|].
  right; right. split; [reflexivity|].
  destruct (Nerf.write_err env) as [e|].
  - exists (inl e), "". split; [by left|]. split; [left; eauto|].
    eexists. reflexivity.
  - eexists (inr _), _. split; [by right|]. split; [right; eauto|].
    eexists. reflexivity.
Qed.

End NerfFacts.

(** X15. What [generate_nerf] does to the files.  The only path it may
    change is [nerf_config.txt] in the output directory; it changes
    nothing at all when the caller gives a configuration file; and when
    it changes the path, the file holds the configuration text or, if
    writing failed, is empty. *)
Theorem nerf_file_effect
    (env : Nerf.Env) (images_dir output_dir dataset_type : string)
    (config_file : option string) (fs : gmap string file) :
  let cfg := PosixPath.join output_dir "nerf_config.txt" in
  let fs' :=
    (Nerf.generate_nerf env images_dir output_dir dataset_type config_file fs).2
  in
  (forall p, p <> cfg -> fs' !! p = fs !! p) /\
  (is_Some config_file -> fs' = fs) /\
  (fs' = fs \/
   exists sz,
     fs' = <[cfg := File (Text (Nerf.config_content images_dir output_dir
                                  dataset_type)) sz]> fs \/
     fs' = <[cfg := File (Text "") sz]> fs).
Proof.
  intros cfg fs'.
  assert (H : fs' = fs \/
              (config_file = None /\
               exists text sz,
                 (text = "" \/
                  text = Nerf.config_content images_dir output_dir dataset_type)
                 /\ fs' = <[cfg := File (Text text) sz]> fs)).
  { unfold fs', Nerf.generate_nerf, try_except, bind, Nerf.path_exists,
      ret, raise.
    destruct (bool_decide _ || Nerf.isdir env _); simpl; [|by left].
    destruct (Nerf.import_tensorflow env) as [|m|e]; [|by left|by left].
    destruct (from_images_cases env images_dir output_dir dataset_type
                config_file fs)
      as [(msg & ->)|[(e & ->)|(Hc & r & text & Ht & Hr & sz & ->)]];
      [by left|by left|].
    right. split; [exact Hc|]. exists text, sz. split; [exact Ht|].
    destruct Hr as [(e & ->)|(msg & ->)]; reflexivity. }
  destruct H as [->|(Hc & text & sz & Ht & ->)].
  - split; [reflexivity|]. split; [reflexivity|by left].
  - split; [intros p Hp; by rewrite lookup_insert_ne|].
    split; [intros [c Hs]; congruence|].
    right. exists sz. destruct Ht as [->| ->]; [by right|by left].
Qed.

(** X16. How far [generate_nerf] gets.  With the repository in place,
    TensorFlow importable, at least three names in the images directory
    that end in [.png], [.jpg] or [.jpeg] whatever their case, no
    configuration file given and no operation failing, the call writes
    the configuration text to [nerf_config.txt] in the output directory
    and then reports that the training is not implemented. *)
Theorem nerf_config_written
    (env : Nerf.Env) (images_dir output_dir dataset_type : string)
    (names : list string) (fs : gmap string file) :
  Nerf.isdir env (PosixPath.join (Nerf.module_dir env) "nerf_repo") = true ->
  Nerf.import_tensorflow env = Imported ->
  Nerf.isdir env images_dir = true ->
  Nerf.listdir env images_dir = inr names ->
  (3 <= length (List.filter Nerf.is_image names))%nat ->
  Nerf.makedirs_err env = None ->
  Nerf.open_err env = None ->
  Nerf.write_err env = None ->
  exists msg,
    Nerf.generate_nerf env images_dir output_dir dataset_type None fs
    = (inr (failure msg),
       <[PosixPath.join output_dir "nerf_config.txt" :=
           File (Text (Nerf.config_content images_dir output_dir dataset_type))
                (Nerf.encoded_size env
                   (Nerf.config_content images_dir output_dir dataset_type))]>
         fs) /\
    Py.startswith "NeRF training not fully implemented." msg = true.
Proof.
  intros Hrepo Htf Hdir Hls Hn Hmk Hop Hwr.
  eexists. split.
  - unfold Nerf.generate_nerf, try_except, bind, Nerf.path_exists, ret.
    rewrite Hrepo, orb_true_r, Htf. simpl.
    unfold Nerf.from_images, bind, Nerf.path_exists, Nerf.os_listdir, ret,
      stage, Nerf.create_nerf_config, Nerf.write_text.
    rewrite Hdir, orb_true_r, Hls. simpl.
    destruct (Z.ltb_spec (Z.of_nat (length (List.filter Nerf.is_image names))) 3);
      [lia|].
    rewrite Hmk, Hop, Hwr. reflexivity.
  - reflexivity.
Qed.

(** Four pictures among five names; the configuration names the images
    directory and the logs directory. *)
Lemma nerf_config_written_witness :
  List.filter Nerf.is_image ["a.png"; "b.JPG"; "c.jpeg"; "notes.txt"; "d.Png"]
    = ["a.png"; "b.JPG"; "c.jpeg"; "d.Png"] /\
  exists msg,
    Nerf.generate_nerf Nerf.studio "shots" "out" "llff" None ∅
    = (inr (failure msg),
       <[PosixPath.join "out" "nerf_config.txt" :=
           File (Text (Nerf.config_content "shots" "out" "llff"))
                (Nerf.encoded_size Nerf.studio
                   (Nerf.config_content "shots" "out" "llff"))]> ∅) /\
    Py.startswith "NeRF training not fully implemented." msg = true.
Proof.
  split; [reflexivity|].
  exact (nerf_config_written Nerf.studio "shots" "out" "llff"
           ["a.png"; "b.JPG"; "c.jpeg"; "notes.txt"; "d.Png"] ∅
           eq_refl eq_refl eq_refl eq_refl
           ltac:(vm_compute; lia) eq_refl eq_refl eq_refl).
Defined.

(** ** The material module *)

Section MaterialFacts.

Context (env : Material.Env).

(** Two paths with one base and different endings are different. *)
Lemma suffix_paths_differ (base s1 s2 : string) :
  s1 <> s2 -> base +:+ s1 <> base +:+ s2.
Proof.
  intros Hne E. apply Hne. revert E.
  induction base as [|c base IH]; simpl; [auto|].
  rewrite !append_cons. intros E. injection E as E. auto.
Qed.

(** The saving of the four maps when it returns. *)
Lemma simplified_returns e base fs paths fs' :
  Material.simplified env e base fs = (inr paths, fs') ->
  paths = (base +:+ "_albedo.png", base +:+ "_roughness.png",
           base +:+ "_metallic.png", base +:+ "_bump.png") /\
  fs' =
  <[base +:+ "_bump.png" := Material.png env Material.bump]>
    (<[base +:+ "_metallic.png" := Material.png env Material.metallic]>
       (<[base +:+ "_roughness.png" := Material.png env Material.roughness]>
          (<[base +:+ "_albedo.png" := Material.png env Material.albedo]> fs))).
Proof.
  unfold Material.simplified, bind, Material.save, ret. cbv zeta.
  destruct (Material.save_raises env _ fs) as [[e1 f1]|]; [discriminate|].
  destruct (Material.save_raises env _ _) as [[e2 f2]|]; [discriminate|].
  destruct (Material.save_raises env _ _) as [[e3 f3]|]; [discriminate|].
  destruct (Material.save_raises env _ _) as [[e4 f4]|]; [discriminate|].
  intros H. injection H as <- <-. split; reflexivity.
Qed.

(** [generate_materials] returns a failure dictionary, or the success
    dictionary after the four maps have been saved. *)
Lemma generate_materials_cases mesh_path prompt output_dir model_dir fs :
  let base := PosixPath.join output_dir (Material.stem env mesh_path) in
  (exists msg fs',
      Material.generate_materials env mesh_path prompt output_dir model_dir fs
      = (inr (failure msg), fs')) \/
  (exists fs1 fs' e,
      Material.ply_to_obj env mesh_path fs = (inr tt, fs1) /\
      Material.simplified env e base fs1
      = (inr (base +:+ "_albedo.png", base +:+ "_roughness.png",
              base +:+ "_metallic.png", base +:+ "_bump.png"), fs') /\
      Material.generate_materials env mesh_path prompt output_dir model_dir fs
      = (inr (Material.success (base +:+ "_albedo.png")
                (base +:+ "_roughness.png") (base +:+ "_metallic.png")
                (base +:+ "_bump.png")), fs')).
Proof.
  intros base.
  unfold Material.generate_materials, try_except, bind, Material.path_exists,
    ret, raise, stage.
  destruct (bool_decide _ || Material.isdir env _); simpl; [|left; eauto].
  destruct (Material.import_lib env) as [|m|e]; [|left; eauto|left; eauto].
  destruct (Material.get_image2materials_err env) as [e|]; [left; eauto|].
  destruct (Material.ply_to_obj env mesh_path fs) as [[e|[]] fs1] eqn:Hp;
    [left; eauto|].
  destruct (Material.makedirs_err env) as [e|]; [left; eauto|].
  fold base.
  destruct (Material.simplified env _ base fs1) as [[e|paths] fs'] eqn:Hs;
    [left; eauto|].
  destruct (simplified_returns _ _ _ _ _ Hs) as [-> _].
  right. exists fs1, fs'. eexists. split; [reflexivity|].
  split; [exact Hs|reflexivity].
Qed.

End MaterialFacts.

(** X17. The maps are placeholders.  Whenever [generate_materials]
    reports success, the four files it names are [<stem>_albedo.png],
    [<stem>_roughness.png], [<stem>_metallic.png] and [<stem>_bump.png]
    in the output directory, four different paths, and they hold images
    of one colour of 1024 by 1024 pixels: grey (200, 200, 200), 128, 0
    and 128.  Neither the prompt, nor the mesh, nor the device has a part
    in them.  Besides these four files, the only change on disk is the
    one of the OBJ export of a mesh whose path ends in [.ply]. *)
Theorem materials_are_placeholders
    (env : Material.Env) (mesh_path prompt output_dir model_dir : string)
    (fs fs' : gmap string file) (result : dict) :
  let base := PosixPath.join output_dir (Material.stem env mesh_path) in
  Material.generate_materials env mesh_path prompt output_dir model_dir fs
    = (inr result, fs') ->
  result !! "success" = Some (VBool true) ->
  result = Material.success (base +:+ "_albedo.png") (base +:+ "_roughness.png")
             (base +:+ "_metallic.png") (base +:+ "_bump.png") /\
  fs' !! (base +:+ "_albedo.png")
    = Some (Material.png env (Material.Image_new Material.RGB 1024 1024
                                [200; 200; 200])) /\
  fs' !! (base +:+ "_roughness.png")
    = Some (Material.png env (Material.Image_new Material.L 1024 1024 [128])) /\
  fs' !! (base +:+ "_metallic.png")
    = Some (Material.png env (Material.Image_new Material.L 1024 1024 [0])) /\
  fs' !! (base +:+ "_bump.png")
    = Some (Material.png env (Material.Image_new Material.L 1024 1024 [128])) /\
  exists fs1,
    Material.ply_to_obj env mesh_path fs = (inr tt, fs1) /\
    (PyStr.endswith ".ply" mesh_path = false -> fs1 = fs) /\
    forall p,
      p <> base +:+ "_albedo.png" -> p <> base +:+ "_roughness.png" ->
      p <> base +:+ "_metallic.png" -> p <> base +:+ "_bump.png" ->
      fs' !! p = fs1 !! p.
Proof.
  intros base Hg Hs.
  destruct (generate_materials_cases env mesh_path prompt output_dir model_dir fs)
    as [(msg & fs2 & H)|(fs1 & fs2 & e & Hp & Hsim & H)];
    fold base in H; rewrite H in Hg; injection Hg as <- <-.
  { vm_compute in Hs. discriminate. }
  fold base in Hsim.
  destruct (simplified_returns env _ _ _ _ _ Hsim) as [_ ->].
  assert (D : forall s1 s2, s1 <> s2 -> base +:+ s1 <> base +:+ s2)
    by apply suffix_paths_differ.
  split; [reflexivity|].
  split. { rewrite !lookup_insert_ne by (apply D; discriminate).
           by rewrite lookup_insert_eq. }
  split. { rewrite !lookup_insert_ne by (apply D; discriminate).
           by rewrite lookup_insert_eq. }
  split. { rewrite !lookup_insert_ne by (apply D; discriminate).
           by rewrite lookup_insert_eq. }
  split. { by rewrite lookup_insert_eq. }
  exists fs1. split; [exact Hp|]. split.
  - intros Hn. unfold Material.ply_to_obj in Hp. rewrite Hn in Hp.
    by injection Hp.
  - intros p H1 H2 H3 H4. by rewrite !lookup_insert_ne by congruence.
Qed.

(** A chair, on a machine with CUDA and on one without: the same four
    files. *)
Lemma materials_are_placeholders_witness :
  Material.generate_materials (Material.studio true)
    "out/chair.obj" "red velvet" "out/materials" "pretrained_models" ∅
  = Material.generate_materials (Material.studio false)
      "out/chair.obj" "polished steel" "out/materials" "pretrained_models" ∅ /\
  ({[ "out/materials/chair_albedo.png" := File Blob 3100;
      "out/materials/chair_roughness.png" := File Blob 1040;
      "out/materials/chair_metallic.png" := File Blob 1040;
      "out/materials/chair_bump.png" := File Blob 1040 ]} : gmap string file)
    !! "out/materials/chair_albedo.png" = Some (File Blob 3100).
Proof.
  split; [vm_compute; reflexivity|].
  refine (proj1 (proj2 (materials_are_placeholders (Material.studio true)
           "out/chair.obj" "red velvet" "out/materials" "pretrained_models"
           (∅ : gmap string file)
           ({[ "out/materials/chair_albedo.png" := File Blob 3100;
               "out/materials/chair_roughness.png" := File Blob 1040;
               "out/materials/chair_metallic.png" := File Blob 1040;
               "out/materials/chair_bump.png" := File Blob 1040 ]}
              : gmap string file)
           (Material.success "out/materials/chair_albedo.png"
              "out/materials/chair_roughness.png"
              "out/materials/chair_metallic.png"
              "out/materials/chair_bump.png")
           _ _))); vm_compute; reflexivity.
Defined.


(** ** Indices that are not positive *)

(** X21. Relative indices are not supported: a face line one of whose
    first three fields has a leading integer that is zero or negative
    (OBJ counts backwards with negative indices) is dropped, whatever
    the vertices read so far; nothing is raised and the loop goes on. *)
Theorem nonpositive_index_drops_face
    (fl : PyFloat) (m : mesh) (raw p1 p2 p3 p : string) (rest : list string)
    (n : Z) :
  face_line raw p1 p2 p3 rest ->
  p = p1 \/ p = p2 \/ p = p3 ->
  Py.int (Py.split_head "/" p) = Some n ->
  n <= 0 ->
  step fl m raw = m.
Proof.
  intros Hf Hp Hi Hn.
  apply (face_line_dropped fl m raw p1 p2 p3 rest Hf).
  assert (Hr : resolves (length (vertices m)) p = false).
  { destruct (resolves (length (vertices m)) p) eqn:E; [|reflexivity].
    apply resolves_spec in E as (k & Hk & Hrange).
    rewrite Hi in Hk. injection Hk as <-. lia. }
  unfold resolve3.
  destruct Hp as [->|[->| ->]]; rewrite Hr;
    rewrite ?andb_false_r; reflexivity.
Qed.

(** The last three vertices, counted backwards. *)
Lemma nonpositive_index_drops_face_witness :
  parse DecFloat.model ["v 0 0 0"; "v 1 0 0"; "v 0 1 0"; "f -3 -2 -1"]
    = parse DecFloat.model ["v 0 0 0"; "v 1 0 0"; "v 0 1 0"] /\
  step DecFloat.model
    (parse DecFloat.model ["v 0 0 0"; "v 1 0 0"; "v 0 1 0"]) "f -3 -2 -1"
    = parse DecFloat.model ["v 0 0 0"; "v 1 0 0"; "v 0 1 0"].
Proof.
  split; [vm_compute; reflexivity|].
  apply (nonpositive_index_drops_face DecFloat.model
           (parse DecFloat.model ["v 0 0 0"; "v 1 0 0"; "v 0 1 0"])
           "f -3 -2 -1" "-3" "-2" "-1" "-2" [] (-2)).
  - split; reflexivity.
  - right; left; reflexivity.
  - reflexivity.
  - lia.
Defined.

(** ** Writes *)

Section WriteFacts.

Context (pr : printer).

(** Writes change no file, and raise only what a write raises. *)
Lemma prints_cases lines fs :
  prints pr lines fs = (inr tt, fs) \/
  exists e, raised_by pr e /\ prints pr lines fs = (inl e, fs).
Proof.
  induction lines as [|l lines IH]; [by left|].
  cbn [prints]. unfold bind, print_at.
  destruct (pr l) as [e|] eqn:E; [right; exists e; split; [by exists l|done]|].
  exact IH.
Qed.

Lemma prints_quiet lines fs :
  quiet pr -> prints pr lines fs = (inr tt, fs).
Proof.
  intros Hq. destruct (prints_cases lines fs) as [H|(e & [l Hl] & _)];
    [exact H|]. rewrite Hq in Hl. discriminate.
Qed.

Lemma prints_inr lines fs a fs' :
  prints pr lines fs = (inr a, fs') -> fs' = fs.
Proof.
  destruct (prints_cases lines fs) as [->|(e & _ & ->)];
    [by intros [= _ <-]|discriminate].
Qed.

Lemma print_at_quiet line fs :
  quiet pr -> print_at pr line fs = (inr tt, fs).
Proof. intros Hq. unfold print_at. by rewrite Hq. Qed.

End WriteFacts.

Lemma quiet_silent : quiet silent.
Proof. intros line. reflexivity. Qed.

(** ** Calls that print on [stdout] *)

Section PrFacts.

Context {A B : Type}.

Lemma pr_bind_lift_inr (m : M A) (k : A -> P B) fs a fs1 :
  m fs = (inr a, fs1) -> Pr.bind (Pr.lift m) k fs = k a fs1.
Proof.
  intros H. unfold Pr.bind, Pr.lift. rewrite H.
  destruct (k a fs1) as [[b more] fs2]. reflexivity.
Qed.

Lemma pr_bind_lift_inl (m : M A) (k : A -> P B) fs e fs1 :
  m fs = (inl e, fs1) -> Pr.bind (Pr.lift m) k fs = (inl (Exn e), [], fs1).
Proof. intros H. unfold Pr.bind, Pr.lift. rewrite H. reflexivity. Qed.

Lemma pr_bind_ret (a : A) (k : A -> P B) fs :
  Pr.bind (Pr.ret a) k fs = k a fs.
Proof.
  unfold Pr.bind, Pr.ret. destruct (k a fs) as [[b more] fs2]. reflexivity.
Qed.

Lemma pr_bind_inr (m : P A) (k : A -> P B) fs a printed fs1 b more fs2 :
  m fs = (inr a, printed, fs1) ->
  k a fs1 = (b, more, fs2) ->
  Pr.bind m k fs = (b, printed ++ more, fs2).
Proof. intros H1 H2. unfold Pr.bind. rewrite H1, H2. reflexivity. Qed.

Lemma pr_bind_inl (m : P A) (k : A -> P B) fs r printed fs1 :
  m fs = (inl r, printed, fs1) ->
  Pr.bind m k fs = (inl r, printed, fs1).
Proof. intros H. unfold Pr.bind. rewrite H. reflexivity. Qed.

End PrFacts.

Section PrWrites.

Context {B : Type} (pr : printer).

Lemma pr_bind_err (lines : list Z) (k : unit -> P B) fs :
  prints pr lines fs = (inr tt, fs) ->
  Pr.bind (Pr.err pr lines) k fs = k tt fs.
Proof. intros H. unfold Pr.err. apply pr_bind_lift_inr, H. Qed.

Lemma pr_bind_err_raises (lines : list Z) (k : unit -> P B) fs e :
  prints pr lines fs = (inl e, fs) ->
  Pr.bind (Pr.err pr lines) k fs = (inl (Exn e), [], fs).
Proof. intros H. unfold Pr.err. apply pr_bind_lift_inl, H. Qed.

Lemma pr_bind_out line text (k : unit -> P B) fs b more fs' :
  pr line = None ->
  k tt fs = (b, more, fs') ->
  Pr.bind (Pr.out pr line text) k fs = (b, text :: more, fs').
Proof.
  intros H1 H2. unfold Pr.bind, Pr.out. rewrite H1, H2. reflexivity.
Qed.

Lemma pr_bind_out_raises line text (k : unit -> P B) fs e :
  pr line = Some e ->
  Pr.bind (Pr.out pr line text) k fs = (inl (Exn e), [], fs).
Proof. intros H. unfold Pr.bind, Pr.out. rewrite H. reflexivity. Qed.

Lemma pr_bind_item (result : dict) key v (k : value -> P B) fs :
  result !! key = Some v ->
  Pr.bind (Pr.item result key) k fs = k v fs.
Proof.
  intros H. unfold Pr.bind, Pr.item. rewrite H.
  destruct (k v fs) as [[b more] fs2]. reflexivity.
Qed.

End PrWrites.


(** ** The NeRF module with its prints *)

Section NerfPrintFacts.

Context (env : Nerf.Env) (pr : printer).

(** The part of [generate_nerf] after the imports returns a failure
    dictionary or raises. *)
Lemma nerf_from_images_cases images_dir output_dir dataset_type config_file fs :
  (exists msg fs',
      NerfPrinting.from_images env pr images_dir output_dir dataset_type
        config_file fs = (inr (failure msg), fs')) \/
  (exists e fs',
      NerfPrinting.from_images env pr images_dir output_dir dataset_type
        config_file fs = (inl e, fs')).
Proof.
  unfold NerfPrinting.from_images, bind, Nerf.path_exists, Nerf.os_listdir,
    ret, stage.
  destruct (bool_decide (is_Some (fs !! images_dir)) || Nerf.isdir env images_dir);
    cbn [negb]; [|left; eauto].
  destruct (Nerf.listdir env images_dir) as [e|names]; [right; eauto|].
  destruct (Z.of_nat (length (List.filter Nerf.is_image names)) <? 3);
    [left; eauto|].
  destruct (prints_cases pr [85; 86] fs) as [->|(e & _ & ->)]; [|right; eauto].
  destruct (Nerf.makedirs_err env) as [e|]; [right; eauto|].
  match goal with |- context [if negb ?b then _ else _] => destruct b end;
    cbn [negb].
  - destruct config_file as [c|].
    + destruct (prints_cases pr [105; 106; 107; 108] fs) as [->|(e & _ & ->)];
        [|right; eauto].
      destruct (prints_cases pr [122; 123; 124; 125; 126; 127; 128] fs)
        as [->|(e & _ & ->)]; [left; eauto|right; eauto].
    + unfold NerfPrinting.create_nerf_config, bind.
      destruct (Nerf.write_text env _ _ fs) as [[e|[]] fs1]; [right; eauto|].
      destruct (prints_cases pr [180; 181] fs1) as [->|(e & _ & ->)];
        [|right; eauto].
      destruct (prints_cases pr [105; 106; 107; 108] fs1) as [->|(e & _ & ->)];
        [|right; eauto].
      destruct (prints_cases pr [122; 123; 124; 125; 126; 127; 128] fs1)
        as [->|(e & _ & ->)]; [left; eauto|right; eauto].
  - destruct (prints_cases pr [95; 96; 97; 98] fs) as [->|(e & _ & ->)];
      [|right; eauto].
    destruct config_file as [c|].
    + destruct (prints_cases pr [105; 106; 107; 108] fs) as [->|(e & _ & ->)];
        [|right; eauto].
      destruct (prints_cases pr [122; 123; 124; 125; 126; 127; 128] fs)
        as [->|(e & _ & ->)]; [left; eauto|right; eauto].
    + unfold NerfPrinting.create_nerf_config, bind.
      destruct (Nerf.write_text env _ _ fs) as [[e|[]] fs1]; [right; eauto|].
      destruct (prints_cases pr [180; 181] fs1) as [->|(e & _ & ->)];
        [|right; eauto].
      destruct (prints_cases pr [105; 106; 107; 108] fs1) as [->|(e & _ & ->)];
        [|right; eauto].
      destruct (prints_cases pr [122; 123; 124; 125; 126; 127; 128] fs1)
        as [->|(e & _ & ->)]; [left; eauto|right; eauto].
Qed.

(** The body of the [try] of [generate_nerf]. *)
Lemma nerf_body_cases images_dir output_dir dataset_type config_file fs :
  forall body,
    body =
      (repo <- Nerf.path_exists env
                 (PosixPath.join (Nerf.module_dir env) "nerf_repo") ;;
       if negb repo
       then ret (failure ("NeRF repository not found. Please ensure "
                            +:+ "nerf_repo/ directory exists."))
       else
         match Nerf.import_tensorflow env with
         | ImportError _ =>
             ret (failure ("TensorFlow not found. NeRF requires TensorFlow "
                             +:+ "1.15. Note: TensorFlow 1.15 may not work on "
                             +:+ "Apple Silicon. Consider using a modern NeRF "
                             +:+ "implementation."))
         | ImportRaises e => raise e
         | Imported =>
             prints pr [63; 64] ;;
             NerfPrinting.from_images env pr images_dir output_dir
               dataset_type config_file
         end)%io ->
    (exists msg fs', body fs = (inr (failure msg), fs')) \/
    (exists e fs', body fs = (inl e, fs')).
Proof.
  intros body ->. unfold bind, Nerf.path_exists, ret, raise.
  destruct (bool_decide _ || Nerf.isdir env _); cbn [negb]; [|left; eauto].
  destruct (Nerf.import_tensorflow env) as [|m|e]; [|left; eauto|right; eauto].
  destruct (prints_cases pr [63; 64] fs) as [->|(e & _ & ->)]; [|right; eauto].
  apply nerf_from_images_cases.
Qed.

(** [generate_nerf] returns a failure dictionary, or raises what a
    write of its handler raises. *)
Lemma nerf_generate_cases images_dir output_dir dataset_type config_file fs :
  (exists msg fs',
      NerfPrinting.generate_nerf env pr images_dir output_dir dataset_type
        config_file fs = (inr (failure msg), fs')) \/
  (exists e fs',
      (pr 138 = Some e \/ pr 139 = Some e \/ pr 140 = Some e) /\
      NerfPrinting.generate_nerf env pr images_dir output_dir dataset_type
        config_file fs = (inl e, fs')).
Proof.
  unfold NerfPrinting.generate_nerf, try_except.
  match goal with |- context [match ?b fs with _ => _ end] =>
    destruct (nerf_body_cases images_dir output_dir dataset_type config_file
                fs b eq_refl) as [(msg & fs1 & ->)|(e0 & fs1 & ->)]
  end; [left; eauto|].
  unfold bind, prints, print_at, ret.
  destruct (pr 138) as [e|]; [right; eauto 6|].
  destruct (pr 139) as [e|]; [right; eauto 6|].
  destruct (pr 140) as [e|]; [right; eauto 6|].
  left; eauto.
Qed.

End NerfPrintFacts.

(** X14. The NeRF module never succeeds.  In every environment and for
    all arguments, [generate_nerf] returns a dictionary with ['success']
    false and an ['error'] text, and no ['mesh'] nor ['video'], unless a
    write to [stderr] of its handler (lines 138-140) raises, in which
    case that exception reaches the caller.  So [main] prints nothing on
    [stdout] and never returns: it ends with [sys.exit(1)], or with the
    exception of a write to [stderr]. *)
Theorem nerf_never_succeeds
    (env : Nerf.Env) (pr : printer) (images_dir output_dir dataset_type : string)
    (config_file : option string) (fs : gmap string file) :
  ((exists msg fs',
       NerfPrinting.generate_nerf env pr images_dir output_dir dataset_type
         config_file fs = (inr (failure msg), fs') /\
       failure msg !! "success" = Some (VBool false) /\
       failure msg !! "error" = Some (VStr msg) /\
       failure msg !! "mesh" = None /\
       failure msg !! "video" = None) \/
   (exists e fs',
       (pr 138 = Some e \/ pr 139 = Some e \/ pr 140 = Some e) /\
       NerfPrinting.generate_nerf env pr images_dir output_dir dataset_type
         config_file fs = (inl e, fs'))) /\
  (exists how fs',
      Pr.program
        (NerfPrinting.main env pr
           (Nerf.Args images_dir output_dir dataset_type config_file)) fs
      = (how, [], fs') /\
      (how = SysExit 1 \/ exists e, raised_by pr e /\ how = Uncaught (Exn e))).
Proof.
  destruct (nerf_generate_cases env pr images_dir output_dir dataset_type
              config_file fs) as [(msg & fs1 & H)|(e & fs1 & He & H)].
  - split.
    + left. exists msg, fs1. split; [exact H|]. by vm_compute.
    + unfold Pr.program, NerfPrinting.main, Pr.bind, Pr.lift. simpl.
      rewrite H. unfold Pr.item.
      change (failure msg !! "success") with (Some (VBool false)).
      cbn [truthy]. unfold Pr.err, Pr.lift, Pr.ret.
      destruct (prints_cases pr [208; 209] fs1) as [->|(e & Hr & ->)].
      * exists (SysExit 1), fs1. split; [reflexivity|by left].
      * exists (Uncaught (Exn e)), fs1. split; [reflexivity|]. right. eauto.
  - split.
    + right. eauto.
    + unfold Pr.program, NerfPrinting.main, Pr.bind, Pr.lift. simpl.
      rewrite H. exists (Uncaught (Exn e)), fs1. split; [reflexivity|].
      right. exists e. split; [|reflexivity].
      destruct He as [He|[He|He]]; eexists; exact He.
Qed.


(** ** The material module with its prints *)

Section MaterialPrintFacts.

Context (env : Material.Env) (pr : printer).

(** The inner [try] is always left through its handler. *)
Lemma material_anything_returns d fs :
  MaterialPrinting.material_anything pr d fs = (inr tt, fs).
Proof.
  unfold MaterialPrinting.material_anything, try_except, ret.
  destruct d.
  - destruct (prints_cases pr [130; 131] fs) as [->|(e & _ & ->)]; reflexivity.
  - destruct (prints_cases pr [122; 123] fs) as [->|(e & _ & ->)]; reflexivity.
  - destruct (prints_cases pr [130; 131] fs) as [->|(e & _ & ->)]; reflexivity.
Qed.

(** The handler of the inner [try] when it returns. *)
Lemma printing_simplified_returns base fs paths fs' :
  MaterialPrinting.simplified env pr base fs = (inr paths, fs') ->
  paths = (base +:+ "_albedo.png", base +:+ "_roughness.png",
           base +:+ "_metallic.png", base +:+ "_bump.png").
Proof.
  unfold MaterialPrinting.simplified, bind, ret. cbv zeta.
  destruct (prints_cases pr [135; 136; 137] fs) as [->|(e & _ & ->)];
    [|discriminate].
  destruct (Material.save env _ _ fs) as [[e|[]] f1]; [discriminate|].
  destruct (Material.save env _ _ f1) as [[e|[]] f2]; [discriminate|].
  destruct (Material.save env _ _ f2) as [[e|[]] f3]; [discriminate|].
  destruct (Material.save env _ _ f3) as [[e|[]] f4]; [discriminate|].
  destruct (prints_cases pr [161; 162; 163] f4) as [->|(e & _ & ->)];
    [|discriminate].
  by intros [= <- _].
Qed.

(** [generate_materials] returns one of its two dictionaries, or raises
    what a write of its handler raises. *)
Lemma material_generate_cases mesh_path prompt output_dir model_dir fs :
  let base := PosixPath.join output_dir (Material.stem env mesh_path) in
  (exists msg fs',
      MaterialPrinting.generate_materials env pr mesh_path prompt output_dir
        model_dir fs = (inr (failure msg), fs')) \/
  (exists fs',
      MaterialPrinting.generate_materials env pr mesh_path prompt output_dir
        model_dir fs
      = (inr (Material.success (base +:+ "_albedo.png")
                (base +:+ "_roughness.png") (base +:+ "_metallic.png")
                (base +:+ "_bump.png")), fs')) \/
  (exists e fs',
      (pr 176 = Some e \/ pr 177 = Some e \/ pr 178 = Some e) /\
      MaterialPrinting.generate_materials env pr mesh_path prompt output_dir
        model_dir fs = (inl e, fs')).
Proof.
  intros base.
  assert (Hh : forall (e0 : exn) fs1,
             (exists msg fs',
                 (prints pr [176; 177; 178] ;;
                  ret (failure ("Error generating materials: "
                                  +:+ Material.exn_str env e0)))%io fs1
                 = (inr (failure msg), fs')) \/
             (exists e fs',
                 (pr 176 = Some e \/ pr 177 = Some e \/ pr 178 = Some e) /\
                 (prints pr [176; 177; 178] ;;
                  ret (failure ("Error generating materials: "
                                  +:+ Material.exn_str env e0)))%io fs1
                 = (inl e, fs'))).
  { intros e0 fs1. unfold bind, prints, print_at, ret.
    destruct (pr 176) as [e|]; [right; eauto 6|].
    destruct (pr 177) as [e|]; [right; eauto 6|].
    destruct (pr 178) as [e|]; [right; eauto 6|].
    left; eauto. }
  unfold MaterialPrinting.generate_materials, try_except.
  match goal with |- context [match ?b fs with _ => _ end] =>
    assert (Hb : (exists msg fs', b fs = (inr (failure msg), fs')) \/
                 (exists fs',
                     b fs = (inr (Material.success (base +:+ "_albedo.png")
                                    (base +:+ "_roughness.png")
                                    (base +:+ "_metallic.png")
                                    (base +:+ "_bump.png")), fs')) \/
                 (exists e fs', b fs = (inl e, fs')))
  end.
  { unfold bind, Material.path_exists, ret, raise, stage.
    destruct (bool_decide _ || Material.isdir env _); cbn [negb];
      [|left; eauto].
    cbv zeta. unfold print_at.
    destruct (pr (MaterialPrinting.device_line (Material.pick_device env)))
      as [e|]; [right; right; eauto|].
    destruct (Material.import_lib env) as [|m|e];
      [|left; eauto|right; right; eauto].
    destruct (prints_cases pr [88; 89] fs) as [->|(e & _ & ->)];
      [|right; right; eauto].
    destruct (Material.get_image2materials_err env) as [e|];
      [right; right; eauto|].
    destruct (prints_cases pr [94; 95; 96] fs) as [->|(e & _ & ->)];
      [|right; right; eauto].
    destruct (MaterialPrinting.ply_to_obj env pr mesh_path fs)
      as [[e|[]] fs1]; [right; right; eauto|].
    destruct (Material.makedirs_err env) as [e|]; [right; right; eauto|].
    rewrite material_anything_returns. fold base.
    destruct (MaterialPrinting.simplified env pr base fs1)
      as [[e|paths] fs2] eqn:Hs; [right; right; eauto|].
    rewrite (printing_simplified_returns _ _ _ _ Hs).
    right; left; eauto. }
  destruct Hb as [(msg & fs1 & ->)|[(fs1 & ->)|(e0 & fs1 & ->)]].
  - left; eauto.
  - right; left; eauto.
  - destruct (Hh e0 fs1) as [(msg & fs2 & ->)|(e & fs2 & He & ->)];
      [left; eauto|right; right; eauto].
Qed.

End MaterialPrintFacts.

(** X18. What [generate_materials] can raise.  In every environment the
    call returns the failure dictionary, with an ['error'] text, or the
    success dictionary with its four paths; an exception reaches the
    caller only when a write to [stderr] of the handler (lines 176-178)
    raises it.  When no write raises, [main] either prints the four
    lines [ALBEDO], [ROUGHNESS], [METALLIC] and [BUMP] and returns, or
    prints nothing on [stdout] and ends with [sys.exit(1)]. *)
Theorem materials_raise_only_in_the_handler
    (env : Material.Env) (pr : printer)
    (mesh_path prompt output_dir model_dir : string) (fs : gmap string file) :
  let base := PosixPath.join output_dir (Material.stem env mesh_path) in
  (forall e fs',
      MaterialPrinting.generate_materials env pr mesh_path prompt output_dir
        model_dir fs = (inl e, fs') ->
      pr 176 = Some e \/ pr 177 = Some e \/ pr 178 = Some e) /\
  (forall result fs',
      MaterialPrinting.generate_materials env pr mesh_path prompt output_dir
        model_dir fs = (inr result, fs') ->
      (exists msg, result = failure msg) \/
      result = Material.success (base +:+ "_albedo.png")
                 (base +:+ "_roughness.png") (base +:+ "_metallic.png")
                 (base +:+ "_bump.png")) /\
  (quiet pr ->
   exists fs',
     Pr.program
       (MaterialPrinting.main env pr
          (Material.Args mesh_path prompt output_dir model_dir)) fs
     = (SysExit 1, [], fs') \/
     Pr.program
       (MaterialPrinting.main env pr
          (Material.Args mesh_path prompt output_dir model_dir)) fs
     = (Returns,
        ["ALBEDO: " +:+ base +:+ "_albedo.png";
         "ROUGHNESS: " +:+ base +:+ "_roughness.png";
         "METALLIC: " +:+ base +:+ "_metallic.png";
         "BUMP: " +:+ base +:+ "_bump.png"], fs')).
Proof.
  intros base.
  destruct (material_generate_cases env pr mesh_path prompt output_dir
              model_dir fs)
    as [(msg & fs1 & H)|[(fs1 & H)|(e & fs1 & He & H)]]; fold base in H.
  - split; [intros e fs'; rewrite H; discriminate|].
    split; [intros r fs'; rewrite H; intros [= <- _]; left; eauto|].
    intros Hq. exists fs1. left.
    unfold Pr.program, MaterialPrinting.main.
    cbn [Material.mesh Material.prompt Material.output Material.model_dir].
    rewrite (pr_bind_lift_inr _ _ _ _ _ H).
    rewrite (pr_bind_item (failure msg) "success" (VBool false)) by reflexivity.
    cbn [truthy].
    rewrite (pr_bind_err pr _ _ _ (prints_quiet pr _ _ Hq)). reflexivity.
  - split; [intros e fs'; rewrite H; discriminate|].
    split; [intros r fs'; rewrite H; intros [= <- _]; by right|].
    intros Hq. exists fs1. right.
    assert (Hm : MaterialPrinting.main env pr
                   (Material.Args mesh_path prompt output_dir model_dir) fs
                 = (inr Returns,
                    ["ALBEDO: " +:+ base +:+ "_albedo.png";
                     "ROUGHNESS: " +:+ base +:+ "_roughness.png";
                     "METALLIC: " +:+ base +:+ "_metallic.png";
                     "BUMP: " +:+ base +:+ "_bump.png"], fs1)).
    { unfold MaterialPrinting.main.
      cbn [Material.mesh Material.prompt Material.output Material.model_dir].
      rewrite (pr_bind_lift_inr _ _ _ _ _ H).
      rewrite (pr_bind_item _ "success" (VBool true)) by reflexivity.
      cbn [truthy].
      rewrite (pr_bind_item _ "albedo" (VStr (base +:+ "_albedo.png")))
        by reflexivity.
      apply pr_bind_out; [apply Hq|].
      rewrite (pr_bind_item _ "roughness" (VStr (base +:+ "_roughness.png")))
        by reflexivity.
      apply pr_bind_out; [apply Hq|].
      rewrite (pr_bind_item _ "metallic" (VStr (base +:+ "_metallic.png")))
        by reflexivity.
      apply pr_bind_out; [apply Hq|].
      rewrite (pr_bind_item _ "bump" (VStr (base +:+ "_bump.png")))
        by reflexivity.
      apply pr_bind_out; [apply Hq|].
      rewrite (pr_bind_err pr _ _ _ (prints_quiet pr _ _ Hq)). reflexivity. }
    unfold Pr.program. rewrite Hm. reflexivity.
  - split; [intros e' fs'; rewrite H; intros [= <- _]; exact He|].
    split; [intros r fs'; rewrite H; discriminate|].
    intros Hq. destruct He as [He|[He|He]]; rewrite Hq in He; discriminate.
Qed.

(** A chair, no write raising: the four lines.  And a machine where
    the import of the library raises, [stderr] being closed when the
    handler prints: the exception of line 176 reaches the caller. *)
Lemma materials_raise_only_in_the_handler_witness :
  MaterialPrinting.generate_materials Printing.broken_material (closed_at 176)
    "out/chair.ply" "red velvet" "out/materials" "pretrained_models" ∅
  = (inl OSError, ∅) /\
  (closed_at 176 176 = Some OSError \/ closed_at 176 177 = Some OSError \/
   closed_at 176 178 = Some OSError) /\
  (Pr.program
     (MaterialPrinting.main Printing.studio_material silent
        (Material.Args "out/chair.ply" "red velvet" "out/materials"
           "pretrained_models")) ∅).1
  = (Returns,
     ["ALBEDO: out/materials/chair_albedo.png";
      "ROUGHNESS: out/materials/chair_roughness.png";
      "METALLIC: out/materials/chair_metallic.png";
      "BUMP: out/materials/chair_bump.png"]) /\
  exists fs',
    Pr.program
      (MaterialPrinting.main Printing.studio_material silent
         (Material.Args "out/chair.ply" "red velvet" "out/materials"
            "pretrained_models")) ∅
    = (SysExit 1, [], fs') \/
    Pr.program
      (MaterialPrinting.main Printing.studio_material silent
         (Material.Args "out/chair.ply" "red velvet" "out/materials"
            "pretrained_models")) ∅
    = (Returns,
       ["ALBEDO: " +:+
          PosixPath.join "out/materials"
            (Material.stem Printing.studio_material "out/chair.ply")
          +:+ "_albedo.png";
        "ROUGHNESS: " +:+
          PosixPath.join "out/materials"
            (Material.stem Printing.studio_material "out/chair.ply")
          +:+ "_roughness.png";
        "METALLIC: " +:+
          PosixPath.join "out/materials"
            (Material.stem Printing.studio_material "out/chair.ply")
          +:+ "_metallic.png";
        "BUMP: " +:+
          PosixPath.join "out/materials"
            (Material.stem Printing.studio_material "out/chair.ply")
          +:+ "_bump.png"],
       fs').
Proof.
  split; [vm_compute; reflexivity|].
  split.
  { refine (proj1 (materials_raise_only_in_the_handler
              Printing.broken_material (closed_at 176) "out/chair.ply"
              "red velvet" "out/materials" "pretrained_models"
              (∅ : gmap string file)) OSError (∅ : gmap string file) _).
    vm_compute. reflexivity. }
  split; [vm_compute; reflexivity|].
  exact (proj2 (proj2 (materials_raise_only_in_the_handler
           Printing.studio_material silent "out/chair.ply" "red velvet"
           "out/materials" "pretrained_models" ∅)) quiet_silent).
Defined.


(** ** The generators with their prints *)

Section OnlyWrites.

Context (pr : printer).

Lemma only_writes_prints lines fs : only_writes pr (prints pr lines fs).
Proof.
  destruct (prints_cases pr lines fs) as [->|(e & He & ->)]; [exact I|exact He].
Qed.

Lemma only_writes_bind {A B} (m : M A) (k : A -> M B) fs :
  only_writes pr (m fs) ->
  (forall a fs1, m fs = (inr a, fs1) -> only_writes pr (k a fs1)) ->
  only_writes pr (bind m k fs).
Proof.
  intros Hm Hk. unfold bind.
  destruct (m fs) as [[e|a] fs1]; [exact Hm|]. by apply Hk.
Qed.

(** A [try] whose handler writes and raises again. *)
Lemma only_writes_reraise {A} (body : M A) lines fs :
  only_writes pr (body fs) ->
  only_writes pr
    (try_except body (fun e => prints pr lines ;; raise e)%io fs).
Proof.
  intros Hb. unfold try_except.
  destruct (body fs) as [[e|a] fs1]; [|exact I].
  unfold bind, raise.
  destruct (prints_cases pr lines fs1) as [->|(e' & He & ->)];
    [exact Hb|exact He].
Qed.

(** A [try] whose handler only writes. *)
Lemma only_writes_swallow (body : M unit) lines fs :
  only_writes pr (try_except body (fun _ => prints pr lines) fs).
Proof.
  unfold try_except. destruct (body fs) as [[e|a] fs1]; [|exact I].
  apply only_writes_prints.
Qed.

Lemma only_writes_quiet {A} (outcome : (exn + A) * gmap string file) :
  quiet pr -> only_writes pr outcome ->
  exists a fs', outcome = (inr a, fs').
Proof.
  intros Hq. destruct outcome as [[e|a] fs']; [|eauto].
  intros [l Hl]. rewrite Hq in Hl. discriminate.
Qed.

End OnlyWrites.

Section GeneratorFacts.

Context (fl : PyFloat) (rn : Printing.Run).

(** The USDZ step raises only what a write raises. *)
Lemma printing_export_usdz_writes off out fs :
  only_writes (Printing.print_err rn) (Printing.export_usdz fl rn off out fs).
Proof. apply only_writes_swallow. Qed.

(** Once the PLY file is written, so does the whole of the [try] of
    line 282. *)
Lemma printing_save_mesh_writes off out fs fs1 :
  Printing.mesh_export rn out fs = (inr tt, fs1) ->
  only_writes (Printing.print_err rn) (Printing.save_mesh fl rn off out fs).
Proof.
  intros He. apply only_writes_reraise.
  unfold bind at 1. rewrite He.
  apply only_writes_bind; [apply only_writes_prints|intros _ fs2 _].
  apply only_writes_bind; [apply only_writes_prints|intros _ fs3 _].
  apply printing_export_usdz_writes.
Qed.

(** When the PLY export raises, the [try] of line 282 raises. *)
Lemma printing_save_mesh_raises off out fs e fs1 :
  quiet (Printing.print_err rn) ->
  Printing.mesh_export rn out fs = (inl e, fs1) ->
  Printing.save_mesh fl rn off out fs = (inl e, fs1).
Proof.
  intros Hq He. unfold Printing.save_mesh, try_except, bind at 1. rewrite He.
  unfold bind, raise. rewrite (prints_quiet _ _ _ Hq). reflexivity.
Qed.

Lemma guarded_writes err done failed fs :
  err = None ->
  only_writes (Printing.print_err rn) (Printing.guarded rn err done failed fs).
Proof.
  intros ->. apply only_writes_reraise.
  unfold bind, stage. apply only_writes_prints.
Qed.

Lemma guarded_inr err done failed fs a fs' :
  Printing.guarded rn err done failed fs = (inr a, fs') -> fs' = fs.
Proof.
  unfold Printing.guarded, try_except, bind, stage, raise.
  destruct err as [e|].
  - destruct (prints_cases (Printing.print_err rn) failed fs)
      as [->|(? & _ & ->)]; discriminate.
  - destruct (prints_cases (Printing.print_err rn) done fs)
      as [->|(? & _ & ->)]; [by intros [= _ <-]|].
    destruct (prints_cases (Printing.print_err rn) failed fs)
      as [->|(? & _ & ->)]; discriminate.
Qed.

(** What [guarded] does when no write raises. *)
Lemma guarded_quiet err done failed fs :
  quiet (Printing.print_err rn) ->
  Printing.guarded rn err done failed fs =
  match err with
  | Some e => (inl e, fs)
  | None => (inr tt, fs)
  end.
Proof.
  intros Hq. unfold Printing.guarded, try_except, bind, stage, raise.
  destruct err as [e|]; rewrite (prints_quiet _ _ _ Hq); reflexivity.
Qed.

(** The lines on [stdout] when no write raises. *)
Lemma announce_quiet off out fs :
  quiet (Printing.print_err rn) ->
  Printing.announce rn off out fs =
  (inr tt,
   ("OUTPUT_PATH: " +:+ out)
     :: if bool_decide (is_Some (fs !! usdz_path out))
        then ["USDZ_PATH: " +:+ usdz_path out] else [],
   fs).
Proof.
  intros Hq. unfold Printing.announce.
  apply pr_bind_out; [apply Hq|].
  erewrite pr_bind_lift_inr; [|reflexivity].
  destruct (bool_decide (is_Some (fs !! usdz_path out))).
  - eapply (pr_bind_inr (Pr.out _ _ _) _ fs tt [_] fs).
    + unfold Pr.out. rewrite Hq. reflexivity.
    + unfold Pr.err, Pr.lift. rewrite (prints_quiet _ _ _ Hq). reflexivity.
  - rewrite pr_bind_ret.
    unfold Pr.err, Pr.lift. rewrite (prints_quiet _ _ _ Hq). reflexivity.
Qed.

(** The lines on [stdout]: a raise is the raise of a write. *)
Lemma announce_writes off out fs r printed fs' :
  Printing.announce rn off out fs = (inl r, printed, fs') ->
  exists e, r = Exn e /\ raised_by (Printing.print_err rn) e.
Proof.
  unfold Printing.announce, Pr.bind, Pr.out, Pr.lift, Os.path_exists, Pr.err, Pr.lift,
    Pr.ret.
  destruct (Printing.print_err rn (322 + off)) as [e|] eqn:E1.
  { intros [= <- _ _]. exists e. split; [reflexivity|by eexists]. }
  destruct (bool_decide (is_Some (fs !! usdz_path out))).
  - destruct (Printing.print_err rn (325 + off)) as [e|] eqn:E2.
    { intros [= <- _ _]. exists e. split; [reflexivity|by eexists]. }
    destruct (prints_cases (Printing.print_err rn) [326 + off] fs)
      as [->|(e & He & ->)]; [discriminate|].
    intros [= <- _ _]. eauto.
  - destruct (prints_cases (Printing.print_err rn) [326 + off] fs)
      as [->|(e & He & ->)]; [discriminate|].
    intros [= <- _ _]. eauto.
Qed.

(** What [text_mesh] returns is the path of the PLY file. *)
Lemma text_mesh_path prompt output_dir fs out fs' :
  Printing.text_mesh fl rn prompt output_dir fs = (inr out, fs') ->
  out = output_path output_dir (safe_prompt prompt).
Proof.
  unfold Printing.text_mesh. intros H.
  repeat (apply bind_inr in H as (? & ? & _ & H)).
  cbv zeta in H.
  repeat (apply bind_inr in H as (? & ? & _ & H)).
  by injection H as <- _.
Qed.

End GeneratorFacts.

(** X11. The USDZ step cannot fail the generation by itself.  Once the
    models are loaded, the sampling, the decoding and the creation of
    the directory have gone well and the PLY file is written, the only
    exceptions [generate_text_to_3d] can raise are those of its own
    writes to [stderr] and [stdout]: whatever the OBJ export, the
    conversion and the removal of the OBJ file do is caught (an
    exception of the conversion reaches the caller only as the exception
    of a write of the handler of lines 312-315).  When no write raises,
    the call returns the path of the PLY file and prints [OUTPUT_PATH],
    and [USDZ_PATH] exactly when a file exists at the archive path at
    the end. *)
Theorem usdz_step_never_fails_generation
    (fl : PyFloat) (rn : Printing.Run) (prompt output_dir : string)
    (fs fs0 fs1 : gmap string file) :
  Printing.setup_models rn false fs = (inr tt, fs0) ->
  Printing.sample_latents_err rn = None ->
  Printing.decode_latent_mesh_err rn = None ->
  Printing.makedirs_err rn output_dir = None ->
  Printing.mesh_export rn (output_path output_dir (safe_prompt prompt)) fs0
    = (inr tt, fs1) ->
  (forall r printed fs',
      Printing.generate_text_to_3d fl rn prompt output_dir fs
        = (inl r, printed, fs') ->
      exists e, r = Exn e /\ raised_by (Printing.print_err rn) e) /\
  (quiet (Printing.print_err rn) ->
   exists fs',
     Printing.generate_text_to_3d fl rn prompt output_dir fs =
     (inr (output_path output_dir (safe_prompt prompt)),
      ("OUTPUT_PATH: " +:+ output_path output_dir (safe_prompt prompt))
        :: if bool_decide
                (is_Some (fs' !! usdz_path
                            (output_path output_dir (safe_prompt prompt))))
           then ["USDZ_PATH: " +:+
                   usdz_path (output_path output_dir (safe_prompt prompt))]
           else [],
      fs')).
Proof.
  intros Hs H1 H2 H3 He.
  assert (Hw : only_writes (Printing.print_err rn)
                 (Printing.text_mesh fl rn prompt output_dir fs)).
  { unfold Printing.text_mesh. unfold bind at 1. rewrite Hs.
    apply only_writes_bind; [apply only_writes_prints|intros [] f1 E1].
    apply prints_inr in E1 as ->.
    apply only_writes_bind; [apply only_writes_prints|intros [] f2 E2].
    apply prints_inr in E2 as ->.
    apply only_writes_bind; [by apply guarded_writes|intros [] f3 E3].
    apply guarded_inr in E3 as ->.
    apply only_writes_bind; [apply only_writes_prints|intros [] f4 E4].
    apply prints_inr in E4 as ->.
    apply only_writes_bind; [by apply guarded_writes|intros [] f5 E5].
    apply guarded_inr in E5 as ->.
    unfold bind at 1, stage. rewrite H3. cbv zeta.
    apply only_writes_bind; [apply only_writes_prints|intros [] f6 E6].
    apply prints_inr in E6 as ->.
    apply only_writes_bind;
      [eapply printing_save_mesh_writes, He|intros [] f7 _; exact I]. }
  split.
  - intros r printed fs'. unfold Printing.generate_text_to_3d.
    destruct (Printing.text_mesh fl rn prompt output_dir fs)
      as [[e|out] f1] eqn:Et.
    + rewrite (pr_bind_lift_inl _ _ _ _ _ Et). intros [= <- _ _]. eauto.
    + rewrite (pr_bind_lift_inr _ _ _ _ _ Et). unfold Pr.bind.
      destruct (Printing.announce rn 0 out f1) as [[[r0|[]] l0] f2] eqn:Ea.
      * intros [= <- _ _]. eapply announce_writes, Ea.
      * discriminate.
  - intros Hq.
    destruct (only_writes_quiet _ _ Hq Hw) as (out & f1 & Et).
    pose proof (text_mesh_path fl rn _ _ _ _ _ Et) as ->.
    exists f1. unfold Printing.generate_text_to_3d.
    rewrite (pr_bind_lift_inr _ _ _ _ _ Et).
    unfold Pr.bind. rewrite (announce_quiet rn 0 _ f1 Hq).
    unfold Pr.ret. rewrite app_nil_r. reflexivity.
Qed.


(** The OBJ export fails.  When no write raises, the generation returns
    all the same and no archive is announced; when the first write of
    the handler of line 312 raises, that exception is the one the
    generation raises. *)
Lemma usdz_step_never_fails_generation_witness :
  Printing.generate_text_to_3d DecFloat.model
    (Printing.no_obj_run (closed_at 313)) "a red chair" "out" ∅
  = (inl (Exn OSError), [],
     <["out/a_red_chair.ply" := File Blob 4096]>
       {[ "cache/transmitter.pt" := File Blob 4096 ]}) /\
  exists fs',
    Printing.generate_text_to_3d DecFloat.model (Printing.no_obj_run silent)
      "a red chair" "out" ∅ =
    (inr (output_path "out" (safe_prompt "a red chair")),
     ("OUTPUT_PATH: " +:+ output_path "out" (safe_prompt "a red chair"))
       :: if bool_decide
               (is_Some (fs' !! usdz_path
                           (output_path "out" (safe_prompt "a red chair"))))
          then ["USDZ_PATH: " +:+
                  usdz_path (output_path "out" (safe_prompt "a red chair"))]
          else [],
     fs').
Proof.
  split; [vm_compute; reflexivity|].
  exact (proj2 (usdz_step_never_fails_generation DecFloat.model
                  (Printing.no_obj_run silent) "a red chair" "out"
                  (∅ : gmap string file)
                  ({[ "cache/transmitter.pt" := File Blob 4096 ]}
                     : gmap string file)
                  (<["out/a_red_chair.ply" := File Blob 4096]>
                     ({[ "cache/transmitter.pt" := File Blob 4096 ]}
                        : gmap string file))
                  eq_refl eq_refl eq_refl eq_refl eq_refl)
           quiet_silent).
Defined.

Section ImageFacts.

Context (fl : PyFloat) (rn : Printing.Run).

(** The [try] of line 408 when no write raises. *)
Lemma printing_save_mesh_quiet off out fs :
  quiet (Printing.print_err rn) ->
  match Printing.mesh_export rn out fs with
  | (inl e, fs1) => Printing.save_mesh fl rn off out fs = (inl e, fs1)
  | (inr _, _) => exists fs', Printing.save_mesh fl rn off out fs = (inr tt, fs')
  end.
Proof.
  intros Hq.
  destruct (Printing.mesh_export rn out fs) as [[e|[]] fs1] eqn:He.
  - by apply printing_save_mesh_raises.
  - destruct (only_writes_quiet _ _ Hq
                (printing_save_mesh_writes fl rn off out fs fs1 He))
      as ([] & fs' & H).
    eauto.
Qed.

(** [image_mesh] when no write raises. *)
Lemma image_mesh_quiet image_path prompt output_dir fs :
  quiet (Printing.print_err rn) ->
  Printing.image_mesh fl rn image_path prompt output_dir fs =
  match Printing.setup_models rn true fs with
  | (inl e, fs0) => (inl e, fs0)
  | (inr _, fs0) =>
      match fs0 !! image_path with
      | None => (inl FileNotFoundError, fs0)
      | Some _ =>
          match Printing.load_image_err rn image_path with
          | Some e => (inl e, fs0)
          | None =>
          match Printing.sample_latents_err rn with
          | Some e => (inl e, fs0)
          | None =>
          match Printing.decode_latent_mesh_err rn with
          | Some e => (inl e, fs0)
          | None =>
          match Printing.makedirs_err rn output_dir with
          | Some e => (inl e, fs0)
          | None =>
          match Printing.save_mesh fl rn 126
                  (output_path output_dir
                     (safe_name (Printing.stem rn image_path))) fs0 with
          | (inl e, f) => (inl e, f)
          | (inr _, f) =>
              (inr (output_path output_dir
                      (safe_name (Printing.stem rn image_path))), f)
          end end end end end
      end
  end.
Proof.
  intros Hq. unfold Printing.image_mesh, bind, Os.path_exists, raise, ret, stage.
  destruct (Printing.setup_models rn true fs) as [[e|[]] fs0]; [reflexivity|].
  destruct (fs0 !! image_path) as [f|] eqn:Hi.
  2:{ rewrite bool_decide_eq_false_2 by (intros [? ?]; discriminate).
      reflexivity. }
  rewrite bool_decide_eq_true_2 by eauto. cbn [negb].
  rewrite (prints_quiet _ _ _ Hq). cbv beta iota.
  rewrite (prints_quiet _ _ _ Hq). cbv beta iota.
  destruct (Printing.load_image_err rn image_path) as [e|]; [reflexivity|].
  rewrite (prints_quiet _ _ _ Hq). cbv beta iota.
  rewrite (prints_quiet _ _ _ Hq). cbv beta iota.
  rewrite (guarded_quiet rn _ _ _ _ Hq).
  destruct (Printing.sample_latents_err rn) as [e|]; [reflexivity|].
  rewrite (prints_quiet _ _ _ Hq). cbv beta iota.
  rewrite (guarded_quiet rn _ _ _ _ Hq).
  destruct (Printing.decode_latent_mesh_err rn) as [e|]; [reflexivity|].
  destruct (Printing.makedirs_err rn output_dir) as [e|]; [reflexivity|].
  cbv zeta. rewrite (prints_quiet _ _ _ Hq). cbv beta iota.
  destruct (Printing.save_mesh fl rn 126 _ fs0) as [[e|[]] f']; reflexivity.
Qed.

End ImageFacts.

(** X13. What makes the generation from an image fail, when no write
    raises.  The models are loaded first, and an exception of
    [setup_models] is raised whether the image exists or not.  The image
    is looked for in the files as [setup_models] left them: when it is
    missing the call raises [FileNotFoundError] and nothing else has
    changed.  After that the call raises the exception of the first of
    [load_image], [sample_latents], [decode_latent_mesh],
    [os.makedirs] and the PLY export that raises, and if none does it
    returns the path of the PLY file and prints [OUTPUT_PATH]: nothing
    in the USDZ step makes it raise. *)
Theorem image_generation_outcomes
    (fl : PyFloat) (rn : Printing.Run) (image_path prompt output_dir : string)
    (fs : gmap string file) :
  quiet (Printing.print_err rn) ->
  let out := output_path output_dir (safe_name (Printing.stem rn image_path)) in
  let call := Printing.generate_image_to_3d fl rn image_path prompt output_dir fs in
  match Printing.setup_models rn true fs with
  | (inl e, fs0) => call = (inl (Exn e), [], fs0)
  | (inr _, fs0) =>
      match fs0 !! image_path with
      | None => call = (inl (Exn FileNotFoundError), [], fs0)
      | Some _ =>
          match Printing.load_image_err rn image_path with
          | Some e => call = (inl (Exn e), [], fs0)
          | None =>
          match Printing.sample_latents_err rn with
          | Some e => call = (inl (Exn e), [], fs0)
          | None =>
          match Printing.decode_latent_mesh_err rn with
          | Some e => call = (inl (Exn e), [], fs0)
          | None =>
          match Printing.makedirs_err rn output_dir with
          | Some e => call = (inl (Exn e), [], fs0)
          | None =>
          match Printing.mesh_export rn out fs0 with
          | (inl e, fs1) => call = (inl (Exn e), [], fs1)
          | (inr _, _) =>
              exists fs',
                call =
                (inr out,
                 ("OUTPUT_PATH: " +:+ out)
                   :: if bool_decide (is_Some (fs' !! usdz_path out))
                      then ["USDZ_PATH: " +:+ usdz_path out] else [],
                 fs')
          end end end end end
      end
  end.
Proof.
  intros Hq out call. unfold call, Printing.generate_image_to_3d.
  pose proof (image_mesh_quiet fl rn image_path prompt output_dir fs Hq) as Hm.
  fold out in Hm.
  destruct (Printing.setup_models rn true fs) as [[e|[]] fs0];
    [by rewrite (pr_bind_lift_inl _ _ _ _ _ Hm)|].
  destruct (fs0 !! image_path) as [f|];
    [|by rewrite (pr_bind_lift_inl _ _ _ _ _ Hm)].
  destruct (Printing.load_image_err rn image_path) as [e|];
    [by rewrite (pr_bind_lift_inl _ _ _ _ _ Hm)|].
  destruct (Printing.sample_latents_err rn) as [e|];
    [by rewrite (pr_bind_lift_inl _ _ _ _ _ Hm)|].
  destruct (Printing.decode_latent_mesh_err rn) as [e|];
    [by rewrite (pr_bind_lift_inl _ _ _ _ _ Hm)|].
  destruct (Printing.makedirs_err rn output_dir) as [e|];
    [by rewrite (pr_bind_lift_inl _ _ _ _ _ Hm)|].
  pose proof (printing_save_mesh_quiet fl rn 126 out fs0 Hq) as Hsave.
  destruct (Printing.mesh_export rn out fs0) as [[e|[]] fs1].
  - rewrite Hsave in Hm. by rewrite (pr_bind_lift_inl _ _ _ _ _ Hm).
  - destruct Hsave as (fs' & Hsave). rewrite Hsave in Hm. exists fs'.
    rewrite (pr_bind_lift_inr _ _ _ _ _ Hm).
    unfold Pr.bind. rewrite (announce_quiet rn 126 _ fs' Hq).
    unfold Pr.ret. rewrite app_nil_r. reflexivity.
Qed.


(** An image that is missing, and one that is there. *)
Lemma image_generation_outcomes_witness :
  Printing.generate_image_to_3d DecFloat.model (Printing.studio_run silent)
    "photos/chair.jpg" "" "out" ∅
  = (inl (Exn FileNotFoundError), [],
     {[ "cache/transmitter.pt" := File Blob 4096 ]}) /\
  exists fs',
    Printing.generate_image_to_3d DecFloat.model (Printing.studio_run silent)
      "photos/chair.jpg" "" "out"
      {[ "photos/chair.jpg" := File Blob 1000 ]}
    = (inr "out/chair.ply",
       "OUTPUT_PATH: out/chair.ply"
         :: if bool_decide (is_Some (fs' !! "out/chair.usdz"))
            then ["USDZ_PATH: out/chair.usdz"] else [],
       fs').
Proof.
  split.
  - exact (image_generation_outcomes DecFloat.model
             (Printing.studio_run silent) "photos/chair.jpg" "" "out"
             (∅ : gmap string file) quiet_silent).
  - exact (image_generation_outcomes DecFloat.model
             (Printing.studio_run silent) "photos/chair.jpg" "" "out"
             ({[ "photos/chair.jpg" := File Blob 1000 ]} : gmap string file)
             quiet_silent).
Defined.

(** ** The command line of the generator *)

Section MainFacts.

Lemma endswith_app (suffix s : string) :
  PyStr.endswith suffix (s +:+ suffix) = true.
Proof.
  induction s as [|c s IH].
  - change ("" +:+ suffix) with suffix.
    destruct suffix; cbn [PyStr.endswith]; by rewrite String.eqb_refl.
  - rewrite append_cons. cbn [PyStr.endswith].
    destruct (String.eqb (String c (s +:+ suffix)) suffix); [reflexivity|].
    exact IH.
Qed.

(** The path of the PLY file ends in [.ply]. *)
Lemma output_path_ends_ply (output_dir name : string) :
  PyStr.endswith ".ply" (output_path output_dir name) = true.
Proof.
  unfold output_path, PosixPath.join.
  destruct (Py.startswith "/" (name +:+ ".ply")); [apply endswith_app|].
  destruct (String.eqb output_dir "" || PyStr.endswith "/" output_dir).
  - rewrite <- append_assoc. apply endswith_app.
  - rewrite <- !append_assoc. apply endswith_app.
Qed.

Context (fl : PyFloat) (sh : Printing.Shell).

(** What [generate_text_to_3d] returns is the path of the PLY file. *)
Lemma generate_text_path prompt output_dir fs out printed fs1 :
  Printing.generate_text_to_3d fl (Printing.run sh) prompt output_dir fs
    = (inr out, printed, fs1) ->
  out = output_path output_dir (safe_prompt prompt).
Proof.
  unfold Printing.generate_text_to_3d.
  destruct (Printing.text_mesh fl (Printing.run sh) prompt output_dir fs)
    as [[e|p] f1] eqn:Et.
  - rewrite (pr_bind_lift_inl _ _ _ _ _ Et). discriminate.
  - rewrite (pr_bind_lift_inr _ _ _ _ _ Et).
    pose proof (text_mesh_path fl _ _ _ _ _ _ Et) as ->.
    unfold Pr.bind.
    destruct (Printing.announce _ 0 _ f1) as [[[r|[]] l] f2]; [discriminate|].
    unfold Pr.ret. by intros [= <- _ _].
Qed.

(** The material step on a success dictionary, when the writes of
    [main] do not raise. *)
Lemma material_step_success a out fs1 fs2 :
  let base :=
    PosixPath.join (PosixPath.join (Printing.output a) "materials")
      (Material.stem (Printing.material sh) out) in
  quiet (Printing.print_err (Printing.run sh)) ->
  Printing.import_material_generator sh = Printing.Loaded ->
  MaterialPrinting.generate_materials (Printing.material sh)
    (Printing.material_print_err sh) out (Printing.prompt a)
    (PosixPath.join (Printing.output a) "materials") "pretrained_models" fs1
  = (inr (Material.success (base +:+ "_albedo.png")
            (base +:+ "_roughness.png") (base +:+ "_metallic.png")
            (base +:+ "_bump.png")), fs2) ->
  Printing.material_step sh a out fs1 =
  (inr None,
   ["MATERIAL_ALBEDO: " +:+ base +:+ "_albedo.png";
    "MATERIAL_ROUGHNESS: " +:+ base +:+ "_roughness.png";
    "MATERIAL_METALLIC: " +:+ base +:+ "_metallic.png";
    "MATERIAL_BUMP: " +:+ base +:+ "_bump.png"], fs2).
Proof.
  intros base Hq Hi H. unfold Printing.material_step. rewrite Hi.
  unfold Pr.try_except.
  assert (Hb :
    (material_result <-
       Pr.lift (MaterialPrinting.generate_materials (Printing.material sh)
                  (Printing.material_print_err sh) out (Printing.prompt a)
                  (PosixPath.join (Printing.output a) "materials")
                  "pretrained_models") ;;
     if match material_result !! "success" with
        | Some v => truthy v
        | None => false
        end
     then
       Pr.err (Printing.print_err (Printing.run sh)) [499] ;;
       albedo <- Pr.item material_result "albedo" ;;
       Pr.out (Printing.print_err (Printing.run sh)) 500
         ("MATERIAL_ALBEDO: " +:+ format_value albedo) ;;
       roughness <- Pr.item material_result "roughness" ;;
       Pr.out (Printing.print_err (Printing.run sh)) 501
         ("MATERIAL_ROUGHNESS: " +:+ format_value roughness) ;;
       metallic <- Pr.item material_result "metallic" ;;
       Pr.out (Printing.print_err (Printing.run sh)) 502
         ("MATERIAL_METALLIC: " +:+ format_value metallic) ;;
       bump <- Pr.item material_result "bump" ;;
       Pr.out (Printing.print_err (Printing.run sh)) 503
         ("MATERIAL_BUMP: " +:+ format_value bump) ;;
       Pr.err (Printing.print_err (Printing.run sh)) [504] ;;
       Pr.ret None
     else
       Pr.err (Printing.print_err (Printing.run sh)) [506; 507; 508] ;;
       Pr.ret (@None Z))%pr fs1
    = (inr None,
       ["MATERIAL_ALBEDO: " +:+ base +:+ "_albedo.png";
        "MATERIAL_ROUGHNESS: " +:+ base +:+ "_roughness.png";
        "MATERIAL_METALLIC: " +:+ base +:+ "_metallic.png";
        "MATERIAL_BUMP: " +:+ base +:+ "_bump.png"], fs2)).
  { rewrite (pr_bind_lift_inr _ _ _ _ _ H).
    change (Material.success (base +:+ "_albedo.png")
              (base +:+ "_roughness.png") (base +:+ "_metallic.png")
              (base +:+ "_bump.png") !! "success")
      with (Some (VBool true)).
    cbn [truthy].
    rewrite (pr_bind_err _ _ _ _ (prints_quiet _ _ _ Hq)).
    rewrite (pr_bind_item _ "albedo" (VStr (base +:+ "_albedo.png")))
      by reflexivity.
    apply pr_bind_out; [apply Hq|].
    rewrite (pr_bind_item _ "roughness" (VStr (base +:+ "_roughness.png")))
      by reflexivity.
    apply pr_bind_out; [apply Hq|].
    rewrite (pr_bind_item _ "metallic" (VStr (base +:+ "_metallic.png")))
      by reflexivity.
    apply pr_bind_out; [apply Hq|].
    rewrite (pr_bind_item _ "bump" (VStr (base +:+ "_bump.png")))
      by reflexivity.
    apply pr_bind_out; [apply Hq|].
    rewrite (pr_bind_err _ _ _ _ (prints_quiet _ _ _ Hq)). reflexivity. }
  rewrite Hb. reflexivity.
Qed.

(** The material step when the writes of [main] do not raise: the four
    lines or none, and no exception. *)
Lemma material_step_quiet a out fs1 :
  quiet (Printing.print_err (Printing.run sh)) ->
  match Printing.import_material_generator sh with
  | Printing.Exits code =>
      Printing.material_step sh a out fs1 = (inr (Some code), [], fs1)
  | _ =>
      exists more fs2,
        Printing.material_step sh a out fs1 = (inr None, more, fs2) /\
        (more = [] \/
         more =
           ["MATERIAL_ALBEDO: " +:+
              PosixPath.join (PosixPath.join (Printing.output a) "materials")
                (Material.stem (Printing.material sh) out) +:+ "_albedo.png";
            "MATERIAL_ROUGHNESS: " +:+
              PosixPath.join (PosixPath.join (Printing.output a) "materials")
                (Material.stem (Printing.material sh) out) +:+ "_roughness.png";
            "MATERIAL_METALLIC: " +:+
              PosixPath.join (PosixPath.join (Printing.output a) "materials")
                (Material.stem (Printing.material sh) out) +:+ "_metallic.png";
            "MATERIAL_BUMP: " +:+
              PosixPath.join (PosixPath.join (Printing.output a) "materials")
                (Material.stem (Printing.material sh) out) +:+ "_bump.png"])
  end.
Proof.
  intros Hq.
  destruct (Printing.import_material_generator sh) as [| |code|e] eqn:Hi.
  - set (base := PosixPath.join
                   (PosixPath.join (Printing.output a) "materials")
                   (Material.stem (Printing.material sh) out)).
    destruct (material_generate_cases (Printing.material sh)
                (Printing.material_print_err sh) out (Printing.prompt a)
                (PosixPath.join (Printing.output a) "materials")
                "pretrained_models" fs1)
      as [(msg & fs2 & H)|[(fs2 & H)|(e & fs2 & _ & H)]]; fold base in H.
    + exists [], fs2. split; [|by left].
      unfold Printing.material_step. rewrite Hi. unfold Pr.try_except.
      rewrite (pr_bind_lift_inr _ _ _ _ _ H).
      change (failure msg !! "success") with (Some (VBool false)).
      cbn [truthy].
      rewrite (pr_bind_err _ _ _ _ (prints_quiet _ _ _ Hq)). reflexivity.
    + eexists _, fs2. split; [|by right].
      exact (material_step_success a out fs1 fs2 Hq Hi H).
    + exists [], fs2. split; [|by left].
      unfold Printing.material_step. rewrite Hi. unfold Pr.try_except.
      rewrite (pr_bind_lift_inl _ _ _ _ _ H).
      rewrite (pr_bind_err _ _ _ _ (prints_quiet _ _ _ Hq)). reflexivity.
  - exists [], fs1. split; [|by left].
    unfold Printing.material_step. rewrite Hi.
    rewrite (pr_bind_err _ _ _ _ (prints_quiet _ _ _ Hq)). reflexivity.
  - unfold Printing.material_step. rewrite Hi. reflexivity.
  - exists [], fs1. split; [|by left].
    unfold Printing.material_step. rewrite Hi.
    rewrite (pr_bind_err _ _ _ _ (prints_quiet _ _ _ Hq)). reflexivity.
Qed.

(** [main] after a generation that returned, when its writes do not
    raise. *)
Lemma main_after_generation a generate fs out printed fs1 code more fs2 :
  quiet (Printing.print_err (Printing.run sh)) ->
  Printing.generation fl sh a = Some generate ->
  generate fs = (inr out, printed, fs1) ->
  Printing.generate_materials a = true ->
  Printing.material_step sh a out fs1 = (inr code, more, fs2) ->
  Pr.program (Printing.main fl sh a) fs =
  (match code with
   | Some c => SysExit c
   | None => Returns
   end, printed ++ more, fs2).
Proof.
  intros Hq Hg Hr Hm Hs.
  unfold Pr.program, Printing.main, Pr.try_except.
  assert (Hb : Printing.body fl sh a fs = (inr code, printed ++ more, fs2)).
  { unfold Printing.body. rewrite Hg.
    eapply pr_bind_inr; [exact Hr|].
    unfold Printing.after_generation.
    rewrite (pr_bind_err _ _ _ _ (prints_quiet _ _ _ Hq)). rewrite Hm.
    rewrite (pr_bind_err _ _ _ _ (prints_quiet _ _ _ Hq)). exact Hs. }
  unfold Pr.bind at 1. rewrite Hb. unfold Pr.ret.
  rewrite app_nil_r. reflexivity.
Qed.

(** The USDZ step when the conversion returns [True] and no write
    raises: the intermediate OBJ file is gone. *)
Lemma printing_export_usdz_removes off out fs fso fsc :
  quiet (Printing.print_err (Printing.run sh)) ->
  Printing.remove_err (Printing.run sh) = None ->
  Printing.mesh_export (Printing.run sh) (obj_path out) fs = (inr tt, fso) ->
  Printing.convert_to_usdz fl (Printing.packager (Printing.run sh))
    (Printing.print_err (Printing.run sh)) (obj_path out) (usdz_path out) fso
  = (inr true, fsc) ->
  Printing.export_usdz fl (Printing.run sh) off out fs
  = (inr tt, delete (obj_path out) fsc).
Proof.
  intros Hq Hr He Hc.
  unfold Printing.export_usdz, try_except.
  unfold bind at 1. rewrite He.
  unfold bind at 1. rewrite Hc.
  unfold bind at 1. rewrite (prints_quiet _ _ _ Hq).
  unfold Printing.os_remove. rewrite Hr.
  destruct (fsc !! obj_path out) as [f|] eqn:Hf; [reflexivity|].
  unfold ret. by rewrite (delete_id _ _ Hf).
Qed.

(** [generate_text_to_3d] when nothing fails and the conversion returns
    [True]. *)
Lemma generate_text_converted prompt output_dir fs fs0 fsp fso fsc :
  let out := output_path output_dir (safe_prompt prompt) in
  quiet (Printing.print_err (Printing.run sh)) ->
  Printing.setup_models (Printing.run sh) false fs = (inr tt, fs0) ->
  Printing.sample_latents_err (Printing.run sh) = None ->
  Printing.decode_latent_mesh_err (Printing.run sh) = None ->
  Printing.makedirs_err (Printing.run sh) output_dir = None ->
  Printing.mesh_export (Printing.run sh) out fs0 = (inr tt, fsp) ->
  Printing.mesh_export (Printing.run sh) (obj_path out) fsp = (inr tt, fso) ->
  Printing.convert_to_usdz fl (Printing.packager (Printing.run sh))
    (Printing.print_err (Printing.run sh)) (obj_path out) (usdz_path out) fso
  = (inr true, fsc) ->
  Printing.remove_err (Printing.run sh) = None ->
  Printing.generate_text_to_3d fl (Printing.run sh) prompt output_dir fs =
  (inr out,
   ("OUTPUT_PATH: " +:+ out)
     :: if bool_decide
             (is_Some (delete (obj_path out) fsc !! usdz_path out))
        then ["USDZ_PATH: " +:+ usdz_path out] else [],
   delete (obj_path out) fsc).
Proof.
  intros out Hq Hs Hl Hd Hm Hp Ho Hc Hr.
  assert (Hsave : Printing.save_mesh fl (Printing.run sh) 0 out fs0
                  = (inr tt, delete (obj_path out) fsc)).
  { unfold Printing.save_mesh, try_except.
    unfold bind at 1. rewrite Hp.
    unfold bind at 1. rewrite (prints_quiet _ _ _ Hq).
    unfold bind at 1. rewrite (prints_quiet _ _ _ Hq).
    rewrite (printing_export_usdz_removes 0 out fsp fso fsc Hq Hr Ho Hc).
    reflexivity. }
  assert (Ht : Printing.text_mesh fl (Printing.run sh) prompt output_dir fs
               = (inr out, delete (obj_path out) fsc)).
  { unfold Printing.text_mesh.
    unfold bind at 1. rewrite Hs.
    unfold bind at 1. rewrite (prints_quiet _ _ _ Hq).
    unfold bind at 1. rewrite (prints_quiet _ _ _ Hq).
    unfold bind at 1. rewrite (guarded_quiet _ _ _ _ _ Hq), Hl.
    unfold bind at 1. rewrite (prints_quiet _ _ _ Hq).
    unfold bind at 1. rewrite (guarded_quiet _ _ _ _ _ Hq), Hd.
    unfold bind at 1, stage at 1. rewrite Hm.
    cbv zeta. fold out.
    unfold bind at 1. rewrite (prints_quiet _ _ _ Hq).
    unfold bind at 1. rewrite Hsave. reflexivity. }
  unfold Printing.generate_text_to_3d.
  rewrite (pr_bind_lift_inr _ _ _ _ _ Ht).
  unfold Pr.bind. rewrite (announce_quiet _ _ _ _ Hq). unfold Pr.ret.
  rewrite app_nil_r. reflexivity.
Qed.

(** [generate_materials] on a PLY file when nothing fails. *)
Lemma generate_materials_converts mesh_path prompt output_dir fs1 fs2 :
  let menv := Printing.material sh in
  let base := PosixPath.join output_dir (Material.stem menv mesh_path) in
  quiet (Printing.material_print_err sh) ->
  PyStr.endswith ".ply" mesh_path = true ->
  Material.isdir menv "pretrained_models/material_estimator" = true ->
  Material.import_lib menv = Imported ->
  Material.get_image2materials_err menv = None ->
  Material.trimesh_load_err menv mesh_path fs1 = None ->
  Material.mesh_export menv (obj_path mesh_path) fs1 = (inr tt, fs2) ->
  Material.makedirs_err menv = None ->
  (forall p f, Material.save_raises menv p f = None) ->
  MaterialPrinting.generate_materials menv (Printing.material_print_err sh)
    mesh_path prompt output_dir "pretrained_models" fs1
  = (inr (Material.success (base +:+ "_albedo.png")
            (base +:+ "_roughness.png") (base +:+ "_metallic.png")
            (base +:+ "_bump.png")),
     <[base +:+ "_bump.png" := Material.png menv Material.bump]>
       (<[base +:+ "_metallic.png" := Material.png menv Material.metallic]>
          (<[base +:+ "_roughness.png" := Material.png menv Material.roughness]>
             (<[base +:+ "_albedo.png" := Material.png menv Material.albedo]>
                fs2)))).
Proof.
  intros menv base Hq Hply Hdir Hlib Hget Hload Hexp Hmk Hsave.
  unfold MaterialPrinting.generate_materials, try_except.
  unfold bind at 1, Material.path_exists at 1.
  change (PosixPath.join "pretrained_models" "material_estimator")
    with "pretrained_models/material_estimator".
  fold menv. rewrite Hdir, orb_true_r. cbn [negb]. cbv zeta.
  unfold bind at 1. rewrite (print_at_quiet _ _ _ Hq).
  rewrite Hlib.
  unfold bind at 1. rewrite (prints_quiet _ _ _ Hq).
  unfold bind at 1, stage at 1. rewrite Hget.
  unfold bind at 1. rewrite (prints_quiet _ _ _ Hq).
  unfold bind at 1, MaterialPrinting.ply_to_obj. rewrite Hply.
  unfold bind at 1, Material.trimesh_load at 1. rewrite Hload.
  unfold bind at 1. fold (obj_path mesh_path). rewrite Hexp.
  rewrite (prints_quiet _ _ _ Hq).
  unfold bind at 1, stage at 1. rewrite Hmk.
  unfold bind at 1.
  assert (Hma : forall d f,
             MaterialPrinting.material_anything
               (Printing.material_print_err sh) d f = (inr tt, f)).
  { intros d f. unfold MaterialPrinting.material_anything, try_except.
    destruct d; rewrite (prints_quiet _ _ _ Hq); reflexivity. }
  rewrite Hma. fold base.
  unfold bind at 1, MaterialPrinting.simplified. cbv zeta.
  unfold bind at 1. rewrite (prints_quiet _ _ _ Hq).
  unfold bind at 1, Material.save at 1. rewrite Hsave.
  unfold bind at 1, Material.save at 1. rewrite Hsave.
  unfold bind at 1, Material.save at 1. rewrite Hsave.
  unfold bind at 1, Material.save at 1. rewrite Hsave.
  unfold bind at 1. rewrite (prints_quiet _ _ _ Hq).
  reflexivity.
Qed.

End MainFacts.

(** X20. The material step never fails [main], as long as the writes of
    [main] do not raise.  Once the generation has returned, [main]
    prints the lines of the generator first and then either the four
    [MATERIAL_] lines or none of them, and returns, whatever
    [generate_materials] does, an exception of its handler included.
    The one exception is the import of [material_generator] ending in
    [sys.exit]: the program then stops with that status although the
    model has been generated. *)
Theorem material_step_never_fails_main
    (fl : PyFloat) (sh : Printing.Shell) (a : Printing.args)
    (generate : P string)
    (fs fs1 : gmap string file) (out : string) (printed : list string) :
  let base :=
    PosixPath.join (PosixPath.join (Printing.output a) "materials")
      (Material.stem (Printing.material sh) out) in
  quiet (Printing.print_err (Printing.run sh)) ->
  Printing.generation fl sh a = Some generate ->
  generate fs = (inr out, printed, fs1) ->
  Printing.generate_materials a = true ->
  match Printing.import_material_generator sh with
  | Printing.Exits code =>
      Pr.program (Printing.main fl sh a) fs = (SysExit code, printed, fs1)
  | _ =>
      exists more fs2,
        Pr.program (Printing.main fl sh a) fs = (Returns, printed ++ more, fs2) /\
        (more = [] \/
         more = ["MATERIAL_ALBEDO: " +:+ base +:+ "_albedo.png";
                 "MATERIAL_ROUGHNESS: " +:+ base +:+ "_roughness.png";
                 "MATERIAL_METALLIC: " +:+ base +:+ "_metallic.png";
                 "MATERIAL_BUMP: " +:+ base +:+ "_bump.png"])
  end.
Proof.
  intros base Hq Hg Hr Hm.
  pose proof (material_step_quiet sh a out fs1 Hq) as Hs. fold base in Hs.
  destruct (Printing.import_material_generator sh) as [| |code|e].
  - destruct Hs as (more & fs2 & Hs & Hmore). exists more, fs2.
    split; [|exact Hmore].
    exact (main_after_generation fl sh a generate fs out printed fs1
             None more fs2 Hq Hg Hr Hm Hs).
  - destruct Hs as (more & fs2 & Hs & Hmore). exists more, fs2.
    split; [|exact Hmore].
    exact (main_after_generation fl sh a generate fs out printed fs1
             None more fs2 Hq Hg Hr Hm Hs).
  - rewrite (main_after_generation fl sh a generate fs out printed fs1
               (Some code) [] fs1 Hq Hg Hr Hm Hs).
    by rewrite app_nil_r.
  - destruct Hs as (more & fs2 & Hs & Hmore). exists more, fs2.
    split; [|exact Hmore].
    exact (main_after_generation fl sh a generate fs out printed fs1
             None more fs2 Hq Hg Hr Hm Hs).
Qed.


(** A run with [--generate-materials] on a machine where the import of
    [material_generator] ends in [sys.exit(1)], and on one where it
    works. *)
Lemma material_step_never_fails_main_witness :
  Pr.program (Printing.main DecFloat.model (Printing.no_torch silent)
                Printing.chair) ∅
  = (SysExit 1,
     ["OUTPUT_PATH: out/a_red_chair.ply"; "USDZ_PATH: out/a_red_chair.usdz"],
     Printing.chair_files) /\
  exists more fs2,
    Pr.program (Printing.main DecFloat.model (Printing.studio silent)
                  Printing.chair) ∅
    = (Returns,
       ["OUTPUT_PATH: out/a_red_chair.ply";
        "USDZ_PATH: out/a_red_chair.usdz"] ++ more, fs2) /\
    (more = [] \/
     more = ["MATERIAL_ALBEDO: out/materials/a_red_chair_albedo.png";
             "MATERIAL_ROUGHNESS: out/materials/a_red_chair_roughness.png";
             "MATERIAL_METALLIC: out/materials/a_red_chair_metallic.png";
             "MATERIAL_BUMP: out/materials/a_red_chair_bump.png"]).
Proof.
  split.
  - refine (material_step_never_fails_main DecFloat.model
              (Printing.no_torch silent) Printing.chair
              (Printing.generate_text_to_3d DecFloat.model
                 (Printing.studio_run silent) "a red chair" "out")
              (∅ : gmap string file) Printing.chair_files
              "out/a_red_chair.ply"
              ["OUTPUT_PATH: out/a_red_chair.ply";
               "USDZ_PATH: out/a_red_chair.usdz"]
              quiet_silent eq_refl _ eq_refl).
    vm_compute. reflexivity.
  - refine (material_step_never_fails_main DecFloat.model
              (Printing.studio silent) Printing.chair
              (Printing.generate_text_to_3d DecFloat.model
                 (Printing.studio_run silent) "a red chair" "out")
              (∅ : gmap string file) Printing.chair_files
              "out/a_red_chair.ply"
              ["OUTPUT_PATH: out/a_red_chair.ply";
               "USDZ_PATH: out/a_red_chair.usdz"]
              quiet_silent eq_refl _ eq_refl).
    vm_compute. reflexivity.
Defined.

(** X19. The material module converts the generated mesh again.  In
    text mode with [--generate-materials], when nothing fails and
    [convert_to_usdz] returns [True], [generate_text_to_3d] returns a
    path that ends in [.ply] and leaves no file at the path of its
    intermediate OBJ file, which it has written and removed; [main]
    then calls [generate_materials] on the returned path, and the
    module loads the PLY file and exports it as OBJ to that very path
    before it saves the four maps. *)
Theorem generated_mesh_is_converted_again
    (fl : PyFloat) (sh : Printing.Shell) (a : Printing.args)
    (fs fs0 fsp fso fsc fs2 : gmap string file) :
  let rn := Printing.run sh in
  let menv := Printing.material sh in
  let out :=
    output_path (Printing.output a) (safe_prompt (Printing.prompt a)) in
  let fs1 := delete (obj_path out) fsc in
  let base :=
    PosixPath.join (PosixPath.join (Printing.output a) "materials")
      (Material.stem menv out) in
  let lines :=
    ("OUTPUT_PATH: " +:+ out)
      :: if bool_decide (is_Some (fs1 !! usdz_path out))
         then ["USDZ_PATH: " +:+ usdz_path out] else [] in
  quiet (Printing.print_err rn) ->
  quiet (Printing.material_print_err sh) ->
  Printing.mode_of a = Printing.text ->
  Printing.generate_materials a = true ->
  Printing.setup_models rn false fs = (inr tt, fs0) ->
  Printing.sample_latents_err rn = None ->
  Printing.decode_latent_mesh_err rn = None ->
  Printing.makedirs_err rn (Printing.output a) = None ->
  Printing.mesh_export rn out fs0 = (inr tt, fsp) ->
  Printing.mesh_export rn (obj_path out) fsp = (inr tt, fso) ->
  Printing.convert_to_usdz fl (Printing.packager rn) (Printing.print_err rn)
    (obj_path out) (usdz_path out) fso = (inr true, fsc) ->
  Printing.remove_err rn = None ->
  Printing.import_material_generator sh = Printing.Loaded ->
  Material.isdir menv "pretrained_models/material_estimator" = true ->
  Material.import_lib menv = Imported ->
  Material.get_image2materials_err menv = None ->
  Material.trimesh_load_err menv out fs1 = None ->
  Material.mesh_export menv (obj_path out) fs1 = (inr tt, fs2) ->
  Material.makedirs_err menv = None ->
  (forall p f, Material.save_raises menv p f = None) ->
  PyStr.endswith ".ply" out = true /\
  Printing.generate_text_to_3d fl rn (Printing.prompt a) (Printing.output a) fs
    = (inr out, lines, fs1) /\
  fs1 !! obj_path out = None /\
  Pr.program (Printing.main fl sh a) fs =
  (Returns,
   lines ++ ["MATERIAL_ALBEDO: " +:+ base +:+ "_albedo.png";
             "MATERIAL_ROUGHNESS: " +:+ base +:+ "_roughness.png";
             "MATERIAL_METALLIC: " +:+ base +:+ "_metallic.png";
             "MATERIAL_BUMP: " +:+ base +:+ "_bump.png"],
   <[base +:+ "_bump.png" := Material.png menv Material.bump]>
     (<[base +:+ "_metallic.png" := Material.png menv Material.metallic]>
        (<[base +:+ "_roughness.png" := Material.png menv Material.roughness]>
           (<[base +:+ "_albedo.png" := Material.png menv Material.albedo]>
              fs2)))).
Proof.
  intros rn menv out fs1 base lines Hq Hqm Hmode Hmat Hs Hl Hd Hmk Hp Ho Hc Hr
    Hi Hdir Hlib Hget Hload Hexp Hmmk Hsave.
  assert (Hply : PyStr.endswith ".ply" out = true)
    by apply output_path_ends_ply.
  assert (Hgen :
    Printing.generate_text_to_3d fl rn (Printing.prompt a) (Printing.output a)
      fs = (inr out, lines, fs1))
    by exact (generate_text_converted fl sh (Printing.prompt a)
                (Printing.output a) fs fs0 fsp fso fsc
                Hq Hs Hl Hd Hmk Hp Ho Hc Hr).
  split; [exact Hply|]. split; [exact Hgen|].
  split; [apply lookup_delete_eq|].
  assert (Hg : Printing.generation fl sh a =
               Some (Printing.generate_text_to_3d fl rn (Printing.prompt a)
                       (Printing.output a)))
    by (unfold Printing.generation; rewrite Hmode; reflexivity).
  pose proof (generate_materials_converts sh out (Printing.prompt a)
                (PosixPath.join (Printing.output a) "materials") fs1 fs2
                Hqm Hply Hdir Hlib Hget Hload Hexp Hmmk Hsave) as Hm.
  pose proof (material_step_success sh a out fs1 _ Hq Hi Hm) as Hstep.
  exact (main_after_generation fl sh a _ fs out lines fs1 None _ _
           Hq Hg Hgen Hmat Hstep).
Qed.

(** The prompt [a red chair] on a machine where nothing fails: after the
    generation no file is at the path of the OBJ file, at the end of
    [main] the OBJ file of the material module is. *)
Lemma generated_mesh_is_converted_again_witness :
  exists fs1 fs3,
    Printing.generate_text_to_3d DecFloat.model (Printing.studio_run silent)
      "a red chair" "out" ∅
    = (inr "out/a_red_chair.ply",
       ["OUTPUT_PATH: out/a_red_chair.ply"; "USDZ_PATH: out/a_red_chair.usdz"],
       fs1) /\
    fs1 !! "out/a_red_chair.obj" = None /\
    Pr.program (Printing.main DecFloat.model (Printing.studio silent)
                  Printing.chair) ∅
    = (Returns,
       ["OUTPUT_PATH: out/a_red_chair.ply";
        "USDZ_PATH: out/a_red_chair.usdz";
        "MATERIAL_ALBEDO: out/materials/a_red_chair_albedo.png";
        "MATERIAL_ROUGHNESS: out/materials/a_red_chair_roughness.png";
        "MATERIAL_METALLIC: out/materials/a_red_chair_metallic.png";
        "MATERIAL_BUMP: out/materials/a_red_chair_bump.png"], fs3) /\
    fs3 !! "out/a_red_chair.obj" = Some (File (Text Example.triangle) 32).
Proof.
  destruct (generated_mesh_is_converted_again DecFloat.model
              (Printing.studio silent) Printing.chair
              (∅ : gmap string file)
              ({[ "cache/transmitter.pt" := File Blob 4096 ]}
                 : gmap string file)
              (<["out/a_red_chair.ply" := File Blob 4096]>
                 ({[ "cache/transmitter.pt" := File Blob 4096 ]}
                    : gmap string file))
              (<["out/a_red_chair.obj" := File (Text Example.triangle) 32]>
                 (<["out/a_red_chair.ply" := File Blob 4096]>
                    ({[ "cache/transmitter.pt" := File Blob 4096 ]}
                       : gmap string file)))
              (<["out/a_red_chair.obj" := File (Text Example.triangle) 32]>
                 Printing.chair_files)
              (<["out/a_red_chair.obj" := File (Text Example.triangle) 32]>
                 Printing.chair_files))
    as (_ & Hg & Hn & Hm).
  1-2: exact quiet_silent.
  1-17: try (vm_compute; reflexivity).
  { intros p f. reflexivity. }
  eexists _, _.
  split; [exact Hg|]. split; [exact Hn|]. split; [exact Hm|].
  vm_compute. reflexivity.
Defined.

(** ** The modules with and without their prints *)

Section SilentFacts.

Lemma prints_silent lines fs : prints silent lines fs = (inr tt, fs).
Proof. apply prints_quiet, quiet_silent. Qed.

Lemma bind_prints_silent {A} lines (k : unit -> M A) fs :
  bind (prints silent lines) k fs = k tt fs.
Proof. unfold bind. by rewrite prints_silent. Qed.

Lemma bind_ext {A B} (m1 m2 : M A) (k1 k2 : A -> M B) fs :
  m1 fs = m2 fs -> (forall a f, k1 a f = k2 a f) ->
  bind m1 k1 fs = bind m2 k2 fs.
Proof.
  intros Hm Hk. unfold bind. rewrite Hm.
  destruct (m2 fs) as [[e|a] f]; [reflexivity|apply Hk].
Qed.

Lemma try_except_ext {A} (b1 b2 : M A) (h1 h2 : exn -> M A) fs :
  b1 fs = b2 fs -> (forall e f, h1 e f = h2 e f) ->
  try_except b1 h1 fs = try_except b2 h2 fs.
Proof.
  intros Hb Hh. unfold try_except. rewrite Hb.
  destruct (b2 fs) as [[e|a] f]; [apply Hh|reflexivity].
Qed.

End SilentFacts.

(** When no write raises, [generate_nerf] with its prints is
    [Nerf.generate_nerf]. *)
Lemma nerf_printing_silent
    env images_dir output_dir dataset_type config_file fs :
  NerfPrinting.generate_nerf env silent images_dir output_dir dataset_type
    config_file fs
  = Nerf.generate_nerf env images_dir output_dir dataset_type config_file fs.
Proof.
  unfold NerfPrinting.generate_nerf, Nerf.generate_nerf.
  apply try_except_ext; [|intros e f; apply bind_prints_silent].
  apply bind_ext; [reflexivity|intros repo f0].
  destruct (negb repo); [reflexivity|].
  destruct (Nerf.import_tensorflow env) as [|m|e]; [|reflexivity|reflexivity].
  rewrite bind_prints_silent.
  unfold NerfPrinting.from_images, Nerf.from_images.
  apply bind_ext; [reflexivity|intros found f1].
  destruct (negb found); [reflexivity|].
  apply bind_ext; [reflexivity|intros names f2]. cbv zeta.
  destruct (_ <? 3); [reflexivity|].
  rewrite bind_prints_silent.
  apply bind_ext; [reflexivity|intros [] f3].
  apply bind_ext; [reflexivity|intros poses f4].
  assert (E : forall B (k : unit -> M B),
             bind (if negb poses then prints silent [95; 96; 97; 98]
                   else ret tt) k f4 = k tt f4).
  { intros B k. destruct poses; [reflexivity|apply bind_prints_silent]. }
  rewrite E.
  apply bind_ext.
  - destruct config_file as [c|]; [reflexivity|].
    unfold NerfPrinting.create_nerf_config, Nerf.create_nerf_config, bind.
    destruct (Nerf.write_text env _ _ f4) as [[e|[]] f5]; [reflexivity|].
    apply prints_silent.
  - intros [] f5. rewrite !bind_prints_silent. reflexivity.
Qed.

(** When no write raises, [generate_materials] with its prints is
    [Material.generate_materials]. *)
Lemma material_printing_silent
    env mesh_path prompt output_dir model_dir fs :
  MaterialPrinting.generate_materials env silent mesh_path prompt output_dir
    model_dir fs
  = Material.generate_materials env mesh_path prompt output_dir model_dir fs.
Proof.
  unfold MaterialPrinting.generate_materials, Material.generate_materials.
  apply try_except_ext; [|intros e f; apply bind_prints_silent].
  apply bind_ext; [reflexivity|intros found f0].
  destruct (negb found); [reflexivity|]. cbv zeta.
  assert (Ed : forall B (k : unit -> M B),
             bind (print_at silent
                     (MaterialPrinting.device_line (Material.pick_device env)))
               k f0 = k tt f0) by reflexivity.
  rewrite Ed.
  destruct (Material.import_lib env) as [|m|e]; [|reflexivity|reflexivity].
  rewrite bind_prints_silent.
  apply bind_ext; [reflexivity|intros [] f1].
  rewrite bind_prints_silent.
  apply bind_ext.
  { unfold MaterialPrinting.ply_to_obj, Material.ply_to_obj.
    destruct (PyStr.endswith ".ply" mesh_path); [|reflexivity].
    apply bind_ext; [reflexivity|intros [] f2]. unfold bind.
    destruct (Material.mesh_export env _ f2) as [[e|[]] f3]; [reflexivity|].
    apply prints_silent. }
  intros [] f2.
  apply bind_ext; [reflexivity|intros [] f3].
  assert (Ea : forall B (k : unit -> M B),
             bind (MaterialPrinting.material_anything silent
                     (Material.pick_device env)) k f3 = k tt f3).
  { intros B k. unfold bind, MaterialPrinting.material_anything, try_except.
    destruct (Material.pick_device env); rewrite prints_silent;
      reflexivity. }
  rewrite Ea.
  apply bind_ext; [|reflexivity].
  unfold MaterialPrinting.simplified, Material.simplified. cbv zeta.
  rewrite bind_prints_silent.
  do 4 (apply bind_ext; [reflexivity|intros [] ?]).
  apply bind_prints_silent.
Qed.

Section GeneratorLink.

Context (fl : PyFloat) (genv : GenEnv).

(** The USDZ step with its prints, when no write raises. *)
Lemma printing_export_usdz_silent off out fs :
  Printing.export_usdz fl (quiet_run genv) off out fs
  = export_usdz fl genv out fs.
Proof.
  unfold Printing.export_usdz, export_usdz.
  apply try_except_ext; [|intros e f; apply prints_silent].
  apply bind_ext; [reflexivity|intros [] f1].
  apply bind_ext; [apply printing_convert_silent|intros b f2].
  destruct b; [|apply prints_silent].
  cbn [Printing.print_err quiet_run]. rewrite bind_prints_silent.
  reflexivity.
Qed.

(** The [try] of line 282 with its prints, when no write raises. *)
Lemma printing_save_mesh_silent off out fs :
  Printing.save_mesh fl (quiet_run genv) off out fs
  = (mesh_export genv out ;; export_usdz fl genv out)%io fs.
Proof.
  assert (Hb :
    (Printing.mesh_export (quiet_run genv) out ;;
     prints (Printing.print_err (quiet_run genv)) [285 + off; 286 + off] ;;
     prints (Printing.print_err (quiet_run genv)) [290 + off; 291 + off] ;;
     Printing.export_usdz fl (quiet_run genv) off out)%io fs
    = (mesh_export genv out ;; export_usdz fl genv out)%io fs).
  { apply bind_ext; [reflexivity|intros [] f1].
    cbn [Printing.print_err quiet_run]. rewrite !bind_prints_silent.
    apply printing_export_usdz_silent. }
  unfold Printing.save_mesh, try_except. rewrite Hb.
  destruct ((mesh_export genv out ;; export_usdz fl genv out)%io fs)
    as [[e|[]] f1]; [|reflexivity].
  cbn [Printing.print_err quiet_run]. apply bind_prints_silent.
Qed.

(** When no write raises, [generate_text_to_3d] with its prints is
    [generate_text_to_3d] above. *)
Lemma printing_generate_text_silent prompt output_dir fs :
  Printing.generate_text_to_3d fl (quiet_run genv) prompt output_dir fs =
  match generate_text_to_3d fl genv prompt output_dir fs with
  | (inl e, fs') => (inl (Exn e), [], fs')
  | (inr (out, lines), fs') => (inr out, lines, fs')
  end.
Proof.
  set (out := output_path output_dir (safe_prompt prompt)).
  assert (Ht : Printing.text_mesh fl (quiet_run genv) prompt output_dir fs =
               (stage (setup_models_err genv) ;;
                stage (sample_latents_err genv) ;;
                stage (decode_latent_mesh_err genv) ;;
                stage (makedirs_err genv) ;;
                mesh_export genv out ;;
                export_usdz fl genv out ;;
                ret out)%io fs).
  { unfold Printing.text_mesh.
    cbn [Printing.print_err Printing.setup_models Printing.makedirs_err
           Printing.sample_latents_err Printing.decode_latent_mesh_err
           quiet_run].
    apply bind_ext; [reflexivity|intros [] f0].
    rewrite !bind_prints_silent.
    apply bind_ext; [apply (guarded_quiet (quiet_run genv)), quiet_silent
                    |intros [] f1].
    rewrite bind_prints_silent.
    apply bind_ext; [apply (guarded_quiet (quiet_run genv)), quiet_silent
                    |intros [] f2].
    apply bind_ext; [reflexivity|intros [] f3].
    cbv zeta. fold out. rewrite bind_prints_silent.
    unfold bind at 1. rewrite printing_save_mesh_silent.
    unfold bind.
    destruct (mesh_export genv out f3) as [[e|[]] f4]; [reflexivity|].
    destruct (export_usdz fl genv out f4) as [[e|[]] f5]; reflexivity. }
  unfold Printing.generate_text_to_3d.
  unfold Pr.bind at 1, Pr.lift. rewrite Ht.
  unfold generate_text_to_3d. fold out.
  destruct (setup_models_err genv) as [e|];
    [reflexivity|change (stage None) with (ret (A:=unit) tt)].
  destruct (sample_latents_err genv) as [e|];
    [reflexivity|change (stage None) with (ret (A:=unit) tt)].
  destruct (decode_latent_mesh_err genv) as [e|];
    [reflexivity|change (stage None) with (ret (A:=unit) tt)].
  destruct (makedirs_err genv) as [e|];
    [reflexivity|change (stage None) with (ret (A:=unit) tt)].
  unfold save_mesh, bind, ret.
  destruct (mesh_export genv out fs) as [[e|[]] f4]; [reflexivity|].
  destruct (export_usdz_returns fl genv out f4) as (f5 & ->).
  unfold Pr.bind.
  rewrite (announce_quiet (quiet_run genv) 0 out f5 quiet_silent).
  unfold Os.path_exists, Pr.ret. rewrite app_nil_r.
  reflexivity.
Qed.

(** When no write raises, [generate_image_to_3d] with its prints is
    [generate_image_to_3d] above. *)
Lemma printing_generate_image_silent image_path prompt output_dir fs :
  Printing.generate_image_to_3d fl (quiet_run genv) image_path prompt
    output_dir fs =
  match generate_image_to_3d fl genv image_path prompt output_dir fs with
  | (inl e, fs') => (inl (Exn e), [], fs')
  | (inr (out, lines), fs') => (inr out, lines, fs')
  end.
Proof.
  unfold Printing.generate_image_to_3d.
  unfold Pr.bind at 1, Pr.lift.
  rewrite (image_mesh_quiet fl (quiet_run genv) _ _ _ _ quiet_silent).
  cbn [Printing.setup_models Printing.load_image_err Printing.makedirs_err
         Printing.sample_latents_err Printing.decode_latent_mesh_err
         Printing.stem quiet_run].
  unfold generate_image_to_3d.
  destruct (setup_models_err genv) as [e|];
    [reflexivity|change (stage None) with (ret (A:=unit) tt)].
  unfold bind at 1. unfold ret at 1 2.
  unfold bind at 1. unfold Os.path_exists at 1.
  destruct (fs !! image_path) as [f|] eqn:Hi.
  2:{ rewrite bool_decide_eq_false_2 by (intros [? ?]; discriminate).
      reflexivity. }
  rewrite bool_decide_eq_true_2 by eauto. cbn [negb].
  destruct (load_image_err genv) as [e|];
    [reflexivity|change (stage None) with (ret (A:=unit) tt)].
  destruct (sample_latents_err genv) as [e|];
    [reflexivity|change (stage None) with (ret (A:=unit) tt)].
  destruct (decode_latent_mesh_err genv) as [e|];
    [reflexivity|change (stage None) with (ret (A:=unit) tt)].
  destruct (makedirs_err genv) as [e|];
    [reflexivity|change (stage None) with (ret (A:=unit) tt)].
  rewrite printing_save_mesh_silent.
  unfold save_mesh, bind, ret.
  destruct (mesh_export genv _ fs) as [[e|[]] f4]; [reflexivity|].
  destruct (export_usdz_returns fl genv
              (output_path output_dir (safe_name (stem genv image_path))) f4)
    as (f5 & ->).
  unfold Pr.bind.
  rewrite (announce_quiet (quiet_run genv) 126 _ f5 quiet_silent).
  unfold Os.path_exists, Pr.ret. rewrite app_nil_r.
  reflexivity.
Qed.

End GeneratorLink.

